(** * The bullet-hell simulation core of Kaitiso/webblog, embedded in Rocq

    The repository ships three variants of one game and a shared pattern
    file:

    - [Patterns]   : boss-patterns.ts (the pattern library and its playlists);
    - [BossRush]   : the single-boss game driven by [DefaultBossScript];
    - [Stages]     : the three-boss game driven by [Boss1Patterns] ..
                     [Boss3Patterns], with bomb-on-hit and boss succession;
    - [Scroller]   : themes/reimu/assets/js/touhou-game.ts, the scrolling
                     shooter with fodder enemies and the orphan-bullet pool.

    Modelling conventions.

    - A JavaScript [number] that holds a coordinate, a velocity, a size or a
      frame delta is an IEEE-754 binary64 value: Rocq's primitive [float].
      [undefined] coerced to a number is [nan].
    - Counters that only ever hold small integers (score, lives, stage,
      health, patternIndex) and the millisecond readings of [Date.now()] are
      [Z]; binary64 is exact on them far beyond any reachable value.
    - Arrays are lists.  [splice(i, 1)] is [delete i]; a loop that removes
      from the array it walks is modelled with its running index over the
      current array, not over a snapshot.
    - [Date.now()], [performance.now()] and [Math.random()] are inputs of the
      function that reads them.  [Math.sin], [Math.cos], [Math.atan2],
      [Math.floor] and the [%] operator on numbers are taken from the host
      through the class [HostMath].
    - Sprites, audio, particles and DOM text are presentation only: no
      simulation field is computed from them, and they are left out, except
      for the game-over overlay, whose title tells "Game Over!" from
      "Victory!".  One of these writes can raise: the lives display of the
      scroller, for a negative count; see [Scroller.updateUI]. *)

From Stdlib Require Import Floats ZArith Bool Lia String.
From stdpp Require Import base list.

Set Warnings "-inexact-float".

#[local] Open Scope float_scope.

(** ** JavaScript numbers *)

Module JS.

Definition number : Set := float.

(** [a > b] and [a >= b]; with a NaN operand every comparison is false,
    exactly as [ltb] and [leb] with swapped operands. *)
Definition gt (a b : number) : bool := PrimFloat.ltb b a.
Definition ge (a b : number) : bool := PrimFloat.leb b a.

(** An optional numeric property read where a number is expected
    ([bullet.vx!], [x + undefined]): [undefined] becomes NaN. *)
Definition toNumber (o : option number) : number :=
  match o with Some v => v | None => nan end.

(** [typeof v === 'number'] on an optional numeric property. *)
Definition isNumber (o : option number) : bool :=
  match o with Some _ => true | None => false end.

(** The values [a, a+1, ..., a+n-1] taken by the counter of
    [for (let i = a; i < a + n; i++)]. *)
Fixpoint range (n : nat) (a : number) : list number :=
  match n with
  | O => []
  | S k => a :: range k (a + 1)
  end.

(** What the host supplies and the repository only calls. *)
Class HostMath : Set := {
  Math_sin : number -> number;
  Math_cos : number -> number;
  Math_atan2 : number -> number -> number;
  Math_floor : number -> number;
  (** [a % b] on numbers *)
  rem : number -> number -> number
}.

Definition Math_PI : number := 3.141592653589793.
Definition Math_abs (v : number) : number := PrimFloat.abs v.
Definition Math_sqrt (v : number) : number := PrimFloat.sqrt v.

End JS.

Notation "a >? b" := (JS.gt a b) (at level 70, no associativity) : float_scope.
Notation "a >=? b" := (JS.ge a b) (at level 70, no associativity) : float_scope.

(** [Math.max(a, b)] and [Math.min(a, b)] on two numbers: NaN if either is
    NaN, and [-0] counts as smaller than [+0]. *)
Definition Math_max (a b : JS.number) : JS.number :=
  if is_nan a || is_nan b then nan
  else if a <? b then b
  else if b <? a then a
  else if get_sign a then b else a.

Definition Math_min (a b : JS.number) : JS.number :=
  if is_nan a || is_nan b then nan
  else if a <? b then a
  else if b <? a then b
  else if get_sign a then a else b.

(** The integer held by a number, for the fields the model keeps as [Z]
    (health, pattern type, movement type): exact on every integral
    double. *)
Definition toInt (v : JS.number) : Z :=
  match Prim2SF v with
  | SpecFloat.S754_finite sign m e =>
      let n := Z.shiftl (Z.pos m) e in
      if sign then (- n)%Z else n
  | _ => 0%Z
  end.

(** ** boss-patterns.ts *)

Module Patterns.
Import JS.

Module Vector2D.
Record t : Set := mk { x : number; y : number }.
End Vector2D.

Module BossBulletConfig.
Record t : Set := mk {
  position : Vector2D.t;
  speed : number;
  angleRad : number;
  width : number;
  height : number
}.
End BossBulletConfig.

Module PatternContext.
Record t : Set := mk {
  bossPos : Vector2D.t;
  playerPos : Vector2D.t;
  tick : number;
  seed : option number
}.
End PatternContext.

Module BossPattern.
Record t : Set := mk {
  name : string;
  duration : number;
  spawn : PatternContext.t -> list BossBulletConfig.t
}.
End BossPattern.

Import Vector2D BossBulletConfig PatternContext.

Section Library.
Context {M : HostMath}.

Definition degToRad (deg : number) : number := (deg * Math_PI) / 180.

Definition angleToPlayer (from to : Vector2D.t) : number :=
  Math_atan2 (y to - y from) (x to - x from).

Definition slow (v : number) : number := v * 0.8.

Definition radialBurst : BossPattern.t :=
  BossPattern.mk "radialBurst" 5000 (fun ctx =>
    if rem (tick ctx) 600 <? 16 then
      let count := 24 in
      map (fun i =>
             let angle := degToRad ((360 / count) * i + rem (tick ctx / 8) 360) in
             BossBulletConfig.mk
               (Vector2D.mk (x (bossPos ctx)) (y (bossPos ctx) + 30))
               (slow 2.5) angle 4 8)
          (range 24 0)
    else []).

Definition spiralStream : BossPattern.t :=
  BossPattern.mk "spiralStream" 6000 (fun ctx =>
    if rem (tick ctx) 60 <? 16 then
      let base := rem (tick ctx / 6) 360 in
      map (fun i =>
             let angle := degToRad (base + i * 180) in
             BossBulletConfig.mk
               (Vector2D.mk (x (bossPos ctx)) (y (bossPos ctx) + 20))
               (slow 3.0) angle 4 8)
          (range 2 0)
    else []).

Definition aimedVolley : BossPattern.t :=
  BossPattern.mk "aimedVolley" 4000 (fun ctx =>
    if rem (tick ctx) 500 <? 16 then
      let baseAngle := angleToPlayer (bossPos ctx) (playerPos ctx) in
      let spread := degToRad 20 in
      let count := 5 in
      map (fun i =>
             BossBulletConfig.mk
               (Vector2D.mk (x (bossPos ctx)) (y (bossPos ctx) + 30))
               (slow 3.2) (baseAngle + (i * spread) / (count / 2)) 4 8)
          (range 5 (-2))
    else []).

Definition waveRings : BossPattern.t :=
  BossPattern.mk "waveRings" 5000 (fun ctx =>
    if rem (tick ctx) 400 <? 16 then
      let count := 16 in
      map (fun i =>
             let base := (i / count) * Math_PI * 2 in
             let offset := Math_sin (tick ctx / 250) * 0.6 in
             BossBulletConfig.mk
               (Vector2D.mk (x (bossPos ctx)) (y (bossPos ctx) + 24))
               (slow 2.2) (base + offset) 4 8)
          (range 16 0)
    else []).

Definition zigzagBarrage : BossPattern.t :=
  BossPattern.mk "zigzagBarrage" 4800 (fun ctx =>
    if rem (tick ctx) 56 <? 12 then
      map (fun i =>
             let angle :=
               degToRad (60 + Math_sin (tick ctx / 250 + i) * 60 + i * 20) in
             BossBulletConfig.mk
               (Vector2D.mk (x (bossPos ctx) + i * 26) (y (bossPos ctx) + 18))
               (slow (2.55 + 0.2 * Math_abs i)) angle 4 8)
          (range 5 (-2))
    else []).

Definition crossSpread : BossPattern.t :=
  BossPattern.mk "crossSpread" 4400 (fun ctx =>
    if rem (tick ctx) 480 <? 20 then
      map (fun i =>
             BossBulletConfig.mk
               (Vector2D.mk (x (bossPos ctx)) (y (bossPos ctx) + 23))
               (slow 2.8) (degToRad (i * 45 + (tick ctx / 8))) 4 8)
          (range 8 0)
    else []).

Definition laserWall : BossPattern.t :=
  BossPattern.mk "laserWall" 6000 (fun ctx =>
    if rem (tick ctx) 700 <? 16 then
      let gapCount := 2 in
      let count := 18 in
      let gapPos :=
        Math_floor (Math_abs (Math_sin (tick ctx / 1200)) * (count - gapCount)) in
      flat_map (fun i =>
             let skip := existsb (fun g => i =? gapPos + g) (range 2 0) in
             if skip then []
             else [BossBulletConfig.mk
                     (Vector2D.mk (70 + i * 38) (y (bossPos ctx) + 5))
                     (slow 2.6) (degToRad 90) 6 16])
          (range 18 0)
    else []).

Definition inwardSpiral : BossPattern.t :=
  BossPattern.mk "inwardSpiral" 5800 (fun ctx =>
    if rem (tick ctx) 83 <? 16 then
      let base := angleToPlayer (bossPos ctx) (playerPos ctx) in
      map (fun i =>
             let spiralAngle :=
               base + (i - 3) * 0.45 + Math_sin (tick ctx / 220) * 0.4 in
             BossBulletConfig.mk
               (Vector2D.mk (x (bossPos ctx)) (y (bossPos ctx)))
               (slow (2.45 + Math_abs (i - 3) * 0.1)) spiralAngle 4 8)
          (range 7 0)
    else []).

Definition sidelongZigzag : BossPattern.t :=
  BossPattern.mk "sidelongZigzag" 4500 (fun ctx =>
    if rem (tick ctx) 220 <? 18 then
      flat_map (fun side =>
             let startX := if side =? 0 then 70 else 620 in
             let baseAngle := if side =? 0 then degToRad 75 else degToRad 105 in
             map (fun i =>
                    BossBulletConfig.mk
                      (Vector2D.mk startX (y (bossPos ctx) + 10 + i * 9))
                      (slow (3.3 - 0.2 * i))
                      (baseAngle + Math_sin (tick ctx / 130 + i) * 0.4) 4 8)
                 (range 4 0))
          (range 2 0)
    else []).

Definition curtainRain : BossPattern.t :=
  BossPattern.mk "curtainRain" 5000 (fun ctx =>
    if rem (tick ctx) 90 <? 16 then
      map (fun i =>
             let x0 := 80 + i * 70 in
             let angle :=
               degToRad (90 + Math_sin ((tick ctx + i * 50) / 200) * 20) in
             BossBulletConfig.mk
               (Vector2D.mk x0 (y (bossPos ctx))) (slow 2.6) angle 4 8)
          (range 9 0)
    else []).

Definition gappedRingSweep : BossPattern.t :=
  BossPattern.mk "gappedRingSweep" 4500 (fun ctx =>
    if rem (tick ctx) 500 <? 16 then
      let gaps := 2 in
      let count := 36 in
      let gapStart := Math_floor (rem (tick ctx / 10) count) in
      flat_map (fun i =>
             let skip :=
               existsb (fun g =>
                          i =? rem (gapStart + g * Math_floor (count / gaps)) count)
                       (range 2 0) in
             if skip then []
             else [BossBulletConfig.mk
                     (Vector2D.mk (x (bossPos ctx)) (y (bossPos ctx)))
                     (slow 2.4)
                     (degToRad ((360 / count) * i + (tick ctx / 8))) 4 8])
          (range 36 0)
    else []).

Definition aimedSpiral : BossPattern.t :=
  BossPattern.mk "aimedSpiral" 5500 (fun ctx =>
    if rem (tick ctx) 70 <? 16 then
      let base :=
        angleToPlayer (bossPos ctx) (playerPos ctx) + (tick ctx / 200) in
      map (fun i =>
             BossBulletConfig.mk
               (Vector2D.mk (x (bossPos ctx)) (y (bossPos ctx)))
               (slow 3.0) (base + i * 0.5) 4 8)
          (range 3 0)
    else []).

Definition simpleRain : BossPattern.t :=
  BossPattern.mk "simpleRain" 4000 (fun ctx =>
    if rem (tick ctx) 150 <? 16 then
      map (fun i =>
             let x0 := 150 + i * 100 in
             BossBulletConfig.mk
               (Vector2D.mk x0 (y (bossPos ctx)))
               (slow 2.0) (degToRad 90) 4 8)
          (range 6 0)
    else []).

Definition denseSpiral : BossPattern.t :=
  BossPattern.mk "denseSpiral" 6000 (fun ctx =>
    if rem (tick ctx) 40 <? 16 then
      let base := rem (tick ctx / 5) 360 in
      map (fun i =>
             let angle := degToRad (base + i * 90) in
             BossBulletConfig.mk
               (Vector2D.mk (x (bossPos ctx)) (y (bossPos ctx)))
               (slow 3.5) angle 4 8)
          (range 4 0)
    else []).

(** The argument of [shufflePatterns] in the source. *)
Definition scriptPool : list BossPattern.t :=
  [ radialBurst; zigzagBarrage; spiralStream; crossSpread; aimedVolley;
    waveRings; curtainRain; gappedRingSweep; aimedSpiral; laserWall;
    inwardSpiral; sidelongZigzag ].

Definition Boss1Patterns : list BossPattern.t :=
  [ spiralStream; aimedVolley; simpleRain ].

Definition Boss2Patterns : list BossPattern.t :=
  [ radialBurst; zigzagBarrage; waveRings; crossSpread; curtainRain ].

Definition Boss3Patterns : list BossPattern.t :=
  [ laserWall; inwardSpiral; sidelongZigzag; gappedRingSweep; denseSpiral ].

End Library.

(** [[a[i], a[j]] = [a[j], a[i]]] *)
Definition swap {A} (i j : nat) (a : list A) : list A :=
  match a !! i, a !! j with
  | Some ai, Some aj => <[j := ai]> (<[i := aj]> a)
  | _, _ => a
  end.

(** Fisher-Yates, for [i] from [a.length - 1] down to [1].  Each draw
    [Math.floor(Math.random() * (i + 1))] is an integer in [0, i]; the
    draws are the list [js], each reduced into that interval. *)
Fixpoint shuffleFrom {A} (i : nat) (js : list nat) (a : list A) : list A :=
  match i with
  | O => a
  | S i' =>
      match js with
      | [] => a
      | j :: js' => shuffleFrom i' js' (swap i (j mod (i + 1)) a)
      end
  end.

Definition shufflePatterns {A} (js : list nat) (arr : list A) : list A :=
  shuffleFrom (length arr - 1) js arr.

Definition DefaultBossScript `{HostMath} (js : list nat) : list BossPattern.t :=
  shufflePatterns js scriptPool.

(** Every pattern the file exports, directly or inside a playlist. *)
Definition library `{HostMath} : list BossPattern.t :=
  scriptPool ++ Boss1Patterns ++ Boss2Patterns ++ Boss3Patterns.

End Patterns.

(** ** Control flow shared by the three games *)

(** How a method leaves: normally, or by an uncaught [TypeError] (a property
    read on [null] or [undefined]).  Objects are mutated in place, so the
    state reached when the error is thrown is what the caller is left
    with. *)
Inductive completion (A : Type) : Type :=
| Normal (a : A)
| Throw (a : A).
Arguments Normal {A} a.
Arguments Throw {A} a.

Definition andThen {A} (c : completion A) (k : A -> completion A) : completion A :=
  match c with
  | Normal a => k a
  | Throw a => Throw a
  end.

Definition state_of {A} (c : completion A) : A :=
  match c with Normal a | Throw a => a end.

Notation "x <- c ;; k" := (andThen c (fun x => k))
  (at level 100, c at next level, right associativity).

Section ForEach.
Context {S A : Type}.
(** [arr s] is the array object being walked, read from the current state:
    the callback may shorten it with [splice]. *)
Variable arr : S -> list A.
Variable callback : A -> nat -> S -> completion S.

(** [Array.prototype.forEach]: the indices [k, k+1, ...] for [n] rounds;
    an index that is no longer in the array is passed over. *)
Fixpoint forEachFrom (n k : nat) (s : S) : completion S :=
  match n with
  | O => Normal s
  | Datatypes.S n' =>
      s' <- match arr s !! k with
            | Some a => callback a k s
            | None => Normal s
            end ;;
      forEachFrom n' (Datatypes.S k) s'
  end.

(** The length is read once, before the first callback. *)
Definition forEach (s : S) : completion S :=
  forEachFrom (length (arr s)) 0 s.

(** [for (const a of arr) body]: the iterator compares its index with the
    current length at every step and stops at the first index that is out
    of the array; [body] answers [true] to [break].  The walked arrays
    never grow, so [n = length] rounds always reach the end. *)
Variable body : A -> nat -> S -> S * bool.

Fixpoint forOfFrom (n k : nat) (s : S) : S :=
  match n with
  | O => s
  | Datatypes.S n' =>
      match arr s !! k with
      | Some a =>
          let '(s', stop) := body a k s in
          if stop then s' else forOfFrom n' (Datatypes.S k) s'
      | None => s
      end
  end.

Definition forOf (s : S) : S := forOfFrom (length (arr s)) 0 s.
End ForEach.

(** Any object with [x], [y], [width] and [height]. *)
Module Rect.
Record t : Set := mk {
  x : JS.number; y : JS.number; width : JS.number; height : JS.number
}.
End Rect.

(** [checkCollision] of the boss games and [checkRectCollision] of the
    scroller: the same four comparisons. *)
Definition checkCollision (rect1 rect2 : Rect.t) : bool :=
  (Rect.x rect1 <? Rect.x rect2 + Rect.width rect2) &&
  (Rect.x rect1 + Rect.width rect1 >? Rect.x rect2) &&
  (Rect.y rect1 <? Rect.y rect2 + Rect.height rect2) &&
  (Rect.y rect1 + Rect.height rect1 >? Rect.y rect2).

Inductive BulletType : Set := player_t | enemy_t.

Module Canvas.
Record t : Set := mk { width : JS.number; height : JS.number }.
End Canvas.

(** ** What the two boss games share

    The interface declarations of [Bullet], [Player] and [Enemy] and the
    methods [updateBullets] and [checkCollision] are the same text in both
    files. *)

Module Arcade.
Import JS.

Module Bullet.
Record t : Set := mk {
  x : number;
  y : number;
  width : number;
  height : number;
  speed : number;
  type : BulletType;
  vx : option number;
  vy : option number
}.
Definition rect (b : t) : Rect.t := Rect.mk (x b) (y b) (width b) (height b).
Definition set_x (v : number) (b : t) : t :=
  mk v (y b) (width b) (height b) (speed b) (type b) (vx b) (vy b).
Definition set_y (v : number) (b : t) : t :=
  mk (x b) v (width b) (height b) (speed b) (type b) (vx b) (vy b).
End Bullet.

Module Player.
Record t : Set := mk {
  x : number;
  y : number;
  width : number;
  height : number;
  speed : number;
  bullets : list Bullet.t;
  lastShot : Z;
  shootCooldown : Z
}.
Definition set_bullets (bs : list Bullet.t) (p : t) : t :=
  mk (x p) (y p) (width p) (height p) (speed p) bs (lastShot p) (shootCooldown p).
Definition set_x (v : number) (p : t) : t :=
  mk v (y p) (width p) (height p) (speed p) (bullets p) (lastShot p) (shootCooldown p).
Definition set_y (v : number) (p : t) : t :=
  mk (x p) v (width p) (height p) (speed p) (bullets p) (lastShot p) (shootCooldown p).
Definition set_lastShot (v : Z) (p : t) : t :=
  mk (x p) (y p) (width p) (height p) (speed p) (bullets p) v (shootCooldown p).
End Player.

Module Enemy.
Record t : Set := mk {
  x : number;
  y : number;
  width : number;
  height : number;
  speed : number;
  bullets : list Bullet.t;
  lastShot : Z;
  shootCooldown : number;
  health : Z;
  maxHealth : Z
}.
Definition rect (e : t) : Rect.t := Rect.mk (x e) (y e) (width e) (height e).
Definition set_health (h : Z) (e : t) : t :=
  mk (x e) (y e) (width e) (height e) (speed e) (bullets e) (lastShot e)
     (shootCooldown e) h (maxHealth e).
End Enemy.

Module Boss.
Record t : Set := mk {
  x : number;
  y : number;
  width : number;
  height : number;
  health : Z;
  maxHealth : Z;
  bullets : list Bullet.t
}.
Definition rect (b : t) : Rect.t := Rect.mk (x b) (y b) (width b) (height b).
Definition set_x (v : number) (b : t) : t :=
  mk v (y b) (width b) (height b) (health b) (maxHealth b) (bullets b).
Definition set_health (h : Z) (b : t) : t :=
  mk (x b) (y b) (width b) (height b) h (maxHealth b) (bullets b).
Definition set_bullets (bs : list Bullet.t) (b : t) : t :=
  mk (x b) (y b) (width b) (height b) (health b) (maxHealth b) bs.
End Boss.

(** The callback of [this.player.bullets.filter] in [updateBullets]: it
    moves the bullet, then answers whether to keep it. *)
Definition movePlayerBullet (bullet : Bullet.t) : Bullet.t :=
  if isNumber (Bullet.vx bullet) && isNumber (Bullet.vy bullet) then
    let b1 := Bullet.set_x (Bullet.x bullet + toNumber (Bullet.vx bullet)) bullet in
    Bullet.set_y (Bullet.y b1 + toNumber (Bullet.vy b1)) b1
  else
    Bullet.set_y (Bullet.y bullet - Bullet.speed bullet) bullet.

Definition keepPlayerBullet (canvas : Canvas.t) (bullet : Bullet.t) : bool :=
  (Bullet.y bullet >? - Bullet.height bullet) &&
  (Bullet.x bullet >=? -20) &&
  (Bullet.x bullet <=? Canvas.width canvas + 20).

(** The callback of [this.boss.bullets.filter]. *)
Definition moveBossBullet (bullet : Bullet.t) : Bullet.t :=
  if isNumber (Bullet.vx bullet) && isNumber (Bullet.vy bullet) then
    let b1 := Bullet.set_x (Bullet.x bullet + toNumber (Bullet.vx bullet)) bullet in
    Bullet.set_y (Bullet.y b1 + toNumber (Bullet.vy b1)) b1
  else
    Bullet.set_y (Bullet.y bullet + Bullet.speed bullet) bullet.

Definition keepBossBullet (canvas : Canvas.t) (bullet : Bullet.t) : bool :=
  (Bullet.y bullet <? Canvas.height canvas + Bullet.height bullet) &&
  (Bullet.y bullet >? - Bullet.height bullet - 10).

(** [arr.filter(cb)] where [cb] first mutates its argument: the kept
    elements are the mutated objects, in order. *)
Definition filterMoved (move : Bullet.t -> Bullet.t) (keep : Bullet.t -> bool)
    (bullets : list Bullet.t) : list Bullet.t :=
  List.filter keep (map move bullets).

Definition updatePlayerBullets (canvas : Canvas.t) (p : Player.t) : Player.t :=
  Player.set_bullets
    (filterMoved movePlayerBullet (keepPlayerBullet canvas) (Player.bullets p)) p.

Definition updateBossBullets (canvas : Canvas.t) (boss : option Boss.t)
    : option Boss.t :=
  match boss with
  | Some b =>
      Some (Boss.set_bullets
              (filterMoved moveBossBullet (keepBossBullet canvas) (Boss.bullets b)) b)
  | None => None
  end.

(** The square around the centre of the player that boss bullets are
    tested against ([playerHitboxRadius = 4]). *)
Definition playerHitboxRadius : number := 4.

Definition hitbox (p : Player.t) : Rect.t :=
  Rect.mk (Player.x p + Player.width p / 2 - playerHitboxRadius)
          (Player.y p + Player.height p / 2 - playerHitboxRadius)
          (playerHitboxRadius * 2)
          (playerHitboxRadius * 2).

(** A [BulletSpawn] descriptor turned into a boss bullet in [updateBoss]. *)
Definition toBullet `{HostMath} (b : Patterns.BossBulletConfig.t) : Bullet.t :=
  let vx := Math_cos (Patterns.BossBulletConfig.angleRad b)
            * Patterns.BossBulletConfig.speed b in
  let vy := Math_sin (Patterns.BossBulletConfig.angleRad b)
            * Patterns.BossBulletConfig.speed b in
  Bullet.mk (Patterns.Vector2D.x (Patterns.BossBulletConfig.position b))
            (Patterns.Vector2D.y (Patterns.BossBulletConfig.position b))
            (Patterns.BossBulletConfig.width b)
            (Patterns.BossBulletConfig.height b)
            (Patterns.BossBulletConfig.speed b)
            enemy_t (Some vx) (Some vy).

Definition patternContext (boss : Boss.t) (p : Player.t) (tick : number)
    : Patterns.PatternContext.t :=
  Patterns.PatternContext.mk
    (Patterns.Vector2D.mk (Boss.x boss + Boss.width boss / 2)
                          (Boss.y boss + Boss.height boss / 2))
    (Patterns.Vector2D.mk (Player.x p + Player.width p / 2)
                          (Player.y p + Player.height p / 2))
    tick None.

(** What the keyboard handlers have recorded when a frame starts: the
    entries of [this.keys] that [updatePlayer] reads (an absent entry is
    falsy), [isShootingHeld] and [isSlowHeld]. *)
Module Input.
Record t : Set := mk {
  arrowleft : bool; a : bool;
  arrowright : bool; d : bool;
  arrowup : bool; w : bool;
  arrowdown : bool; s : bool;
  isShootingHeld : bool;
  isSlowHeld : bool
}.
End Input.

(** The clock readings of one frame: [Date.now()] at the cooldown test of
    [playerShoot] and where it stores [lastShot], [performance.now()] in
    [updateBoss], and [Date.now()] in the callback of each boss bullet. *)
Module Clock.
Record t : Type := mk {
  shotTested : Z;
  shotStored : Z;
  perfNow : number;
  hitAt : nat -> Z
}.
End Clock.

(** The movement part of [updatePlayer], the same text in both files. *)
Definition movePlayer (canvas : Canvas.t) (input : Input.t) (p : Player.t)
    : Player.t :=
  let speed := if Input.isSlowHeld input then Player.speed p * 0.4
               else Player.speed p in
  let p1 := if Input.arrowleft input || Input.a input
            then Player.set_x (Math_max 0 (Player.x p - speed)) p else p in
  let p2 := if Input.arrowright input || Input.d input
            then Player.set_x
                   (Math_min (Canvas.width canvas - Player.width p1)
                             (Player.x p1 + speed)) p1
            else p1 in
  let p3 := if Input.arrowup input || Input.w input
            then Player.set_y (Math_max 0 (Player.y p2 - speed)) p2 else p2 in
  if Input.arrowdown input || Input.s input
  then Player.set_y
         (Math_min (Canvas.height canvas - Player.height p3)
                   (Player.y p3 + speed)) p3
  else p3.

(** [playerShoot()]: two shots aimed at the centre of the boss, or one
    straight up when there is no boss. *)
Definition playerShoot `{HostMath} (tested stored : Z) (boss : option Boss.t)
    (p : Player.t) : Player.t :=
  if (tested - Player.lastShot p <? Player.shootCooldown p)%Z then p
  else
    match boss with
    | Some b =>
        let aimed offsetX :=
          let fromX := Player.x p + Player.width p / 2 + offsetX in
          let fromY := Player.y p in
          let toX := Boss.x b + Boss.width b / 2 in
          let toY := Boss.y b + Boss.height b / 2 in
          let angle := Math_atan2 (toY - fromY) (toX - fromX) in
          let speed := 7 in
          Bullet.mk fromX fromY 4 8 speed player_t
                    (Some (Math_cos angle * speed)) (Some (Math_sin angle * speed)) in
        Player.set_lastShot stored
          (Player.set_bullets (Player.bullets p ++ [aimed (-5); aimed 5]) p)
    | None =>
        let bullet :=
          Bullet.mk (Player.x p + Player.width p / 2 - 2) (Player.y p) 4 8 7
                    player_t (Some 0) (Some (-7)) in
        Player.set_lastShot stored
          (Player.set_bullets (Player.bullets p ++ [bullet]) p)
    end.

(** [updatePlayer(deltaTime)]: move, then shoot while the key is held.
    The sprite frame it also advances is presentation only. *)
Definition updatePlayer `{HostMath} (canvas : Canvas.t) (input : Input.t)
    (clock : Clock.t) (boss : option Boss.t) (p : Player.t) : Player.t :=
  let p1 := movePlayer canvas input p in
  if Input.isShootingHeld input
  then playerShoot (Clock.shotTested clock) (Clock.shotStored clock) boss p1
  else p1.

End Arcade.

(** ** The single-boss game (playlist [DefaultBossScript], 1.2 s of
       invulnerability, one point of damage per hit) *)

Module BossRush.
Import JS Arcade.

Module GameState.
Record t : Set := mk {
  isRunning : bool;
  isPaused : bool;
  score : Z;
  lives : Z;
  level : Z
}.
Definition set_isRunning (v : bool) (s : t) : t :=
  mk v (isPaused s) (score s) (lives s) (level s).
Definition set_score (v : Z) (s : t) : t :=
  mk (isRunning s) (isPaused s) v (lives s) (level s).
Definition set_lives (v : Z) (s : t) : t :=
  mk (isRunning s) (isPaused s) (score s) v (level s).
Definition set_isPaused (v : bool) (s : t) : t :=
  mk (isRunning s) v (score s) (lives s) (level s).
End GameState.

(** The fields of [class TouhouGame] that the simulation reads or writes,
    and [overlayHidden]: whether [#game-over-screen] carries the class
    [hidden]. *)
Module Game.
Record t : Set := mk {
  canvas : Canvas.t;
  gameState : GameState.t;
  player : Player.t;
  enemies : list Enemy.t;
  boss : option Boss.t;
  invulnerableUntil : Z;
  patternIndex : nat;
  patternElapsed : number;
  overlayHidden : bool
}.
Definition set_gameState (v : GameState.t) (g : t) : t :=
  mk (canvas g) v (player g) (enemies g) (boss g) (invulnerableUntil g)
     (patternIndex g) (patternElapsed g) (overlayHidden g).
Definition set_player (v : Player.t) (g : t) : t :=
  mk (canvas g) (gameState g) v (enemies g) (boss g) (invulnerableUntil g)
     (patternIndex g) (patternElapsed g) (overlayHidden g).
Definition set_enemies (v : list Enemy.t) (g : t) : t :=
  mk (canvas g) (gameState g) (player g) v (boss g) (invulnerableUntil g)
     (patternIndex g) (patternElapsed g) (overlayHidden g).
Definition set_boss (v : option Boss.t) (g : t) : t :=
  mk (canvas g) (gameState g) (player g) (enemies g) v (invulnerableUntil g)
     (patternIndex g) (patternElapsed g) (overlayHidden g).
Definition set_invulnerableUntil (v : Z) (g : t) : t :=
  mk (canvas g) (gameState g) (player g) (enemies g) (boss g) v
     (patternIndex g) (patternElapsed g) (overlayHidden g).
Definition set_pattern (i : nat) (e : number) (g : t) : t :=
  mk (canvas g) (gameState g) (player g) (enemies g) (boss g)
     (invulnerableUntil g) i e (overlayHidden g).
Definition set_overlayHidden (v : bool) (g : t) : t :=
  mk (canvas g) (gameState g) (player g) (enemies g) (boss g)
     (invulnerableUntil g) (patternIndex g) (patternElapsed g) v.

Definition lives (g : t) : Z := GameState.lives (gameState g).
Definition score (g : t) : Z := GameState.score (gameState g).
Definition isRunning (g : t) : bool := GameState.isRunning (gameState g).
Definition playerBullets (g : t) : list Bullet.t := Player.bullets (player g).
Definition bossBullets (g : t) : list Bullet.t :=
  match boss g with Some b => Boss.bullets b | None => [] end.
Definition set_playerBullets (bs : list Bullet.t) (g : t) : t :=
  set_player (Player.set_bullets bs (player g)) g.
Definition set_bossBullets (bs : list Bullet.t) (g : t) : t :=
  set_boss (option_map (Boss.set_bullets bs) (boss g)) g.
End Game.

(** The state the constructor leaves. *)
Definition create (canvas : Canvas.t) : Game.t :=
  Game.mk canvas (GameState.mk false false 0 3 1)
    (Player.mk (Canvas.width canvas / 2 - 16) (Canvas.height canvas - 70)
               32 40 5 [] 0 150)
    [] None 0%Z 0%nat 0 true.

Definition startGame (g : Game.t) : Game.t :=
  let c := Game.canvas g in
  let p := Game.player g in
  Game.mk c (GameState.mk true false 0 3 1)
    (Player.mk (Canvas.width c / 2 - 16) (Canvas.height c - 70)
               (Player.width p) (Player.height p) (Player.speed p) []
               (Player.lastShot p) (Player.shootCooldown p))
    []
    (Some (Boss.mk (Canvas.width c / 2 - 48) 40 96 96 1000 1000 []))
    (Game.invulnerableUntil g) 0%nat 0 (Game.overlayHidden g).

Definition gameOver (g : Game.t) : Game.t :=
  Game.set_overlayHidden false
    (Game.set_gameState (GameState.set_isRunning false (Game.gameState g)) g).

(** [updateBoss(deltaTime)]; [patterns] is the imported playlist and
    [perfNow] the reading of [performance.now()]. *)
Definition updateBoss `{HostMath} (patterns : list Patterns.BossPattern.t)
    (perfNow deltaTime : number) (g : Game.t) : completion Game.t :=
  match Game.boss g with
  | None => Normal g
  | Some b0 =>
      let c := Game.canvas g in
      let b := Boss.set_x (Canvas.width c / 2 - Boss.width b0 / 2
                           + Math_sin (perfNow / 800) * 80) b0 in
      let elapsed := Game.patternElapsed g + deltaTime in
      let g1 := Game.set_pattern (Game.patternIndex g) elapsed
                  (Game.set_boss (Some b) g) in
      if (0 <? length patterns)%nat then
        match patterns !! (Game.patternIndex g mod length patterns)%nat with
        | None => Throw g1
        | Some current =>
            let ctx := patternContext b (Game.player g) elapsed in
            let bullets := Patterns.BossPattern.spawn current ctx in
            let g2 := Game.set_bossBullets
                        (Boss.bullets b ++ map toBullet bullets) g1 in
            if elapsed >=? Patterns.BossPattern.duration current then
              Normal (Game.set_pattern (S (Game.patternIndex g)) 0 g2)
            else Normal g2
        end
      else Normal g1
  end.

Definition updateBullets (g : Game.t) : Game.t :=
  let g1 := Game.set_player (updatePlayerBullets (Game.canvas g) (Game.player g)) g in
  Game.set_boss (updateBossBullets (Game.canvas g1) (Game.boss g1)) g1.

(** *** [updateCollisions] *)

(** Player bullets against the legacy [enemies] array. *)
Definition enemyCallback (bullet : Bullet.t) (bulletIndex : nat)
    (enemy : Enemy.t) (enemyIndex : nat) (g : Game.t) : completion Game.t :=
  if checkCollision (Bullet.rect bullet) (Enemy.rect enemy) then
    let g1 := Game.set_playerBullets (delete bulletIndex (Game.playerBullets g)) g in
    let enemy' := Enemy.set_health (Enemy.health enemy - 1) enemy in
    let g2 := Game.set_enemies (<[enemyIndex := enemy']> (Game.enemies g1)) g1 in
    if (Enemy.health enemy' <=? 0)%Z then
      let g3 := Game.set_enemies (delete enemyIndex (Game.enemies g2)) g2 in
      Normal (Game.set_gameState
                (GameState.set_score (Game.score g3 + 100) (Game.gameState g3)) g3)
    else Normal g2
  else Normal g.

Definition bulletsVsEnemies (g : Game.t) : completion Game.t :=
  forEach Game.playerBullets
    (fun bullet bulletIndex =>
       forEach Game.enemies (enemyCallback bullet bulletIndex))
    g.

Definition iFrameDuration : Z := 1200.

(** Boss bullets against the player; [now k] is what [Date.now()] returns
    inside the callback for index [k]. *)
Definition bossBulletCallback (now : nat -> Z) (bullet : Bullet.t)
    (bulletIndex : nat) (g : Game.t) : completion Game.t :=
  if checkCollision (Bullet.rect bullet) (hitbox (Game.player g)) then
    let g1 := Game.set_bossBullets (delete bulletIndex (Game.bossBullets g)) g in
    if (now bulletIndex >=? Game.invulnerableUntil g1)%Z then
      let g2 := Game.set_gameState
                  (GameState.set_lives (Game.lives g1 - 1) (Game.gameState g1)) g1 in
      let g3 := Game.set_invulnerableUntil (now bulletIndex + iFrameDuration) g2 in
      if (Game.lives g3 <=? 0)%Z then Normal (gameOver g3) else Normal g3
    else Normal g1
  else Normal g.

Definition bossBulletsVsPlayer (now : nat -> Z) (g : Game.t) : completion Game.t :=
  match Game.boss g with
  | Some _ => forEach Game.bossBullets (bossBulletCallback now) g
  | None => Normal g
  end.

(** Player bullets against the boss.  The callback reads [this.boss!.x]:
    once the boss has been set to [null] the next callback throws. *)
Definition bossCallback (bullet : Bullet.t) (bulletIndex : nat) (g : Game.t)
    : completion Game.t :=
  match Game.boss g with
  | None => Throw g
  | Some b =>
      if checkCollision (Bullet.rect bullet) (Boss.rect b) then
        let g1 := Game.set_playerBullets
                    (delete bulletIndex (Game.playerBullets g)) g in
        let b' := Boss.set_health (Boss.health b - 1) b in
        let g2 := Game.set_boss (Some b') g1 in
        if (Boss.health b' <=? 0)%Z then
          Normal (gameOver (Game.set_boss None g2))
        else Normal g2
      else Normal g
  end.

Definition bulletsVsBoss (g : Game.t) : completion Game.t :=
  match Game.boss g with
  | Some _ => forEach Game.playerBullets bossCallback g
  | None => Normal g
  end.

Definition updateCollisions (now : nat -> Z) (g : Game.t) : completion Game.t :=
  g1 <- bulletsVsEnemies g ;;
  g2 <- bossBulletsVsPlayer now g1 ;;
  bulletsVsBoss g2.

(** [update(deltaTime)], without the particles. *)
Definition update `{HostMath} (patterns : list Patterns.BossPattern.t)
    (input : Input.t) (clock : Clock.t) (deltaTime : number) (g : Game.t)
    : completion Game.t :=
  let g1 := Game.set_player
              (updatePlayer (Game.canvas g) input clock (Game.boss g) (Game.player g))
              g in
  g2 <- updateBoss patterns (Clock.perfNow clock) deltaTime g1 ;;
  updateCollisions (Clock.hitAt clock) (updateBullets g2).

(** The game together with [lastTime], the clock reading the frame delta
    is measured from. *)
Module Loop.
Record t : Set := mk { game : Game.t; lastTime : number }.
End Loop.

(** [gameLoop()]; [currentTime] is its reading of [performance.now()].
    The result is the state it leaves, and whether it has asked for
    another frame with [requestAnimationFrame]. *)
Definition gameLoop `{HostMath} (patterns : list Patterns.BossPattern.t)
    (input : Input.t) (clock : Clock.t) (currentTime : number) (l : Loop.t)
    : completion (Loop.t * bool) :=
  let g := Loop.game l in
  if negb (Game.isRunning g) || GameState.isPaused (Game.gameState g)
  then Normal (l, false)
  else
    let deltaTime := currentTime - Loop.lastTime l in
    match update patterns input clock deltaTime g with
    | Normal g' => Normal (Loop.mk g' currentTime, true)
    | Throw g' => Throw (Loop.mk g' currentTime, false)
    end.

(** [togglePause()]: on resuming it calls [gameLoop()] itself, whose
    reading of [performance.now()] is [currentTime]. *)
Definition togglePause `{HostMath} (patterns : list Patterns.BossPattern.t)
    (input : Input.t) (clock : Clock.t) (currentTime : number) (l : Loop.t)
    : completion (Loop.t * bool) :=
  let g := Loop.game l in
  if negb (Game.isRunning g) then Normal (l, false)
  else
    let paused := negb (GameState.isPaused (Game.gameState g)) in
    let l1 := Loop.mk (Game.set_gameState
                         (GameState.set_isPaused paused (Game.gameState g)) g)
                      (Loop.lastTime l) in
    if negb paused then gameLoop patterns input clock currentTime l1
    else Normal (l1, false).

End BossRush.

(** ** The three-boss game (one playlist per stage, 2 s of invulnerability
       with a bomb, two points of damage per hit, boss succession) *)

Module Stages.
Import JS Arcade.

Module GameState.
Record t : Set := mk {
  isRunning : bool;
  isPaused : bool;
  score : Z;
  lives : Z;
  level : Z;
  stage : Z;
  maxStage : Z
}.
Definition set_isRunning (v : bool) (s : t) : t :=
  mk v (isPaused s) (score s) (lives s) (level s) (stage s) (maxStage s).
Definition set_score (v : Z) (s : t) : t :=
  mk (isRunning s) (isPaused s) v (lives s) (level s) (stage s) (maxStage s).
Definition set_lives (v : Z) (s : t) : t :=
  mk (isRunning s) (isPaused s) (score s) v (level s) (stage s) (maxStage s).
Definition set_stage (v : Z) (s : t) : t :=
  mk (isRunning s) (isPaused s) (score s) (lives s) (level s) v (maxStage s).
Definition set_isPaused (v : bool) (s : t) : t :=
  mk (isRunning s) v (score s) (lives s) (level s) (stage s) (maxStage s).
End GameState.

(** As in [BossRush], plus [overlayTitle]: the text of the [h2] of
    [#game-over-screen]. *)
Module Game.
Record t : Set := mk {
  canvas : Canvas.t;
  gameState : GameState.t;
  player : Player.t;
  enemies : list Enemy.t;
  boss : option Boss.t;
  invulnerableUntil : Z;
  patternIndex : nat;
  patternElapsed : number;
  overlayHidden : bool;
  overlayTitle : string
}.
Definition set_gameState (v : GameState.t) (g : t) : t :=
  mk (canvas g) v (player g) (enemies g) (boss g) (invulnerableUntil g)
     (patternIndex g) (patternElapsed g) (overlayHidden g) (overlayTitle g).
Definition set_player (v : Player.t) (g : t) : t :=
  mk (canvas g) (gameState g) v (enemies g) (boss g) (invulnerableUntil g)
     (patternIndex g) (patternElapsed g) (overlayHidden g) (overlayTitle g).
Definition set_enemies (v : list Enemy.t) (g : t) : t :=
  mk (canvas g) (gameState g) (player g) v (boss g) (invulnerableUntil g)
     (patternIndex g) (patternElapsed g) (overlayHidden g) (overlayTitle g).
Definition set_boss (v : option Boss.t) (g : t) : t :=
  mk (canvas g) (gameState g) (player g) (enemies g) v (invulnerableUntil g)
     (patternIndex g) (patternElapsed g) (overlayHidden g) (overlayTitle g).
Definition set_invulnerableUntil (v : Z) (g : t) : t :=
  mk (canvas g) (gameState g) (player g) (enemies g) (boss g) v
     (patternIndex g) (patternElapsed g) (overlayHidden g) (overlayTitle g).
Definition set_pattern (i : nat) (e : number) (g : t) : t :=
  mk (canvas g) (gameState g) (player g) (enemies g) (boss g)
     (invulnerableUntil g) i e (overlayHidden g) (overlayTitle g).
Definition set_overlay (hidden : bool) (title : string) (g : t) : t :=
  mk (canvas g) (gameState g) (player g) (enemies g) (boss g)
     (invulnerableUntil g) (patternIndex g) (patternElapsed g) hidden title.

Definition lives (g : t) : Z := GameState.lives (gameState g).
Definition score (g : t) : Z := GameState.score (gameState g).
Definition stage (g : t) : Z := GameState.stage (gameState g).
Definition maxStage (g : t) : Z := GameState.maxStage (gameState g).
Definition isRunning (g : t) : bool := GameState.isRunning (gameState g).
Definition playerBullets (g : t) : list Bullet.t := Player.bullets (player g).
Definition bossBullets (g : t) : list Bullet.t :=
  match boss g with Some b => Boss.bullets b | None => [] end.
Definition set_playerBullets (bs : list Bullet.t) (g : t) : t :=
  set_player (Player.set_bullets bs (player g)) g.
Definition set_bossBullets (bs : list Bullet.t) (g : t) : t :=
  set_boss (option_map (Boss.set_bullets bs) (boss g)) g.
End Game.

Definition create (canvas : Canvas.t) : Game.t :=
  Game.mk canvas (GameState.mk false false 0 5 1 1 3)
    (Player.mk (Canvas.width canvas / 2 - 16) (Canvas.height canvas - 70)
               32 40 5 [] 0 150)
    [] None 0%Z 0%nat 0 true "Game Over!".

Definition healthValues : list Z := [1000; 1500; 2000]%Z.

(** [arr[i]] for an integer [i]: [undefined] outside the array. *)
Definition at_index {A} (arr : list A) (i : Z) : option A :=
  if (i <? 0)%Z then None else arr !! Z.to_nat i.

(** [spawnBoss(stage)].  [bossConfigs[stage - 1]] is [undefined] off the
    three stages, and reading its [spriteWidth] throws before [this.boss]
    is assigned. *)
Definition spawnBoss (stage : Z) (g : Game.t) : completion Game.t :=
  match at_index healthValues (stage - 1) with
  | None => Throw g
  | Some h =>
      let c := Game.canvas g in
      Normal (Game.set_pattern 0 0
                (Game.set_boss
                   (Some (Boss.mk (Canvas.width c / 2 - 48) 40 96 96 h h [])) g))
  end.

Definition startGame (g : Game.t) : completion Game.t :=
  let c := Game.canvas g in
  let p := Game.player g in
  let s := Game.gameState g in
  let g1 :=
    Game.mk c
      (GameState.mk true false 0 5 1 1 (GameState.maxStage s))
      (Player.mk (Canvas.width c / 2 - 16) (Canvas.height c - 70)
                 (Player.width p) (Player.height p) (Player.speed p) []
                 (Player.lastShot p) (Player.shootCooldown p))
      [] (Game.boss g) (Game.invulnerableUntil g)
      (Game.patternIndex g) (Game.patternElapsed g)
      (Game.overlayHidden g) (Game.overlayTitle g) in
  spawnBoss 1 g1.

Definition gameOver (g : Game.t) : Game.t :=
  Game.set_overlay false (Game.overlayTitle g)
    (Game.set_gameState (GameState.set_isRunning false (Game.gameState g)) g).

Definition gameWin (g : Game.t) : Game.t :=
  Game.set_overlay false "Victory!"
    (Game.set_gameState (GameState.set_isRunning false (Game.gameState g)) g).

(** [updateBoss(deltaTime)]; [patternSets] is
    [[Boss1Patterns, Boss2Patterns, Boss3Patterns]] as imported.  Off the
    array, [patterns] is [undefined] and [patterns.length] throws. *)
Definition updateBoss `{HostMath} (patternSets : list (list Patterns.BossPattern.t))
    (perfNow deltaTime : number) (g : Game.t) : completion Game.t :=
  match Game.boss g with
  | None => Normal g
  | Some b0 =>
      let c := Game.canvas g in
      let b := Boss.set_x (Canvas.width c / 2 - Boss.width b0 / 2
                           + Math_sin (perfNow / 800) * 80) b0 in
      let elapsed := Game.patternElapsed g + deltaTime in
      let g1 := Game.set_pattern (Game.patternIndex g) elapsed
                  (Game.set_boss (Some b) g) in
      match at_index patternSets (Game.stage g - 1) with
      | None => Throw g1
      | Some patterns =>
          if (0 <? length patterns)%nat then
            match patterns !! (Game.patternIndex g mod length patterns)%nat with
            | None => Throw g1
            | Some current =>
                let ctx := patternContext b (Game.player g) elapsed in
                let bullets := Patterns.BossPattern.spawn current ctx in
                let g2 := Game.set_bossBullets
                            (Boss.bullets b ++ map toBullet bullets) g1 in
                if elapsed >=? Patterns.BossPattern.duration current then
                  Normal (Game.set_pattern (S (Game.patternIndex g)) 0 g2)
                else Normal g2
            end
          else Normal g1
      end
  end.

Definition patternSets `{HostMath} : list (list Patterns.BossPattern.t) :=
  [Patterns.Boss1Patterns; Patterns.Boss2Patterns; Patterns.Boss3Patterns].

Definition updateBullets (g : Game.t) : Game.t :=
  let g1 := Game.set_player (updatePlayerBullets (Game.canvas g) (Game.player g)) g in
  Game.set_boss (updateBossBullets (Game.canvas g1) (Game.boss g1)) g1.

(** *** [updateCollisions] *)

Definition enemyCallback (bullet : Bullet.t) (bulletIndex : nat)
    (enemy : Enemy.t) (enemyIndex : nat) (g : Game.t) : completion Game.t :=
  if checkCollision (Bullet.rect bullet) (Enemy.rect enemy) then
    let g1 := Game.set_playerBullets (delete bulletIndex (Game.playerBullets g)) g in
    let enemy' := Enemy.set_health (Enemy.health enemy - 1) enemy in
    let g2 := Game.set_enemies (<[enemyIndex := enemy']> (Game.enemies g1)) g1 in
    if (Enemy.health enemy' <=? 0)%Z then
      let g3 := Game.set_enemies (delete enemyIndex (Game.enemies g2)) g2 in
      Normal (Game.set_gameState
                (GameState.set_score (Game.score g3 + 100) (Game.gameState g3)) g3)
    else Normal g2
  else Normal g.

Definition bulletsVsEnemies (g : Game.t) : completion Game.t :=
  forEach Game.playerBullets
    (fun bullet bulletIndex =>
       forEach Game.enemies (enemyCallback bullet bulletIndex))
    g.

Definition iFrameDuration : Z := 2000.

(** Boss bullets against the player.  A bullet that touches the player is
    not spliced out; a registered hit replaces [this.boss.bullets] by a
    fresh empty array (the bomb). *)
Definition bossBulletCallback (now : nat -> Z) (bullet : Bullet.t)
    (bulletIndex : nat) (g : Game.t) : Game.t :=
  if checkCollision (Bullet.rect bullet) (hitbox (Game.player g)) then
    if (now bulletIndex >=? Game.invulnerableUntil g)%Z then
      let g1 := Game.set_gameState
                  (GameState.set_lives (Game.lives g - 1) (Game.gameState g)) g in
      let g2 := Game.set_invulnerableUntil (now bulletIndex + iFrameDuration) g1 in
      let g3 := Game.set_bossBullets [] g2 in
      if (Game.lives g3 <=? 0)%Z then gameOver g3 else g3
    else g
  else g.

(** [forEach] runs on the array object that held the bullets when the loop
    began; the bomb rebinds the property and leaves that object as it
    was, so every one of its bullets is visited. *)
Fixpoint walkBossBullets (now : nat -> Z) (snapshot : list Bullet.t) (k : nat)
    (g : Game.t) : Game.t :=
  match snapshot with
  | [] => g
  | bullet :: rest =>
      walkBossBullets now rest (S k) (bossBulletCallback now bullet k g)
  end.

Definition bossBulletsVsPlayer (now : nat -> Z) (g : Game.t) : Game.t :=
  match Game.boss g with
  | Some b => walkBossBullets now (Boss.bullets b) 0 g
  | None => g
  end.

(** What the callback of the last loop does once the boss's health has
    dropped to zero or below. *)
Definition bossDefeated (g : Game.t) : completion Game.t :=
  let s := Game.gameState g in
  let s1 := GameState.set_score (GameState.score s + 1000) s in
  let s2 := GameState.set_lives (GameState.lives s1 + 1) s1 in
  let s3 := GameState.set_stage (GameState.stage s2 + 1) s2 in
  let g1 := Game.set_gameState s3 g in
  if (Game.stage g1 <=? Game.maxStage g1)%Z then
    spawnBoss (Game.stage g1) g1
  else
    Normal (gameWin (Game.set_boss None g1)).

Definition damagePerHit : Z := 2.

Definition bossCallback (bullet : Bullet.t) (bulletIndex : nat) (g : Game.t)
    : completion Game.t :=
  match Game.boss g with
  | None => Throw g
  | Some b =>
      if checkCollision (Bullet.rect bullet) (Boss.rect b) then
        let g1 := Game.set_playerBullets
                    (delete bulletIndex (Game.playerBullets g)) g in
        let b' := Boss.set_health (Boss.health b - damagePerHit) b in
        let g2 := Game.set_boss (Some b') g1 in
        if (Boss.health b' <=? 0)%Z then bossDefeated g2 else Normal g2
      else Normal g
  end.

Definition bulletsVsBoss (g : Game.t) : completion Game.t :=
  match Game.boss g with
  | Some _ => forEach Game.playerBullets bossCallback g
  | None => Normal g
  end.

Definition updateCollisions (now : nat -> Z) (g : Game.t) : completion Game.t :=
  g1 <- bulletsVsEnemies g ;;
  g2 <- Normal (bossBulletsVsPlayer now g1) ;;
  bulletsVsBoss g2.

(** [update(deltaTime)], without the particles. *)
Definition update `{HostMath} (patternSets : list (list Patterns.BossPattern.t))
    (input : Input.t) (clock : Clock.t) (deltaTime : number) (g : Game.t)
    : completion Game.t :=
  let g1 := Game.set_player
              (updatePlayer (Game.canvas g) input clock (Game.boss g) (Game.player g))
              g in
  g2 <- updateBoss patternSets (Clock.perfNow clock) deltaTime g1 ;;
  updateCollisions (Clock.hitAt clock) (updateBullets g2).

(** The game together with [lastTime], the clock reading the frame delta
    is measured from. *)
Module Loop.
Record t : Set := mk { game : Game.t; lastTime : number }.
End Loop.

(** [togglePause()]; [perfNow] is the reading of [performance.now()]. *)
Definition togglePause (perfNow : number) (l : Loop.t) : Loop.t :=
  let g := Loop.game l in
  if negb (Game.isRunning g) then l
  else
    let paused := negb (GameState.isPaused (Game.gameState g)) in
    let g1 := Game.set_gameState
                (GameState.set_isPaused paused (Game.gameState g)) g in
    if negb paused then Loop.mk g1 perfNow else Loop.mk g1 (Loop.lastTime l).

(** [gameLoop()], called by the browser with [performance.now()] reading
    [currentTime]: the state it leaves, and whether it has asked for
    another frame with [requestAnimationFrame]. *)
Definition gameLoop `{HostMath} (patternSets : list (list Patterns.BossPattern.t))
    (input : Input.t) (clock : Clock.t) (currentTime : number) (l : Loop.t)
    : completion (Loop.t * bool) :=
  let g := Loop.game l in
  if negb (Game.isRunning g) then Normal (l, false)
  else if GameState.isPaused (Game.gameState g) then Normal (l, true)
  else
    let deltaTime := currentTime - Loop.lastTime l in
    match update patternSets input clock deltaTime g with
    | Normal g' => Normal (Loop.mk g' currentTime, true)
    | Throw g' => Throw (Loop.mk g' currentTime, false)
    end.

(** [restartGame()]: the overlay is hidden, its title set back to
    "Game Over!", and the game started again. *)
Definition restartGame (g : Game.t) : completion Game.t :=
  startGame (Game.set_overlay true "Game Over!" g).

End Stages.

(** ** The scrolling shooter (touhou-game.ts): fodder enemies, the orphan
       pool, a bomb on every hit and no invulnerability timer.

    Here [Date.now()] is divided and fed to [Math.sin], so its readings are
    numbers; the several reads of one pass of [updateEnemies] are one
    value [now].  Modelled: [updateBullets], [updateEnemies] with
    [enemyShoot], [checkCollisions], [playerHit], [updateUI] (the extend),
    [showGameOver]; then [updatePlayer] with [playerShoot], [updateScroll],
    [spawnBoss], [spawnEnemies], [updateBoss] with [bossShoot],
    [showVictory], and [update], [gameLoop], [startGame] and [restartGame]
    on the game together with the fields kept beside it. *)

Module Scroller.
Import JS.

Module Bullet.
Record t : Set := mk {
  x : number;
  y : number;
  width : number;
  height : number;
  speed : number;
  type : BulletType;
  bulletType : number;
  vx : option number;
  vy : option number
}.
Definition rect (b : t) : Rect.t := Rect.mk (x b) (y b) (width b) (height b).
Definition set_x (v : number) (b : t) : t :=
  mk v (y b) (width b) (height b) (speed b) (type b) (bulletType b) (vx b) (vy b).
Definition set_y (v : number) (b : t) : t :=
  mk (x b) v (width b) (height b) (speed b) (type b) (bulletType b) (vx b) (vy b).
End Bullet.

Module Player.
Record t : Set := mk {
  x : number;
  y : number;
  width : number;
  height : number;
  speed : number;
  bullets : list Bullet.t;
  lastShot : number;
  shootCooldown : number
}.
Definition set_bullets (bs : list Bullet.t) (p : t) : t :=
  mk (x p) (y p) (width p) (height p) (speed p) bs (lastShot p) (shootCooldown p).
Definition set_x (v : number) (p : t) : t :=
  mk v (y p) (width p) (height p) (speed p) (bullets p) (lastShot p) (shootCooldown p).
Definition set_y (v : number) (p : t) : t :=
  mk (x p) v (width p) (height p) (speed p) (bullets p) (lastShot p) (shootCooldown p).
Definition set_lastShot (v : number) (p : t) : t :=
  mk (x p) (y p) (width p) (height p) (speed p) (bullets p) v (shootCooldown p).
End Player.

Module Enemy.
Record t : Set := mk {
  x : number;
  y : number;
  width : number;
  height : number;
  vx : number;
  vy : number;
  health : Z;
  maxHealth : Z;
  bullets : list Bullet.t;
  lastShot : number;
  shootCooldown : number;
  fairyType : number;
  patternType : Z;
  movementType : Z;
  spawnTime : number;
  targetX : option number;
  targetY : option number;
  isStationary : option bool
}.
Definition rect (e : t) : Rect.t := Rect.mk (x e) (y e) (width e) (height e).
Definition set_x (v : number) (e : t) : t :=
  mk v (y e) (width e) (height e) (vx e) (vy e) (health e) (maxHealth e)
     (bullets e) (lastShot e) (shootCooldown e) (fairyType e) (patternType e)
     (movementType e) (spawnTime e) (targetX e) (targetY e) (isStationary e).
Definition set_y (v : number) (e : t) : t :=
  mk (x e) v (width e) (height e) (vx e) (vy e) (health e) (maxHealth e)
     (bullets e) (lastShot e) (shootCooldown e) (fairyType e) (patternType e)
     (movementType e) (spawnTime e) (targetX e) (targetY e) (isStationary e).
Definition set_health (v : Z) (e : t) : t :=
  mk (x e) (y e) (width e) (height e) (vx e) (vy e) v (maxHealth e)
     (bullets e) (lastShot e) (shootCooldown e) (fairyType e) (patternType e)
     (movementType e) (spawnTime e) (targetX e) (targetY e) (isStationary e).
Definition set_bullets (v : list Bullet.t) (e : t) : t :=
  mk (x e) (y e) (width e) (height e) (vx e) (vy e) (health e) (maxHealth e)
     v (lastShot e) (shootCooldown e) (fairyType e) (patternType e)
     (movementType e) (spawnTime e) (targetX e) (targetY e) (isStationary e).
Definition set_lastShot (v : number) (e : t) : t :=
  mk (x e) (y e) (width e) (height e) (vx e) (vy e) (health e) (maxHealth e)
     (bullets e) v (shootCooldown e) (fairyType e) (patternType e)
     (movementType e) (spawnTime e) (targetX e) (targetY e) (isStationary e).
Definition set_isStationary (v : option bool) (e : t) : t :=
  mk (x e) (y e) (width e) (height e) (vx e) (vy e) (health e) (maxHealth e)
     (bullets e) (lastShot e) (shootCooldown e) (fairyType e) (patternType e)
     (movementType e) (spawnTime e) (targetX e) (targetY e) v.
End Enemy.

Module Boss.
Record t : Set := mk {
  x : number;
  y : number;
  width : number;
  height : number;
  health : Z;
  maxHealth : Z;
  bullets : list Bullet.t;
  lastShot : number;
  phase : Z
}.
Definition rect (b : t) : Rect.t := Rect.mk (x b) (y b) (width b) (height b).
Definition set_health (h : Z) (b : t) : t :=
  mk (x b) (y b) (width b) (height b) h (maxHealth b) (bullets b)
     (lastShot b) (phase b).
Definition set_bullets (bs : list Bullet.t) (b : t) : t :=
  mk (x b) (y b) (width b) (height b) (health b) (maxHealth b) bs
     (lastShot b) (phase b).
Definition set_x (v : number) (b : t) : t :=
  mk v (y b) (width b) (height b) (health b) (maxHealth b) (bullets b)
     (lastShot b) (phase b).
Definition set_y (v : number) (b : t) : t :=
  mk (x b) v (width b) (height b) (health b) (maxHealth b) (bullets b)
     (lastShot b) (phase b).
Definition set_lastShot (v : number) (b : t) : t :=
  mk (x b) (y b) (width b) (height b) (health b) (maxHealth b) (bullets b)
     v (phase b).
End Boss.

Module GameState.
Record t : Set := mk {
  isRunning : bool;
  isPaused : bool;
  score : Z;
  lives : Z;
  scrollY : number;
  maxScrollY : number;
  bossPhase : bool;
  nextExtend : Z
}.
Definition set_isRunning (v : bool) (s : t) : t :=
  mk v (isPaused s) (score s) (lives s) (scrollY s) (maxScrollY s)
     (bossPhase s) (nextExtend s).
Definition set_score (v : Z) (s : t) : t :=
  mk (isRunning s) (isPaused s) v (lives s) (scrollY s) (maxScrollY s)
     (bossPhase s) (nextExtend s).
Definition set_lives (v : Z) (s : t) : t :=
  mk (isRunning s) (isPaused s) (score s) v (scrollY s) (maxScrollY s)
     (bossPhase s) (nextExtend s).
Definition set_nextExtend (v : Z) (s : t) : t :=
  mk (isRunning s) (isPaused s) (score s) (lives s) (scrollY s) (maxScrollY s)
     (bossPhase s) v.
Definition set_scrollY (v : number) (s : t) : t :=
  mk (isRunning s) (isPaused s) (score s) (lives s) v (maxScrollY s)
     (bossPhase s) (nextExtend s).
Definition set_bossPhase (v : bool) (s : t) : t :=
  mk (isRunning s) (isPaused s) (score s) (lives s) (scrollY s) (maxScrollY s)
     v (nextExtend s).
End GameState.

Module Game.
Record t : Set := mk {
  canvas : Canvas.t;
  gameState : GameState.t;
  player : Player.t;
  enemies : list Enemy.t;
  boss : option Boss.t;
  orphanBullets : list Bullet.t;
  overlayHidden : bool
}.
Definition set_gameState (v : GameState.t) (g : t) : t :=
  mk (canvas g) v (player g) (enemies g) (boss g) (orphanBullets g)
     (overlayHidden g).
Definition set_player (v : Player.t) (g : t) : t :=
  mk (canvas g) (gameState g) v (enemies g) (boss g) (orphanBullets g)
     (overlayHidden g).
Definition set_enemies (v : list Enemy.t) (g : t) : t :=
  mk (canvas g) (gameState g) (player g) v (boss g) (orphanBullets g)
     (overlayHidden g).
Definition set_boss (v : option Boss.t) (g : t) : t :=
  mk (canvas g) (gameState g) (player g) (enemies g) v (orphanBullets g)
     (overlayHidden g).
Definition set_orphanBullets (v : list Bullet.t) (g : t) : t :=
  mk (canvas g) (gameState g) (player g) (enemies g) (boss g) v
     (overlayHidden g).
Definition set_overlayHidden (v : bool) (g : t) : t :=
  mk (canvas g) (gameState g) (player g) (enemies g) (boss g)
     (orphanBullets g) v.

Definition lives (g : t) : Z := GameState.lives (gameState g).
Definition score (g : t) : Z := GameState.score (gameState g).
Definition playerBullets (g : t) : list Bullet.t := Player.bullets (player g).
Definition bossBullets (g : t) : list Bullet.t :=
  match boss g with Some b => Boss.bullets b | None => [] end.
Definition set_playerBullets (bs : list Bullet.t) (g : t) : t :=
  set_player (Player.set_bullets bs (player g)) g.
End Game.

(** *** [updateBullets]

    One loop per pool (player, each enemy, orphans, boss), all with the
    same body: walk the array from its last index down, add the velocity,
    and [splice] the bullet out when it has left the canvas by more than
    ten units. *)

Definition moveBullet (bullet : Bullet.t) : Bullet.t :=
  let b1 := Bullet.set_x (Bullet.x bullet + toNumber (Bullet.vx bullet)) bullet in
  Bullet.set_y (Bullet.y b1 + toNumber (Bullet.vy b1)) b1.

Definition offCanvas (canvas : Canvas.t) (bullet : Bullet.t) : bool :=
  (Bullet.y bullet <? -10) || (Bullet.y bullet >? Canvas.height canvas + 10) ||
  (Bullet.x bullet <? -10) || (Bullet.x bullet >? Canvas.width canvas + 10).

(** The backward loop: the tail is done before the head, and a removal at
    index [i] shifts only indices already visited. *)
Fixpoint updatePool (canvas : Canvas.t) (bullets : list Bullet.t) : list Bullet.t :=
  match bullets with
  | [] => []
  | bullet :: rest =>
      let rest' := updatePool canvas rest in
      let bullet' := moveBullet bullet in
      if offCanvas canvas bullet' then rest' else bullet' :: rest'
  end.

Definition updateBullets (g : Game.t) : Game.t :=
  let c := Game.canvas g in
  let g1 := Game.set_playerBullets (updatePool c (Game.playerBullets g)) g in
  let g2 := Game.set_enemies
              (map (fun enemy =>
                      Enemy.set_bullets (updatePool c (Enemy.bullets enemy)) enemy)
                   (Game.enemies g1)) g1 in
  let g3 := Game.set_orphanBullets (updatePool c (Game.orphanBullets g2)) g2 in
  Game.set_boss
    (option_map (fun b => Boss.set_bullets (updatePool c (Boss.bullets b)) b)
                (Game.boss g3)) g3.

(** *** [updateUI]: the extend every 4000 points

    Before the extend, [updateUI] writes the score and the lives to the
    page, the lives as ['♥ '.repeat(this.gameState.lives)].  [repeat]
    raises a RangeError on a negative count, so the changes of state below
    are those of a call with [0 <= lives]. *)

Definition updateUI (g : Game.t) : Game.t :=
  let s := Game.gameState g in
  if (GameState.score s >=? GameState.nextExtend s)%Z then
    Game.set_gameState
      (GameState.set_nextExtend (GameState.nextExtend s + 4000)
         (GameState.set_lives (GameState.lives s + 1) s)) g
  else g.

Definition showGameOver (g : Game.t) : Game.t :=
  Game.set_overlayHidden false
    (Game.set_gameState (GameState.set_isRunning false (Game.gameState g)) g).

(** *** [playerHit]

    [lives--] comes first and [updateUI()] next, so the changes of state
    below are those of a call with [0 < lives]: at [lives <= 0] the source
    leaves [playerHit] by the RangeError of [updateUI], the lives
    decremented and nothing cleared.  The game calls it with a life left:
    [startGame] gives 5, a hit that takes the last one stops the game, and
    one pass of [checkCollisions] calls it at most once. *)

Definition playerHit (g : Game.t) : Game.t :=
  let g1 := Game.set_gameState
              (GameState.set_lives (Game.lives g - 1) (Game.gameState g)) g in
  let g2 := updateUI g1 in
  let g3 := Game.set_enemies (map (Enemy.set_bullets []) (Game.enemies g2)) g2 in
  let g4 := Game.set_orphanBullets [] g3 in
  let g5 := Game.set_boss (option_map (Boss.set_bullets []) (Game.boss g4)) g4 in
  if (Game.lives g5 <=? 0)%Z then showGameOver g5 else g5.

(** *** [enemyShoot] and [updateEnemies] *)

Section Enemies.
Context {M : HostMath}.

(** [random k] is the [k]-th value [Math.random()] returns during one
    call of [enemyShoot]. *)
Definition enemyShoot (now : number) (random : nat -> number)
    (p : Player.t) (enemy : Enemy.t) : Enemy.t :=
  let playerCenterX := Player.x p + Player.width p / 2 in
  let playerCenterY := Player.y p + Player.height p / 2 in
  let enemyCenterX := Enemy.x enemy + Enemy.width enemy / 2 in
  let enemyCenterY := Enemy.y enemy + Enemy.height enemy / 2 in
  let ft := Enemy.fairyType enemy in
  let shot x y speed bulletType angle :=
    Bullet.mk x y 12 12 speed enemy_t bulletType
              (Some (Math_cos angle * speed)) (Some (Math_sin angle * speed)) in
  let pushed : list Bullet.t :=
    if (Enemy.patternType enemy =? 0)%Z then
      [Bullet.mk (enemyCenterX - 6) enemyCenterY 12 12 2.5 enemy_t ft
                 (Some 0) (Some 2.5)]
    else if (Enemy.patternType enemy =? 1)%Z then
      let dx := playerCenterX - enemyCenterX in
      let dy := playerCenterY - enemyCenterY in
      let dist := Math_sqrt (dx * dx + dy * dy) in
      let speed := 2.5 in
      [Bullet.mk (enemyCenterX - 6) enemyCenterY 12 12 speed enemy_t
                 (rem (ft + 1) 8)
                 (Some ((dx / dist) * speed)) (Some ((dy / dist) * speed))]
    else if (Enemy.patternType enemy =? 2)%Z then
      map (fun i =>
             let angle := (Math_PI / 2) + (i - 1) * 0.4 in
             shot (enemyCenterX - 6) enemyCenterY 2 (rem (ft + 2) 8) angle)
          (range 3 0)
    else if (Enemy.patternType enemy =? 3)%Z then
      map (fun i =>
             let angle := (Math_PI * 2 / 5) * i in
             shot (enemyCenterX - 6) enemyCenterY 1.8 (rem (ft + 3) 8) angle)
          (range 5 0)
    else if (Enemy.patternType enemy =? 4)%Z then
      let dx := playerCenterX - enemyCenterX in
      let dy := playerCenterY - enemyCenterY in
      map (fun i =>
             let offsetAngle := (i - 0.5) * 0.2 in
             let angle := Math_atan2 dy dx + offsetAngle in
             shot (enemyCenterX - 6) enemyCenterY 2.2 (rem (ft + 4) 8) angle)
          (range 2 0)
    else if (Enemy.patternType enemy =? 5)%Z then
      let dx := playerCenterX - enemyCenterX in
      let dy := playerCenterY - enemyCenterY in
      let angle := Math_atan2 dy dx in
      map (fun i =>
             shot (enemyCenterX - 6 + Math_cos angle * i * 15)
                  (enemyCenterY - 6 + Math_sin angle * i * 15)
                  3 (rem (ft + 5) 8) angle)
          (range 4 0)
    else if (Enemy.patternType enemy =? 6)%Z then
      map (fun i =>
             let angle := (Math_PI * 2 / 8) * i + now / 1000 in
             shot (enemyCenterX - 6) (enemyCenterY - 6) 1.5 (rem (ft + 6) 8) angle)
          (range 8 0)
    else if (Enemy.patternType enemy =? 7)%Z then
      map (fun i =>
             let baseAngle := Math_PI / 2 in
             let waveOffset := Math_sin (now / 200 + i) * 0.5 in
             let angle := baseAngle + (i - 2) * 0.2 + waveOffset in
             shot (enemyCenterX - 6) (enemyCenterY - 6) 2 (rem (ft + 7) 8) angle)
          (range 5 0)
    else if (Enemy.patternType enemy =? 8)%Z then
      map (fun i =>
             let angle := (Math_PI / 2) * i in
             shot (enemyCenterX - 6) (enemyCenterY - 6) 2.5 (rem ft 8) angle)
          (range 4 0)
    else
      map (fun k : nat =>
             let angle := random (3 * k)%nat * Math_PI * 2 in
             let speed := 1.5 + random (3 * k + 1)%nat * 1.5 in
             shot (enemyCenterX - 6) (enemyCenterY - 6) speed
                  (Math_floor (random (3 * k + 2)%nat * 8)) angle)
          (seq 0 6)
  in
  Enemy.set_bullets (Enemy.bullets enemy ++ pushed) enemy.

(** [v && ...] on an optional number: [undefined], [0] and NaN are
    falsy. *)
Definition truthy (o : option number) : bool :=
  match o with
  | Some v => negb (v =? 0) && (v =? v)
  | None => false
  end.

Definition moveEnemy (now : number) (enemy : Enemy.t) : Enemy.t :=
  let timeAlive := now - Enemy.spawnTime enemy in
  let addx d e := Enemy.set_x (Enemy.x e + d) e in
  let addy d e := Enemy.set_y (Enemy.y e + d) e in
  if (Enemy.movementType enemy =? 0)%Z then
    addy (Enemy.vy enemy) (addx (Enemy.vx enemy) enemy)
  else if (Enemy.movementType enemy =? 1)%Z then
    addy (Enemy.vy enemy) enemy
  else if (Enemy.movementType enemy =? 2)%Z then
    addy (Enemy.vy enemy) (addx (Math_sin (timeAlive / 500) * 2) enemy)
  else if (Enemy.movementType enemy =? 3)%Z then
    addy (Enemy.vy enemy) (addx (Math_sin (timeAlive / 200) * 3) enemy)
  else if (Enemy.movementType enemy =? 4)%Z then
    if truthy (Enemy.targetY enemy)
       && (Enemy.y enemy <? toNumber (Enemy.targetY enemy)) then
      addy (Enemy.vy enemy) enemy
    else
      addy (Math_sin (timeAlive / 300) * 2)
           (addx (Math_cos (timeAlive / 300) * 2)
                 (Enemy.set_isStationary (Some true) enemy))
  else
    if timeAlive <? 1000 then
      addy (Enemy.vy enemy) enemy
    else
      let speed := timeAlive / 400 in
      addy (Math_sin speed * 1.5)
           (addx (Math_cos speed * 1.5)
                 (Enemy.set_isStationary (Some true) enemy)).

(** The body of the loop up to the removal test: move, then shoot when
    the cooldown has run out. *)
Definition stepEnemy (now : number) (random : nat -> number)
    (p : Player.t) (enemy : Enemy.t) : Enemy.t :=
  let e1 := moveEnemy now enemy in
  if now - Enemy.lastShot e1 >? Enemy.shootCooldown e1 then
    Enemy.set_lastShot now (enemyShoot now random p e1)
  else e1.

(** The loop runs from the last enemy down to the first, so the tail of
    the list is handled before its head; [i] is the index of the head
    and [random i] the draws of that enemy's shot.  The result is the
    enemies that stay, and the game with the orphan pool and the score
    updated. *)
Fixpoint walkEnemies (now : number) (random : nat -> nat -> number)
    (i : nat) (es : list Enemy.t) (g : Game.t) : list Enemy.t * Game.t :=
  match es with
  | [] => ([], g)
  | enemy0 :: rest =>
      let '(kept, g1) := walkEnemies now random (S i) rest g in
      let enemy := stepEnemy now (random i) (Game.player g1) enemy0 in
      if (Enemy.y enemy >? Canvas.height (Game.canvas g1) + 50)
         || (Enemy.health enemy <=? 0)%Z then
        if (Enemy.health enemy <=? 0)%Z then
          let g2 := Game.set_orphanBullets
                      (Game.orphanBullets g1 ++ Enemy.bullets enemy) g1 in
          let g3 := Game.set_gameState
                      (GameState.set_score (Game.score g2 + 100)
                         (Game.gameState g2)) g2 in
          (kept, updateUI g3)
        else (kept, g1)
      else (enemy :: kept, g1)
  end.

Definition updateEnemies (now : number) (random : nat -> nat -> number)
    (g : Game.t) : Game.t :=
  let '(kept, g1) := walkEnemies now random 0 (Game.enemies g) g in
  Game.set_enemies kept g1.

End Enemies.

(** *** [checkCollisions] *)

Definition playerHitboxRadius : number := 4.

(** Player bullets against enemies: the inner loop stops at the first
    enemy the bullet overlaps. *)
Fixpoint hitFirstEnemy (bullet : Bullet.t) (es : list Enemy.t)
    : option (list Enemy.t) :=
  match es with
  | [] => None
  | enemy :: rest =>
      if checkCollision (Bullet.rect bullet) (Enemy.rect enemy) then
        Some (Enemy.set_health (Enemy.health enemy - 1) enemy :: rest)
      else option_map (cons enemy) (hitFirstEnemy bullet rest)
  end.

(** The body of the outer [for ... of]: [k] is the iterator's index, and
    the bullets being distinct objects, [indexOf(bullet)] is [k]. *)
Definition enemyLoopBody (bullet : Bullet.t) (k : nat) (g : Game.t)
    : Game.t * bool :=
  match hitFirstEnemy bullet (Game.enemies g) with
  | Some es =>
      (Game.set_playerBullets (delete k (Game.playerBullets g))
         (Game.set_enemies es g), false)
  | None => (g, false)
  end.

Definition bulletsVsEnemies (g : Game.t) : Game.t :=
  forOf Game.playerBullets enemyLoopBody g.

(** Player bullets against the boss: the only loop is left at the first
    hit. *)
Definition bossLoopBody (bullet : Bullet.t) (k : nat) (g : Game.t)
    : Game.t * bool :=
  match Game.boss g with
  | Some b =>
      if checkCollision (Bullet.rect bullet) (Boss.rect b) then
        (Game.set_playerBullets (delete k (Game.playerBullets g))
           (Game.set_boss (Some (Boss.set_health (Boss.health b - 1) b)) g),
         true)
      else (g, false)
  | None => (g, false)
  end.

Definition bulletsVsBoss (g : Game.t) : Game.t :=
  match Game.boss g with
  | Some _ => forOf Game.playerBullets bossLoopBody g
  | None => g
  end.

Definition playerCenterX (g : Game.t) : number :=
  Player.x (Game.player g) + Player.width (Game.player g) / 2.
Definition playerCenterY (g : Game.t) : number :=
  Player.y (Game.player g) + Player.height (Game.player g) / 2.

(** The test of the enemy-bullet loop. *)
Definition enemyBulletHits (cx cy : number) (bullet : Bullet.t) : bool :=
  let dx := Bullet.x bullet + Bullet.width bullet / 2 - cx in
  let dy := Bullet.y bullet + Bullet.height bullet / 2 - cy in
  let dist := Math_sqrt (dx * dx + dy * dy) in
  dist <? playerHitboxRadius + Bullet.width bullet / 2.

(** The test of the orphan-bullet loop. *)
Definition orphanBulletHits (cx cy : number) (bullet : Bullet.t) : bool :=
  let dx := Bullet.x bullet + Bullet.width bullet / 2 - cx in
  let dy := Bullet.y bullet + Bullet.height bullet / 2 - cy in
  let dist := Math_sqrt (dx * dx + dy * dy) in
  dist <? playerHitboxRadius + Bullet.width bullet / 2.

(** The test of the boss-bullet loop. *)
Definition bossBulletHits (cx cy : number) (bullet : Bullet.t) : bool :=
  let dx := Bullet.x bullet + Bullet.width bullet / 2 - cx in
  let dy := Bullet.y bullet + Bullet.height bullet / 2 - cy in
  let dist := Math_sqrt (dx * dx + dy * dy) in
  dist <? playerHitboxRadius + Bullet.width bullet / 2.

(** Enemy bullets against the player.  The outer loop visits every enemy;
    the inner one is left at the first hit.  [playerHit] has by then
    rebound every [enemy.bullets] to an empty array, so the [splice] that
    follows it finds nothing to remove. *)
Definition enemyBulletsBody (cx cy : number) (enemy : Enemy.t) (j : nat)
    (g : Game.t) : Game.t * bool :=
  if existsb (enemyBulletHits cx cy) (Enemy.bullets enemy) then
    (playerHit g, false)
  else (g, false).

Definition enemyBulletsVsPlayer (cx cy : number) (g : Game.t) : Game.t :=
  forOf Game.enemies (enemyBulletsBody cx cy) g.

(** Orphan bullets against the player, from the last index down; after
    [playerHit] the pool is empty and [splice(i, 1)] removes nothing. *)
Definition orphansVsPlayer (cx cy : number) (g : Game.t) : Game.t :=
  if existsb (orphanBulletHits cx cy) (Game.orphanBullets g) then playerHit g
  else g.

Definition bossBulletsVsPlayer (cx cy : number) (g : Game.t) : Game.t :=
  match Game.boss g with
  | Some b =>
      if existsb (bossBulletHits cx cy) (Boss.bullets b) then playerHit g
      else g
  | None => g
  end.

Definition checkCollisions (g : Game.t) : Game.t :=
  let cx := playerCenterX g in
  let cy := playerCenterY g in
  let g1 := bulletsVsEnemies g in
  let g2 := bulletsVsBoss g1 in
  let g3 := enemyBulletsVsPlayer cx cy g2 in
  let g4 := orphansVsPlayer cx cy g3 in
  bossBulletsVsPlayer cx cy g4.

(** The modelled part of [update(deltaTime)], in source order.  It is the
    whole update of these fields in a frame where no key is held, the
    background is still scrolling and no enemy is due to spawn: then
    [updatePlayer] changes nothing but the sprite frame, [updateScroll] only
    lowers [scrollY], and [spawnEnemies] only advances its timer. *)
Definition coreFrame `{HostMath} (now : number) (random : nat -> nat -> number)
    (g : Game.t) : Game.t :=
  checkCollisions (updateEnemies now random (updateBullets g)).

(** *** [updatePlayer] and [playerShoot] *)

(** The movement part of [updatePlayer]: the text of the boss games. *)
Definition movePlayer (canvas : Canvas.t) (input : Arcade.Input.t) (p : Player.t)
    : Player.t :=
  let speed := if Arcade.Input.isSlowHeld input then Player.speed p * 0.4
               else Player.speed p in
  let p1 := if Arcade.Input.arrowleft input || Arcade.Input.a input
            then Player.set_x (Math_max 0 (Player.x p - speed)) p else p in
  let p2 := if Arcade.Input.arrowright input || Arcade.Input.d input
            then Player.set_x
                   (Math_min (Canvas.width canvas - Player.width p1)
                             (Player.x p1 + speed)) p1
            else p1 in
  let p3 := if Arcade.Input.arrowup input || Arcade.Input.w input
            then Player.set_y (Math_max 0 (Player.y p2 - speed)) p2 else p2 in
  if Arcade.Input.arrowdown input || Arcade.Input.s input
  then Player.set_y
         (Math_min (Canvas.height canvas - Player.height p3)
                   (Player.y p3 + speed)) p3
  else p3.

(** [playerShoot()]: three shots straight up and two homing ones, aimed
    at the boss, else at the first enemy of the array, else at the top of
    the canvas above the player.  [now] is its one reading of
    [Date.now()]. *)
Definition playerShoot (now : number) (boss : option Boss.t)
    (enemies : list Enemy.t) (p : Player.t) : Player.t :=
  if now - Player.lastShot p <? Player.shootCooldown p then p
  else
    let centerX := Player.x p + Player.width p / 2 in
    let topY := Player.y p in
    let speed := 12 in
    let straight :=
      map (fun i => Bullet.mk (centerX - 4 + i * 15) topY 8 16 speed player_t 0
                              (Some 0) (Some (- speed)))
          (range 3 (-1)) in
    let target :=
      match boss with
      | Some b => (Boss.x b + Boss.width b / 2, Boss.y b + Boss.height b / 2)
      | None =>
          match enemies with
          | nearest :: _ =>
              (Enemy.x nearest + Enemy.width nearest / 2,
               Enemy.y nearest + Enemy.height nearest / 2)
          | [] => (centerX, 0)
          end
      end in
    let homing fromX fromY :=
      let dx := fst target - fromX in
      let dy := snd target - fromY in
      let dist := Math_sqrt (dx * dx + dy * dy) in
      Bullet.mk (fromX - 4) fromY 8 16 speed player_t 0
                (Some (if dist >? 0 then (dx / dist) * speed else 0))
                (Some (if dist >? 0 then (dy / dist) * speed else - speed)) in
    let left := homing (Player.x p) (Player.y p + Player.height p / 2) in
    let right := homing (Player.x p + Player.width p)
                        (Player.y p + Player.height p / 2) in
    Player.set_lastShot now
      (Player.set_bullets (Player.bullets p ++ straight ++ [left; right]) p).

Definition updatePlayer (input : Arcade.Input.t) (now : number) (g : Game.t)
    : Game.t :=
  let p1 := movePlayer (Game.canvas g) input (Game.player g) in
  Game.set_player
    (if Arcade.Input.isShootingHeld input
     then playerShoot now (Game.boss g) (Game.enemies g) p1
     else p1) g.

(** *** The stage: [updateScroll], [spawnBoss], [spawnEnemies] *)

Definition spawnBoss (now : number) (g : Game.t) : Game.t :=
  Game.set_boss
    (Some (Boss.mk (Canvas.width (Game.canvas g) / 2 - 25) 70 50 70
                   3000 3000 [] now 0)) g.

Definition updateScroll (now : number) (g : Game.t) : Game.t :=
  let s := Game.gameState g in
  if GameState.scrollY s >? 0 then
    let scrolled := GameState.scrollY s - 0.12 in
    Game.set_gameState
      (GameState.set_scrollY (if scrolled <? 0 then 0 else scrolled) s) g
  else if negb (GameState.bossPhase s) then
    spawnBoss now (Game.set_gameState (GameState.set_bossPhase true s) g)
  else g.

(** The game with the fields the model keeps beside it: the spawn timer,
    the clock reading the frame delta is measured from, and the text of
    the [h2] of [#game-over-screen]. *)
Module Session.
Record t : Set := mk {
  game : Game.t;
  enemySpawnTimer : number;
  lastTime : number;
  overlayTitle : string
}.
Definition set_game (v : Game.t) (w : t) : t :=
  mk v (enemySpawnTimer w) (lastTime w) (overlayTitle w).
Definition set_enemySpawnTimer (v : number) (w : t) : t :=
  mk (game w) v (lastTime w) (overlayTitle w).
Definition set_lastTime (v : number) (w : t) : t :=
  mk (game w) (enemySpawnTimer w) v (overlayTitle w).
Definition set_overlayTitle (v : string) (w : t) : t :=
  mk (game w) (enemySpawnTimer w) (lastTime w) v.
End Session.

(** [spawnEnemies(deltaTime)]; [random k] is the [k]-th value
    [Math.random()] returns during the call and [now] the reading of
    [Date.now()] that stamps the new enemy. *)
Definition spawnEnemies `{HostMath} (deltaTime now : number)
    (random : nat -> number) (w : Session.t) : Session.t :=
  let timer := Session.enemySpawnTimer w + deltaTime in
  if timer >? 500 then
    let g := Session.game w in
    let spawnPos := random 0%nat in
    let '(x, vx) :=
      if spawnPos <? 0.33 then (random 1%nat * 80, 0.5)
      else if spawnPos <? 0.66 then
        (Canvas.width (Game.canvas g) / 2 - 20 + (random 1%nat - 0.5) * 100, 0)
      else (Canvas.width (Game.canvas g) - 80 - random 1%nat * 80, -0.5) in
    let fairyType := Math_floor (random 2%nat * 4) in
    let patternType := Math_floor (random 3%nat * 10) in
    let movementType := Math_floor (random 4%nat * 6) in
    let vy := if movementType =? 0 then 0.8
              else if movementType =? 1 then 2.5
              else if (movementType =? 4) || (movementType =? 5) then 1.2
              else 1.5 in
    let targetY := if movementType =? 4 then Some (150 + random 5%nat * 100)
                   else None in
    let drawn := if movementType =? 4 then 6%nat else 5%nat in
    let progress := 1 - (GameState.scrollY (Game.gameState g) / 1920) in
    let maxHealth := Math_floor (4 + progress * 20) in
    let enemy :=
      Enemy.mk x (-50) 44 44 vx vy (toInt maxHealth) (toInt maxHealth) []
               now (1200 + random drawn * 800) fairyType
               (toInt patternType) (toInt movementType) now
               None targetY (Some false) in
    Session.set_enemySpawnTimer 0
      (Session.set_game (Game.set_enemies (Game.enemies g ++ [enemy]) g) w)
  else Session.set_enemySpawnTimer timer w.

(** *** The boss: [bossShoot], [updateBoss], [showVictory] *)

(** The twelve patterns; [now] is the reading of [Date.now()] during the
    call and [random k] the [k]-th draw. *)
Definition bossShoot `{HostMath} (now : number) (random : nat -> number)
    (p : Player.t) (boss : Boss.t) : Boss.t :=
  let bossCenterX := Boss.x boss + Boss.width boss / 2 in
  let bossCenterY := Boss.y boss + Boss.height boss / 2 in
  let playerCenterX := Player.x p + Player.width p / 2 in
  let playerCenterY := Player.y p + Player.height p / 2 in
  let patternCycle := rem (Math_floor (now / 2500)) 12 in
  let shotAt x y speed bulletType angle :=
    Bullet.mk x y 12 12 speed enemy_t bulletType
              (Some (Math_cos angle * speed)) (Some (Math_sin angle * speed)) in
  let shot := shotAt (bossCenterX - 6) (bossCenterY - 6) in
  let pushed : list Bullet.t :=
    if patternCycle =? 0 then
      map (fun i => shot 6 0 ((Math_PI * 2 / 12) * i + now / 500)) (range 12 0)
    else if patternCycle =? 1 then
      let spiralOffset := now / 100 in
      flat_map (fun i =>
                  [shot 3 1 ((Math_PI * 2 / 12) * i + spiralOffset);
                   shot 3 2 ((Math_PI * 2 / 12) * i - spiralOffset)])
               (range 12 0)
    else if patternCycle =? 2 then
      let dx := playerCenterX - bossCenterX in
      let dy := playerCenterY - bossCenterY in
      let angle := Math_atan2 dy dx in
      map (fun i => shot 4 3 (angle + (i - 2) * 0.15)) (range 5 0)
    else if patternCycle =? 3 then
      flat_map (fun i =>
                  let angle := (Math_PI * 2 / 8) * i in
                  map (fun j =>
                         shotAt (bossCenterX - 6 + Math_cos angle * j * 20)
                                (bossCenterY - 6 + Math_sin angle * j * 20)
                                2.8 4 angle)
                      (range 3 0))
               (range 8 0)
    else if patternCycle =? 4 then
      flat_map (fun layer =>
                  let layerOffset := layer * Math_PI / 12 in
                  map (fun i =>
                         shot (2.2 + layer * 0.6) (if layer =? 0 then 5 else 6)
                              ((Math_PI * 2 / 12) * i + now / 400 + layerOffset))
                      (range 12 0))
               (range 2 0)
    else if patternCycle =? 5 then
      let time := now / 300 in
      map (fun '(i, k) =>
             shot (2 + Math_sin (time + i) * 1.5)
                  (if rem i 2 =? 0 then 7
                   else Math_floor (random (k / 2)%nat * 7))
                  ((Math_PI * 2 / 10) * i + time))
          (combine (range 10 0) (seq 0 10))
    else if patternCycle =? 6 then
      map (fun i => shot 2 (rem i 8) ((Math_PI * 2 / 12) * i)) (range 12 0)
    else if patternCycle =? 7 then
      map (fun i =>
             let dx := playerCenterX - bossCenterX in
             let dy := playerCenterY - bossCenterY in
             let baseAngle := Math_atan2 dy dx in
             shot 3 (rem (i + 1) 8) (baseAngle + (i - 3) * 0.15))
          (range 7 0)
    else if patternCycle =? 8 then
      flat_map (fun layer =>
                  let offset := (now / 200) + layer * (Math_PI * 2 / 3) in
                  map (fun i =>
                         shot (2 + layer * 0.5) (rem (layer + 2) 8)
                              ((Math_PI * 2 / 10) * i + offset))
                      (range 10 0))
               (range 3 0)
    else if patternCycle =? 9 then
      map (fun k : nat =>
             let angle := random (3 * k)%nat * Math_PI * 2 in
             let speed := 1.5 + random (3 * k + 1)%nat * 2 in
             shot speed (Math_floor (random (3 * k + 2)%nat * 8)) angle)
          (seq 0 15)
    else if patternCycle =? 10 then
      let time := now / 1000 in
      flat_map (fun ring =>
                  let ringOffset := ring * Math_PI / 8 in
                  map (fun i =>
                         shot (1.8 + ring * 0.4) (rem ring 8)
                              ((Math_PI * 2 / 12) * i + time + ringOffset))
                      (range 12 0))
               (range 4 0)
    else
      let time := now / 100 in
      flat_map (fun arm =>
                  let armAngle := (Math_PI * 2 / 3) * arm in
                  map (fun i =>
                         shot 2.5 (rem (arm + i) 8) (armAngle + (i * 0.3) + time))
                      (range 10 0))
               (range 3 0)
  in
  Boss.set_bullets (Boss.bullets boss ++ pushed) boss.

(** [showVictory()]: the game stops and the overlay is shown under the
    title "Victory!". *)
Definition showVictory (w : Session.t) : Session.t :=
  Session.set_overlayTitle "Victory!"
    (Session.set_game (showGameOver (Session.game w)) w).

(** The movement of [updateBoss], before the clamp. *)
Definition moveBoss `{HostMath} (now : number) (canvas : Canvas.t)
    (boss : Boss.t) : Boss.t :=
  let movementCycle := rem (Math_floor (now / 4000)) 4 in
  let time := now / 1000 in
  if movementCycle =? 0 then
    Boss.set_x (Boss.x boss + Math_sin time * 2) boss
  else if movementCycle =? 1 then
    let phase := rem time 3 / 3 in
    if phase <? 0.33 then Boss.set_x (Boss.x boss - 1.5) boss
    else if phase <? 0.66 then Boss.set_x (Boss.x boss + 1.5) boss
    else
      let centerX := Canvas.width canvas / 2 - Boss.width boss / 2 in
      Boss.set_x (Boss.x boss + (centerX - Boss.x boss) * 0.05) boss
  else if movementCycle =? 2 then
    Boss.set_y (70 + Math_sin (time * 2) * 30) boss
  else
    let phase := Math_floor (rem time 4 / 1) in
    let speed := 2 in
    if phase =? 0 then Boss.set_x (Boss.x boss + speed) boss
    else if phase =? 1 then Boss.set_y (Boss.y boss + speed * 0.5) boss
    else if phase =? 2 then Boss.set_x (Boss.x boss - speed) boss
    else Boss.set_y (Boss.y boss - speed * 0.5) boss.

(** [updateBoss(deltaTime)]: move, keep the boss in bounds, shoot every
    400 ms, and declare victory once its health is 0 or below.  The several
    readings of [Date.now()] in one call are the one value [now]. *)
Definition updateBoss `{HostMath} (now : number) (random : nat -> number)
    (w : Session.t) : Session.t :=
  let g := Session.game w in
  match Game.boss g with
  | None => w
  | Some boss0 =>
      let c := Game.canvas g in
      let b1 := moveBoss now c boss0 in
      let b2 := Boss.set_x
                  (Math_max 0 (Math_min (Canvas.width c - Boss.width b1) (Boss.x b1)))
                  b1 in
      let b3 := Boss.set_y (Math_max 50 (Math_min 200 (Boss.y b2))) b2 in
      let b4 := if now - Boss.lastShot b3 >? 400
                then Boss.set_lastShot now (bossShoot now random (Game.player g) b3)
                else b3 in
      let g1 := Game.set_boss (Some b4) g in
      if (Boss.health b4 <=? 0)%Z then
        let g2 := Game.set_gameState
                    (GameState.set_score (Game.score g1 + 10000)
                       (Game.gameState g1)) g1 in
        showVictory (Session.set_game (updateUI g2) w)
      else Session.set_game g1 w
  end.

(** *** A frame, and the life of a game *)

(** What one frame reads from outside: the keys, and the clock and the
    random draws of each of its parts. *)
Module Frame.
Record t : Type := mk {
  input : Arcade.Input.t;
  shotNow : number;
  enemiesNow : number;
  enemyRandom : nat -> nat -> number;
  stageNow : number;
  stageRandom : nat -> number;
  bossNow : number;
  bossRandom : nat -> number
}.
End Frame.

(** [update(deltaTime)], without the particles. *)
Definition update `{HostMath} (deltaTime : number) (f : Frame.t)
    (w : Session.t) : Session.t :=
  let g1 := updatePlayer (Frame.input f) (Frame.shotNow f) (Session.game w) in
  let g2 := updateBullets g1 in
  let g3 := updateEnemies (Frame.enemiesNow f) (Frame.enemyRandom f) g2 in
  let w3 := Session.set_game g3 w in
  let w4 :=
    if negb (GameState.bossPhase (Game.gameState g3)) then
      spawnEnemies deltaTime (Frame.stageNow f) (Frame.stageRandom f)
        (Session.set_game (updateScroll (Frame.stageNow f) g3) w3)
    else updateBoss (Frame.bossNow f) (Frame.bossRandom f) w3 in
  Session.set_game (checkCollisions (Session.game w4)) w4.

(** [gameLoop(currentTime)]: the state it leaves, and whether it has
    asked for another frame. *)
Definition gameLoop `{HostMath} (currentTime : number) (f : Frame.t)
    (w : Session.t) : Session.t * bool :=
  if negb (GameState.isRunning (Game.gameState (Session.game w))) then (w, false)
  else
    let deltaTime := currentTime - Session.lastTime w in
    (update deltaTime f (Session.set_lastTime currentTime w), true).

(** [startGame()]: everything is reset but the overlay title, and the
    first frame is run at once; [perfNow] is the reading of
    [performance.now()]. *)
Definition startGame `{HostMath} (perfNow : number) (f : Frame.t)
    (w : Session.t) : Session.t * bool :=
  let g := Session.game w in
  let c := Game.canvas g in
  let s := Game.gameState g in
  let p := Game.player g in
  let g1 :=
    Game.mk c
      (GameState.mk true false 0 5 1920 (GameState.maxScrollY s) false 4000)
      (Player.mk (Canvas.width c / 2 - 25) (Canvas.height c - 100)
                 (Player.width p) (Player.height p) (Player.speed p) []
                 (Player.lastShot p) (Player.shootCooldown p))
      [] None [] (Game.overlayHidden g) in
  gameLoop perfNow f
    (Session.mk (updateUI g1) 0 perfNow (Session.overlayTitle w)).

(** [restartGame()]: the overlay is hidden and the game started again. *)
Definition restartGame `{HostMath} (perfNow : number) (f : Frame.t)
    (w : Session.t) : Session.t * bool :=
  startGame perfNow f
    (Session.set_game (Game.set_overlayHidden true (Session.game w)) w).

End Scroller.

(** ** Concrete inputs used by the examples *)

Module Sample.
Import JS.

(** A stand-in for the host's [Math]: the examples that name it never
    depend on what it returns. *)
Definition host : HostMath :=
  {| Math_sin := fun _ => 0;
     Math_cos := fun _ => 1;
     Math_atan2 := fun _ _ => 0;
     Math_floor := fun v => v;
     rem := fun a _ => a |}.

Definition canvas : Canvas.t := Canvas.mk 700 500.

(** A playlist entry that emits nothing. *)
Definition idle (duration : number) : Patterns.BossPattern.t :=
  Patterns.BossPattern.mk "idle" duration (fun _ => []).

(** A scroller state: the player in the lower middle of the canvas, five
    lives, no enemy, no boss, no bullet. *)
Definition scroller : Scroller.Game.t :=
  Scroller.Game.mk canvas
    (Scroller.GameState.mk true false 0 5 1900 1920 false 4000)
    (Scroller.Player.mk 320 380 60 78 5 [] 0 80)
    [] None [] true.

(** A fairy of 44 by 44 with the given position, health, bullets, last shot
    and cooldown, falling straight down at 1.5 per frame and shooting
    straight down (movement type 1, pattern type 0). *)
Definition fairy (x y : number) (health : Z) (bullets : list Scroller.Bullet.t)
    (lastShot shootCooldown : number) : Scroller.Enemy.t :=
  Scroller.Enemy.mk x y 44 44 0 1.5 health 4 bullets lastShot shootCooldown
    0 0 1 90000 None None (Some false).

(** A hostile bullet of 12 by 12 falling at 2.5 per frame. *)
Definition pellet (x y : number) : Scroller.Bullet.t :=
  Scroller.Bullet.mk x y 12 12 2.5 enemy_t 0 (Some 0) (Some 2.5).

(** A player bullet of the scroller, 8 by 16, rising at 12 per frame. *)
Definition shot (x y : number) : Scroller.Bullet.t :=
  Scroller.Bullet.mk x y 8 16 12 player_t 0 (Some 0) (Some (-12)).

End Sample.

(** * Properties *)

(** ** The pattern library *)

Section PatternProps.
Import JS Patterns.
Context {M : HostMath}.

Lemma swap_elem_of {A} (i j : nat) (a : list A) (v : A) :
  v ∈ swap i j a -> v ∈ a.
Proof.
  unfold swap.
  destruct (a !! i) as [ai|] eqn:Hi; [|done].
  destruct (a !! j) as [aj|] eqn:Hj; [|done].
  intros [k Hk]%list_elem_of_lookup.
  apply list_lookup_insert_Some in Hk as [(_ & <- & _)|[_ Hk]].
  { by eapply list_elem_of_lookup_2. }
  apply list_lookup_insert_Some in Hk as [(_ & <- & _)|[_ Hk]].
  { by eapply list_elem_of_lookup_2. }
  by eapply list_elem_of_lookup_2.
Qed.

Lemma shuffleFrom_elem_of {A} (i : nat) (js : list nat) (a : list A) (v : A) :
  v ∈ shuffleFrom i js a -> v ∈ a.
Proof.
  revert js a. induction i as [|i IH]; intros js a; simpl; [done|].
  destruct js as [|j js]; [done|].
  intros Hv. apply IH in Hv. by eapply swap_elem_of.
Qed.

(** Shuffling only reorders: whatever [DefaultBossScript] holds comes from
    the pool it was built from. *)
Lemma DefaultBossScript_from_pool (js : list nat) (p : BossPattern.t) :
  In p (DefaultBossScript js) -> In p library.
Proof.
  intros Hp. apply list_elem_of_In in Hp.
  apply shuffleFrom_elem_of in Hp. apply list_elem_of_In in Hp.
  unfold library. apply in_or_app. by left.
Qed.

(** That no [spawn] reads a clock, a random source or a variable of the
    module is a property of the text of boss-patterns.ts; here it shows as
    each [spawn] being a function of its context and is not a theorem.
    What is left to prove is which fields are read: of the four of a
    context, none of the fourteen functions looks at the seed. *)
Lemma library_spawn_reads (p : BossPattern.t) :
  In p library ->
  forall b pl t s1 s2,
    BossPattern.spawn p (PatternContext.mk b pl t s1)
    = BossPattern.spawn p (PatternContext.mk b pl t s2).
Proof.
  unfold library, scriptPool, Boss1Patterns, Boss2Patterns, Boss3Patterns.
  simpl. intros Hp.
  repeat (destruct Hp as [<- | Hp]; [intros; reflexivity|]).
  destruct Hp.
Qed.

End PatternProps.

(** ** The pattern scheduler *)

(** Comparisons of numbers: the order is antisymmetric, a comparison that
    holds has no NaN operand, and a sum with a NaN operand is NaN. *)
Lemma SFcompare_swap (x y : SpecFloat.spec_float) :
  SpecFloat.SFcompare y x = option_map CompOpp (SpecFloat.SFcompare x y).
Proof.
  destruct x as [sx|sx| |sx mx ex], y as [sy|sy| |sy my ey]; simpl; try done;
    try (by destruct sx); try (by destruct sy); try (by destruct sx, sy).
  destruct sx, sy; simpl; try done.
  - rewrite (Z.compare_antisym ex ey).
    destruct (ex ?= ey)%Z; simpl; try done.
    change (Pos.compare_cont Eq my mx) with (Pos.compare my mx).
    change (Pos.compare_cont Eq mx my) with (Pos.compare mx my).
    rewrite (Pos.compare_antisym mx my). by destruct (mx ?= my)%positive.
  - rewrite (Z.compare_antisym ex ey).
    destruct (ex ?= ey)%Z; simpl; try done.
    change (Pos.compare_cont Eq my mx) with (Pos.compare my mx).
    change (Pos.compare_cont Eq mx my) with (Pos.compare mx my).
    rewrite (Pos.compare_antisym mx my). by destruct (mx ?= my)%positive.
Qed.

Lemma nan_add_l (x y : float) :
  Prim2SF x = SpecFloat.S754_nan -> Prim2SF (x + y) = SpecFloat.S754_nan.
Proof.
  intros Hx. rewrite FloatAxioms.add_spec, Hx. reflexivity.
Qed.

Lemma geb_defined (x y : float) :
  (x >=? y) = true ->
  Prim2SF x <> SpecFloat.S754_nan /\ Prim2SF y <> SpecFloat.S754_nan.
Proof.
  unfold JS.ge. rewrite FloatAxioms.leb_spec. unfold SpecFloat.SFleb.
  destruct (Prim2SF x), (Prim2SF y); simpl; try done.
Qed.

Lemma not_reached_below (x y : float) :
  Prim2SF x <> SpecFloat.S754_nan -> Prim2SF y <> SpecFloat.S754_nan ->
  (x >=? y) = false -> (x <? y) = true.
Proof.
  intros Hx Hy. unfold JS.ge.
  rewrite FloatAxioms.leb_spec, FloatAxioms.ltb_spec.
  unfold SpecFloat.SFleb, SpecFloat.SFltb.
  rewrite (SFcompare_swap (Prim2SF x) (Prim2SF y)).
  destruct (SpecFloat.SFcompare (Prim2SF x) (Prim2SF y)) as [[]|] eqn:Hc; simpl; try done.
  destruct (Prim2SF x), (Prim2SF y); simpl in Hc; done.
Qed.

Section Cursor.
Import JS Patterns.

(** What one call of [updateBoss] does to the cursor
    [(patternIndex, patternElapsed)] when a boss is present and the playlist
    [ps] is not empty; both games have this text. *)
Definition cursorStep (ps : list BossPattern.t) (dt : number)
    (c : nat * number) : nat * number :=
  let elapsed := snd c + dt in
  match ps !! (fst c mod length ps)%nat with
  | Some current =>
      if elapsed >=? BossPattern.duration current then (S (fst c), 0)
      else (fst c, elapsed)
  | None => (fst c, elapsed)
  end.

(** [patternElapsed] after [k] frames of delta [dt] since the last reset. *)
Fixpoint elapsedAfter (dt : number) (k : nat) : number :=
  match k with
  | O => 0
  | S k' => elapsedAfter dt k' + dt
  end.

(** With frames of delta [dt], a pattern of duration [D] is left on its
    [n]-th frame: the accumulated time is below [D] on the frames before and
    reaches it on that one. *)
Definition rotatesAfter (dt D : number) (n : nat) : bool :=
  match n with
  | O => false
  | S n' =>
      forallb (fun k => negb (elapsedAfter dt k >=? D)) (seq 1 n')
      && (elapsedAfter dt n >=? D)
  end.

Variable ps : list BossPattern.t.
Variables dt D : number.
Hypothesis ps_nonempty : ps <> [].
Hypothesis ps_duration : Forall (fun p => BossPattern.duration p = D) ps.

Lemma current_pattern (idx : nat) :
  exists current,
    ps !! (idx mod length ps)%nat = Some current /\ BossPattern.duration current = D.
Proof.
  assert (Hlt : (idx mod length ps < length ps)%nat).
  { apply Nat.mod_upper_bound. destruct ps; [done|]. simpl. lia. }
  apply lookup_lt_is_Some_2 in Hlt as [current Hcur].
  exists current. split; [done|].
  eapply Forall_lookup_1 in ps_duration; eauto.
Qed.

Lemma cursorStep_below (idx : nat) (e : number) :
  (e + dt >=? D) = false -> cursorStep ps dt (idx, e) = (idx, e + dt).
Proof.
  intros Hlow. unfold cursorStep. simpl.
  destruct (current_pattern idx) as (current & -> & ->). by rewrite Hlow.
Qed.

Lemma cursorStep_reached (idx : nat) (e : number) :
  (e + dt >=? D) = true -> cursorStep ps dt (idx, e) = (S idx, 0).
Proof.
  intros Hhigh. unfold cursorStep. simpl.
  destruct (current_pattern idx) as (current & -> & ->). by rewrite Hhigh.
Qed.

Lemma cursor_within_period (n' : nat) (idx j : nat) :
  forallb (fun k => negb (elapsedAfter dt k >=? D)) (seq 1 n') = true ->
  (j <= n')%nat ->
  Nat.iter j (cursorStep ps dt) (idx, 0) = (idx, elapsedAfter dt j).
Proof.
  intros Hall. induction j as [|j IH]; intros Hj; [done|].
  simpl. rewrite IH by lia.
  apply cursorStep_below.
  rewrite forallb_forall in Hall.
  specialize (Hall (S j)). rewrite in_seq in Hall.
  apply negb_true_iff. apply Hall. lia.
Qed.

Lemma cursor_period (n idx : nat) :
  rotatesAfter dt D n = true ->
  Nat.iter n (cursorStep ps dt) (idx, 0) = (S idx, 0).
Proof.
  destruct n as [|n']; [done|].
  unfold rotatesAfter. intros [Hall Hlast]%andb_true_iff.
  change (Nat.iter (S n') (cursorStep ps dt) (idx, 0))
    with (cursorStep ps dt (Nat.iter n' (cursorStep ps dt) (idx, 0))).
  rewrite (cursor_within_period n') by (done || lia).
  by apply cursorStep_reached.
Qed.

Lemma cursor_periods (n idx periods : nat) :
  rotatesAfter dt D n = true ->
  Nat.iter (n * periods) (cursorStep ps dt) (idx, 0) = ((idx + periods)%nat, 0).
Proof.
  intros Hrot. induction periods as [|q IH].
  - rewrite Nat.mul_0_r, Nat.add_0_r. done.
  - replace (n * S q)%nat with (n + n * q)%nat by lia.
    rewrite Nat.iter_add, IH, cursor_period by done.
    f_equal. lia.
Qed.

(** After [m] frames the cursor has passed [m / n] whole periods and is
    [m mod n] frames into the next. *)
Lemma cursor_after (n m idx : nat) :
  rotatesAfter dt D n = true ->
  Nat.iter m (cursorStep ps dt) (idx, 0)
  = ((idx + m / n)%nat, elapsedAfter dt (m mod n)).
Proof.
  intros Hrot.
  destruct n as [|n'] eqn:Hn; [done|]. rewrite <- Hn in *.
  assert (Hn0 : n <> 0%nat) by lia.
  pose proof (Nat.mod_upper_bound m n Hn0) as Hr.
  assert (Hm : m = (m mod n + n * (m / n))%nat)
    by (pose proof (Nat.div_mod_eq m n); lia).
  remember (m / n)%nat as q. remember (m mod n)%nat as r.
  rewrite Hm, Nat.iter_add.
  rewrite (cursor_periods n idx q Hrot).
  apply (cursor_within_period n').
  - rewrite Hn in Hrot. unfold rotatesAfter in Hrot.
    by apply andb_true_iff in Hrot as [Hall _].
  - lia.
Qed.

Lemma elapsedAfter_defined (r n : nat) :
  (r <= n)%nat ->
  Prim2SF (elapsedAfter dt n) <> SpecFloat.S754_nan ->
  Prim2SF (elapsedAfter dt r) <> SpecFloat.S754_nan.
Proof.
  induction 1 as [|n Hle IH]; [done|].
  intros Hn. apply IH. intros Hnan. apply Hn. simpl. by apply nan_add_l.
Qed.

(** Within a period the accumulated time is strictly below [D]. *)
Lemma elapsed_below (n r : nat) :
  rotatesAfter dt D n = true -> (0 <? D) = true -> (r < n)%nat ->
  (elapsedAfter dt r <? D) = true.
Proof.
  destruct n as [|n']; [done|].
  unfold rotatesAfter. intros [Hall Hlast]%andb_true_iff HD Hr.
  destruct r as [|r]; [done|].
  apply geb_defined in Hlast as [Hn HDn].
  apply not_reached_below; [|done|].
  - apply (elapsedAfter_defined (S r) (S n')); [lia|done].
  - rewrite forallb_forall in Hall. apply negb_true_iff. apply Hall.
    apply in_seq. lia.
Qed.

End Cursor.

Section SchedulerProps.
Import JS Arcade Patterns.
Context {M : HostMath}.

(** [m] consecutive frames of the single-boss scheduler with the frame
    delta [dt]; [perf k] is the reading of [performance.now()] in frame
    [k]. *)
Fixpoint rushTicks (patterns : list BossPattern.t) (perf : nat -> number)
    (dt : number) (m k : nat) (g : BossRush.Game.t) : completion BossRush.Game.t :=
  match m with
  | O => Normal g
  | S m' =>
      g1 <- BossRush.updateBoss patterns (perf k) dt g ;;
      rushTicks patterns perf dt m' (S k) g1
  end.

(** The same for the three-boss game. *)
Fixpoint stageTicks (sets : list (list BossPattern.t)) (perf : nat -> number)
    (dt : number) (m k : nat) (g : Stages.Game.t) : completion Stages.Game.t :=
  match m with
  | O => Normal g
  | S m' =>
      g1 <- Stages.updateBoss sets (perf k) dt g ;;
      stageTicks sets perf dt m' (S k) g1
  end.

Definition rushCursor (g : BossRush.Game.t) : nat * number :=
  (BossRush.Game.patternIndex g, BossRush.Game.patternElapsed g).

Definition stageCursor (g : Stages.Game.t) : nat * number :=
  (Stages.Game.patternIndex g, Stages.Game.patternElapsed g).

(** One frame of [BossRush.updateBoss] on a non-empty playlist: the pattern
    at [patternIndex mod length] is invoked on the context of this frame,
    its bullets are appended to the boss's, and the cursor moves as
    [cursorStep] says. *)
Lemma rush_tick (ps : list BossPattern.t) (perfNow dt : number)
    (g : BossRush.Game.t) (b0 : Boss.t) :
  BossRush.Game.boss g = Some b0 ->
  ps <> [] ->
  exists current g',
    ps !! (BossRush.Game.patternIndex g mod length ps)%nat = Some current /\
    BossRush.updateBoss ps perfNow dt g = Normal g' /\
    rushCursor g' = cursorStep ps dt (rushCursor g) /\
    (exists b, BossRush.Game.boss g' = Some b) /\
    BossRush.Game.bossBullets g' =
      Boss.bullets b0 ++
      map toBullet
        (BossPattern.spawn current
           (patternContext
              (Boss.set_x (Canvas.width (BossRush.Game.canvas g) / 2
                           - Boss.width b0 / 2 + Math_sin (perfNow / 800) * 80) b0)
              (BossRush.Game.player g)
              (BossRush.Game.patternElapsed g + dt))).
Proof.
  intros Hboss Hne.
  assert (Hlt : (BossRush.Game.patternIndex g mod length ps < length ps)%nat).
  { apply Nat.mod_upper_bound. destruct ps; [done|]. simpl. lia. }
  destruct (lookup_lt_is_Some_2 _ _ Hlt) as [current Hcur].
  assert (Hlen : (0 <? length ps)%nat = true).
  { apply Nat.ltb_lt. destruct ps; [done|]. simpl. lia. }
  unfold BossRush.updateBoss, rushCursor, cursorStep. simpl.
  rewrite Hboss, Hlen, Hcur.
  exists current.
  destruct (BossRush.Game.patternElapsed g + dt >=? BossPattern.duration current);
    eexists; (split; [done|]); (split; [reflexivity|]);
    (split; [reflexivity|]); (split; [by eexists|]); reflexivity.
Qed.

Lemma rushTicks_cursor (ps : list BossPattern.t) (perf : nat -> number)
    (dt : number) (m k : nat) (g : BossRush.Game.t) :
  (exists b, BossRush.Game.boss g = Some b) ->
  ps <> [] ->
  exists g',
    rushTicks ps perf dt m k g = Normal g' /\
    rushCursor g' = Nat.iter m (cursorStep ps dt) (rushCursor g) /\
    (exists b, BossRush.Game.boss g' = Some b).
Proof.
  intros Hboss Hne. revert k g Hboss.
  induction m as [|m IH]; intros k g [b0 Hboss].
  - exists g. repeat split; eauto.
  - destruct (rush_tick ps (perf k) dt g b0 Hboss Hne)
      as (current & g1 & _ & Hstep & Hcur & Hb1 & _).
    destruct (IH (S k) g1 Hb1) as (g' & Hrun & Hcur' & Hb').
    exists g'. split; [simpl; by rewrite Hstep|]. split; [|done].
    rewrite Hcur', Hcur. symmetry. apply Nat.iter_succ_r.
Qed.

(** The same frame in [Stages.updateBoss], on the playlist of the current
    stage. *)
Lemma stage_tick (sets : list (list BossPattern.t)) (ps : list BossPattern.t)
    (perfNow dt : number) (g : Stages.Game.t) (b0 : Boss.t) :
  Stages.Game.boss g = Some b0 ->
  Stages.at_index sets (Stages.Game.stage g - 1) = Some ps ->
  ps <> [] ->
  exists current g',
    ps !! (Stages.Game.patternIndex g mod length ps)%nat = Some current /\
    Stages.updateBoss sets perfNow dt g = Normal g' /\
    stageCursor g' = cursorStep ps dt (stageCursor g) /\
    (exists b, Stages.Game.boss g' = Some b) /\
    Stages.Game.gameState g' = Stages.Game.gameState g /\
    Stages.Game.bossBullets g' =
      Boss.bullets b0 ++
      map toBullet
        (BossPattern.spawn current
           (patternContext
              (Boss.set_x (Canvas.width (Stages.Game.canvas g) / 2
                           - Boss.width b0 / 2 + Math_sin (perfNow / 800) * 80) b0)
              (Stages.Game.player g)
              (Stages.Game.patternElapsed g + dt))).
Proof.
  intros Hboss Hset Hne.
  assert (Hlt : (Stages.Game.patternIndex g mod length ps < length ps)%nat).
  { apply Nat.mod_upper_bound. destruct ps; [done|]. simpl. lia. }
  destruct (lookup_lt_is_Some_2 _ _ Hlt) as [current Hcur].
  assert (Hlen : (0 <? length ps)%nat = true).
  { apply Nat.ltb_lt. destruct ps; [done|]. simpl. lia. }
  unfold Stages.updateBoss, stageCursor, cursorStep. simpl.
  rewrite Hboss.
  change (Stages.Game.stage
            (Stages.Game.set_pattern (Stages.Game.patternIndex g)
               (Stages.Game.patternElapsed g + dt)
               (Stages.Game.set_boss _ g))) with (Stages.Game.stage g).
  rewrite Hset, Hlen, Hcur.
  exists current.
  destruct (Stages.Game.patternElapsed g + dt >=? BossPattern.duration current);
    eexists; (split; [done|]); (split; [reflexivity|]);
    (split; [reflexivity|]); (split; [by eexists|]); (split; reflexivity).
Qed.

Lemma stageTicks_cursor (sets : list (list BossPattern.t)) (ps : list BossPattern.t)
    (perf : nat -> number) (dt : number) (m k : nat) (g : Stages.Game.t) :
  (exists b, Stages.Game.boss g = Some b) ->
  Stages.at_index sets (Stages.Game.stage g - 1) = Some ps ->
  ps <> [] ->
  exists g',
    stageTicks sets perf dt m k g = Normal g' /\
    stageCursor g' = Nat.iter m (cursorStep ps dt) (stageCursor g) /\
    (exists b, Stages.Game.boss g' = Some b).
Proof.
  intros Hboss Hset Hne. revert k g Hboss Hset.
  induction m as [|m IH]; intros k g [b0 Hboss] Hset.
  - exists g. repeat split; eauto.
  - destruct (stage_tick sets ps (perf k) dt g b0 Hboss Hset Hne)
      as (current & g1 & _ & Hstep & Hcur & Hb1 & Hgs & _).
    assert (Hset1 : Stages.at_index sets (Stages.Game.stage g1 - 1) = Some ps).
    { unfold Stages.Game.stage. by rewrite Hgs. }
    destruct (IH (S k) g1 Hb1 Hset1) as (g' & Hrun & Hcur' & Hb').
    exists g'. split; [simpl; by rewrite Hstep|]. split; [|done].
    rewrite Hcur', Hcur. symmetry. apply Nat.iter_succ_r.
Qed.

End SchedulerProps.

(** C6, as the spec words it, fails: a pattern is left on the first frame
    whose accumulated delta reaches its duration, and the overshoot is
    dropped by the reset to 0, so a cycle of K patterns takes longer than
    K·D unless the frame delta divides D.  Two patterns of duration 10 with
    frames of 4: after five frames, 20 = 2·10 have elapsed and the scheduler
    is on pattern 1 with 8 elapsed.  [radialBurst] and [waveRings], both of
    duration 5000, with frames of 16: after 625 frames, 10000 = 2·5000 have
    elapsed and the scheduler is on pattern 1 with 4992 elapsed. *)
Lemma C6_cycle_outlasts_K_times_D :
  (elapsedAfter 4 5 = 2 * 10 /\
   exists g,
     rushTicks (M := Sample.host) [Sample.idle 10; Sample.idle 10] (fun _ => 0)
       4 5 0 (BossRush.startGame (BossRush.create Sample.canvas)) = Normal g /\
     (BossRush.Game.patternIndex g mod 2)%nat = 1%nat /\
     BossRush.Game.patternElapsed g = 8) /\
  (elapsedAfter 16 625 = 2 * 5000 /\
   exists g,
     rushTicks (M := Sample.host)
       [Patterns.radialBurst (M := Sample.host); Patterns.waveRings (M := Sample.host)]
       (fun _ => 0) 16 625 0 (BossRush.startGame (BossRush.create Sample.canvas))
     = Normal g /\
     (BossRush.Game.patternIndex g mod 2)%nat = 1%nat /\
     BossRush.Game.patternElapsed g = 4992).
Proof.
  split; (split; [vm_compute; reflexivity|]); eexists;
    (split; [vm_compute; reflexivity|]); split; vm_compute; reflexivity.
Qed.

(** C6, amended.  On each frame with a boss and a non-empty playlist,
    whatever the durations in it, [updateBoss] invokes the pattern at
    position [patternIndex mod length] on this frame's context (its tick is
    [patternElapsed] plus the frame delta) and appends its bullets; when
    that sum reaches the duration of that pattern, the stored
    [patternIndex] is incremented (it is reduced modulo the length only at
    the lookup) and [patternElapsed] is reset to 0, the overshoot being
    dropped; otherwise [patternIndex] stays and [patternElapsed] becomes the
    sum.  This holds in the single-boss game and, on the playlist of the
    current stage, in the three-boss game.  So for a playlist of K patterns
    of one duration D > 0, driven from [patternElapsed = 0] by frames of a
    delta [dt] whose accumulation first reaches D on the n-th frame (the n
    frames of a period accumulate at least D): after m frames
    [patternIndex] has grown by m div n and [patternElapsed] is what m mod n
    frames accumulate, strictly below D; after n·K frames [patternIndex] has
    grown by K, the pattern in turn is again the one it started from, and
    [patternElapsed] is 0. *)
Theorem C6_scheduler_rotation `{JS.HostMath} :
  (forall (ps : list Patterns.BossPattern.t) (perfNow dt : JS.number)
          (g : BossRush.Game.t) (b0 : Arcade.Boss.t),
     BossRush.Game.boss g = Some b0 ->
     ps <> [] ->
     exists current g',
       ps !! (BossRush.Game.patternIndex g mod length ps)%nat = Some current /\
       BossRush.updateBoss ps perfNow dt g = Normal g' /\
       rushCursor g' =
         (if BossRush.Game.patternElapsed g + dt
             >=? Patterns.BossPattern.duration current
          then (S (BossRush.Game.patternIndex g), 0)
          else (BossRush.Game.patternIndex g, BossRush.Game.patternElapsed g + dt)) /\
       BossRush.Game.bossBullets g' =
         Arcade.Boss.bullets b0 ++
         map Arcade.toBullet
           (Patterns.BossPattern.spawn current
              (Arcade.patternContext
                 (Arcade.Boss.set_x
                    (Canvas.width (BossRush.Game.canvas g) / 2
                     - Arcade.Boss.width b0 / 2 + JS.Math_sin (perfNow / 800) * 80) b0)
                 (BossRush.Game.player g)
                 (BossRush.Game.patternElapsed g + dt)))) /\
  (forall (sets : list (list Patterns.BossPattern.t))
          (ps : list Patterns.BossPattern.t) (perfNow dt : JS.number)
          (g : Stages.Game.t) (b0 : Arcade.Boss.t),
     Stages.Game.boss g = Some b0 ->
     Stages.at_index sets (Stages.Game.stage g - 1) = Some ps ->
     ps <> [] ->
     exists current g',
       ps !! (Stages.Game.patternIndex g mod length ps)%nat = Some current /\
       Stages.updateBoss sets perfNow dt g = Normal g' /\
       stageCursor g' =
         (if Stages.Game.patternElapsed g + dt
             >=? Patterns.BossPattern.duration current
          then (S (Stages.Game.patternIndex g), 0)
          else (Stages.Game.patternIndex g, Stages.Game.patternElapsed g + dt)) /\
       Stages.Game.bossBullets g' =
         Arcade.Boss.bullets b0 ++
         map Arcade.toBullet
           (Patterns.BossPattern.spawn current
              (Arcade.patternContext
                 (Arcade.Boss.set_x
                    (Canvas.width (Stages.Game.canvas g) / 2
                     - Arcade.Boss.width b0 / 2 + JS.Math_sin (perfNow / 800) * 80) b0)
                 (Stages.Game.player g)
                 (Stages.Game.patternElapsed g + dt)))) /\
  (forall (ps : list Patterns.BossPattern.t) (dt D : JS.number) (n : nat)
          (perf : nat -> JS.number),
     ps <> [] ->
     Forall (fun p => Patterns.BossPattern.duration p = D) ps ->
     rotatesAfter dt D n = true ->
     (0 <? D) = true ->
     (elapsedAfter dt n >=? D) = true /\
     (forall (g : BossRush.Game.t) (m : nat),
        (exists b, BossRush.Game.boss g = Some b) ->
        BossRush.Game.patternElapsed g = 0 ->
        exists g',
          rushTicks ps perf dt m 0 g = Normal g' /\
          BossRush.Game.patternIndex g' = (BossRush.Game.patternIndex g + m / n)%nat /\
          BossRush.Game.patternElapsed g' = elapsedAfter dt (m mod n) /\
          (BossRush.Game.patternElapsed g' <? D) = true) /\
     (forall g : BossRush.Game.t,
        (exists b, BossRush.Game.boss g = Some b) ->
        BossRush.Game.patternElapsed g = 0 ->
        exists g',
          rushTicks ps perf dt (n * length ps) 0 g = Normal g' /\
          BossRush.Game.patternIndex g' = (BossRush.Game.patternIndex g + length ps)%nat /\
          (BossRush.Game.patternIndex g' mod length ps
           = BossRush.Game.patternIndex g mod length ps)%nat /\
          BossRush.Game.patternElapsed g' = 0 /\
          (BossRush.Game.patternElapsed g' <? D) = true) /\
     (forall (sets : list (list Patterns.BossPattern.t)) (g : Stages.Game.t) (m : nat),
        (exists b, Stages.Game.boss g = Some b) ->
        Stages.at_index sets (Stages.Game.stage g - 1) = Some ps ->
        Stages.Game.patternElapsed g = 0 ->
        exists g',
          stageTicks sets perf dt m 0 g = Normal g' /\
          Stages.Game.patternIndex g' = (Stages.Game.patternIndex g + m / n)%nat /\
          Stages.Game.patternElapsed g' = elapsedAfter dt (m mod n) /\
          (Stages.Game.patternElapsed g' <? D) = true) /\
     (forall (sets : list (list Patterns.BossPattern.t)) (g : Stages.Game.t),
        (exists b, Stages.Game.boss g = Some b) ->
        Stages.at_index sets (Stages.Game.stage g - 1) = Some ps ->
        Stages.Game.patternElapsed g = 0 ->
        exists g',
          stageTicks sets perf dt (n * length ps) 0 g = Normal g' /\
          Stages.Game.patternIndex g' = (Stages.Game.patternIndex g + length ps)%nat /\
          (Stages.Game.patternIndex g' mod length ps
           = Stages.Game.patternIndex g mod length ps)%nat /\
          Stages.Game.patternElapsed g' = 0 /\
          (Stages.Game.patternElapsed g' <? D) = true)).
Proof.
  split; [|split].
  - intros ps perfNow dt g b0 Hboss Hne.
    destruct (rush_tick ps perfNow dt g b0 Hboss Hne)
      as (current & g' & Hcur & Hstep & Hcursor & _ & Hbullets).
    exists current, g'. repeat split; try done.
    rewrite Hcursor. unfold cursorStep, rushCursor. simpl. by rewrite Hcur.
  - intros sets ps perfNow dt g b0 Hboss Hset Hne.
    destruct (stage_tick sets ps perfNow dt g b0 Hboss Hset Hne)
      as (current & g' & Hcur & Hstep & Hcursor & _ & _ & Hbullets).
    exists current, g'. repeat split; try done.
    rewrite Hcursor. unfold cursorStep, stageCursor. simpl. by rewrite Hcur.
  - intros ps dt D n perf Hne Hdur Hrot HD.
    assert (Hmod : forall i : nat, ((i + length ps) mod length ps = i mod length ps)%nat).
    { intros i. rewrite <- (Nat.mul_1_l (length ps)) at 1.
      apply Nat.Div0.mod_add. }
    assert (Hn : n <> 0%nat) by (by destruct n).
    split; [|split; [|split; [|split]]].
    + destruct n as [|n']; [done|].
      unfold rotatesAfter in Hrot. by apply andb_true_iff in Hrot as [_ Hlast].
    + intros g m Hboss Hzero.
      destruct (rushTicks_cursor ps perf dt m 0 g Hboss Hne) as (g' & Hrun & Hcursor & _).
      unfold rushCursor in Hcursor. rewrite Hzero in Hcursor.
      rewrite (cursor_after ps dt D Hne Hdur n) in Hcursor by done.
      injection Hcursor as Hidx Hel.
      exists g'. rewrite Hidx, Hel. repeat split; try done.
      apply (elapsed_below dt D n); [done|done|]. by apply Nat.mod_upper_bound.
    + intros g Hboss Hzero.
      destruct (rushTicks_cursor ps perf dt (n * length ps) 0 g Hboss Hne)
        as (g' & Hrun & Hcursor & _).
      unfold rushCursor in Hcursor. rewrite Hzero in Hcursor.
      rewrite (cursor_periods ps dt D Hne Hdur) in Hcursor by done.
      injection Hcursor as Hidx Hel.
      exists g'. rewrite Hidx, Hel. repeat split; first [done | apply Hmod].
    + intros sets g m Hboss Hset Hzero.
      destruct (stageTicks_cursor sets ps perf dt m 0 g Hboss Hset Hne)
        as (g' & Hrun & Hcursor & _).
      unfold stageCursor in Hcursor. rewrite Hzero in Hcursor.
      rewrite (cursor_after ps dt D Hne Hdur n) in Hcursor by done.
      injection Hcursor as Hidx Hel.
      exists g'. rewrite Hidx, Hel. repeat split; try done.
      apply (elapsed_below dt D n); [done|done|]. by apply Nat.mod_upper_bound.
    + intros sets g Hboss Hset Hzero.
      destruct (stageTicks_cursor sets ps perf dt (n * length ps) 0 g Hboss Hset Hne)
        as (g' & Hrun & Hcursor & _).
      unfold stageCursor in Hcursor. rewrite Hzero in Hcursor.
      rewrite (cursor_periods ps dt D Hne Hdur) in Hcursor by done.
      injection Hcursor as Hidx Hel.
      exists g'. rewrite Hidx, Hel. repeat split; first [done | apply Hmod].
Qed.

Lemma C6_witness :
  (exists current g',
     Patterns.Boss1Patterns (M := Sample.host) !! 0%nat = Some current /\
     BossRush.updateBoss (H := Sample.host) (Patterns.Boss1Patterns (M := Sample.host))
       0 16 (BossRush.startGame (BossRush.create Sample.canvas)) = Normal g' /\
     rushCursor g' = (0%nat, 16)) /\
  (exists g',
     rushTicks (M := Sample.host)
       [Patterns.radialBurst (M := Sample.host); Patterns.waveRings (M := Sample.host)]
       (fun _ => 0) 16 (313 * 2) 0 (BossRush.startGame (BossRush.create Sample.canvas))
     = Normal g' /\
     BossRush.Game.patternIndex g' = 2%nat /\
     BossRush.Game.patternElapsed g' = 0).
Proof.
  destruct (C6_scheduler_rotation (H := Sample.host)) as (Htick & _ & Hrotation).
  split.
  - edestruct (Htick (Patterns.Boss1Patterns (M := Sample.host)) 0 16
                 (BossRush.startGame (BossRush.create Sample.canvas)))
      as (current & g' & Hcur & Hrun & Hcursor & _).
    + reflexivity.
    + discriminate.
    + exists current, g'. split; [exact Hcur|]. split; [exact Hrun|].
      rewrite Hcursor. injection Hcur as <-. vm_compute. reflexivity.
  - destruct (Hrotation
                [Patterns.radialBurst (M := Sample.host);
                 Patterns.waveRings (M := Sample.host)]
                16 5000 313%nat (fun _ => 0))
      as (_ & _ & Hcycle & _).
    + discriminate.
    + repeat constructor.
    + vm_compute. reflexivity.
    + vm_compute. reflexivity.
    + destruct (Hcycle (BossRush.startGame (BossRush.create Sample.canvas)))
        as (g' & Hrun & Hidx & _ & Hel & _).
      * eexists. reflexivity.
      * reflexivity.
      * exists g'. repeat split; assumption.
Defined.

(** C9, as the spec words it, fails: nothing rejects an empty playlist.
    Neither game's constructor or [startGame] looks at the playlist, and
    [updateBoss] guards the lookup with [patterns.length > 0]: with an empty
    playlist the game starts, runs, and a frame of the scheduler returns
    normally, having only advanced [patternElapsed]. *)
Lemma C9_empty_playlist_runs :
  (let g0 := BossRush.startGame (BossRush.create Sample.canvas) in
   BossRush.Game.isRunning g0 = true /\
   exists g1,
     BossRush.updateBoss (H := Sample.host) [] 0 16 g0 = Normal g1 /\
     BossRush.Game.isRunning g1 = true /\
     BossRush.Game.patternElapsed g1 = 16) /\
  (exists g0 g1,
     Stages.startGame (Stages.create Sample.canvas) = Normal g0 /\
     Stages.Game.isRunning g0 = true /\
     Stages.updateBoss (H := Sample.host) [[]; []; []] 0 16 g0 = Normal g1 /\
     Stages.Game.isRunning g1 = true /\
     Stages.Game.patternElapsed g1 = 16).
Proof.
  split.
  - split; [reflexivity|]. eexists. repeat split; vm_compute; reflexivity.
  - do 2 eexists. split; [vm_compute; reflexivity|].
    repeat split; vm_compute; reflexivity.
Qed.

(** C9, amended.  An empty playlist is not rejected when the scheduler is
    set up; it is tolerated at tick time by the guard [patterns.length > 0].
    A frame of [updateBoss] against an empty playlist returns normally,
    invokes no pattern (the boss's bullets are unchanged), leaves
    [patternIndex] and the game state as they were, and, when a boss is
    present, still adds the frame delta to [patternElapsed].  So no pattern
    is ever looked up in an empty playlist. *)
Theorem C9_empty_playlist_tolerated `{JS.HostMath} (perfNow dt : JS.number) :
  (forall g : BossRush.Game.t,
     exists g',
       BossRush.updateBoss [] perfNow dt g = Normal g' /\
       BossRush.Game.bossBullets g' = BossRush.Game.bossBullets g /\
       BossRush.Game.patternIndex g' = BossRush.Game.patternIndex g /\
       BossRush.Game.gameState g' = BossRush.Game.gameState g /\
       BossRush.Game.patternElapsed g' =
         match BossRush.Game.boss g with
         | Some _ => BossRush.Game.patternElapsed g + dt
         | None => BossRush.Game.patternElapsed g
         end) /\
  (forall (sets : list (list Patterns.BossPattern.t)) (g : Stages.Game.t),
     Stages.at_index sets (Stages.Game.stage g - 1) = Some [] ->
     exists g',
       Stages.updateBoss sets perfNow dt g = Normal g' /\
       Stages.Game.bossBullets g' = Stages.Game.bossBullets g /\
       Stages.Game.patternIndex g' = Stages.Game.patternIndex g /\
       Stages.Game.gameState g' = Stages.Game.gameState g /\
       Stages.Game.patternElapsed g' =
         match Stages.Game.boss g with
         | Some _ => Stages.Game.patternElapsed g + dt
         | None => Stages.Game.patternElapsed g
         end).
Proof.
  split.
  - intros g. unfold BossRush.updateBoss.
    destruct (BossRush.Game.boss g) as [b0|] eqn:Hboss.
    + eexists. split; [reflexivity|]. simpl.
      unfold BossRush.Game.bossBullets. simpl. by rewrite Hboss.
    + by exists g.
  - intros sets g Hset. unfold Stages.updateBoss.
    destruct (Stages.Game.boss g) as [b0|] eqn:Hboss.
    + change (Stages.Game.stage
                (Stages.Game.set_pattern (Stages.Game.patternIndex g)
                   (Stages.Game.patternElapsed g + dt)
                   (Stages.Game.set_boss _ g))) with (Stages.Game.stage g).
      rewrite Hset. simpl.
      eexists. split; [reflexivity|]. simpl.
      unfold Stages.Game.bossBullets. simpl. by rewrite Hboss.
    + by exists g.
Qed.

Lemma C9_witness :
  exists g',
    Stages.updateBoss (H := Sample.host) [[]; []; []] 0 16
      (state_of (Stages.startGame (Stages.create Sample.canvas))) = Normal g' /\
    Stages.Game.bossBullets g' = [] /\
    Stages.Game.patternIndex g' = 0%nat.
Proof.
  destruct (C9_empty_playlist_tolerated (H := Sample.host) 0 16) as [_ Hstages].
  destruct (Hstages [[]; []; []]
              (state_of (Stages.startGame (Stages.create Sample.canvas))))
    as (g' & Hrun & Hbullets & Hidx & _).
  - reflexivity.
  - exists g'. repeat split; assumption.
Defined.

(** ** Boss succession (the three-boss game) *)

Section Succession.
Import JS Arcade.
Import Stages.

(** The state [bossDefeated] builds while stages remain. *)
Definition successor (h : Z) (g : Game.t) : Game.t :=
  let s := Game.gameState g in
  Game.set_pattern 0 0
    (Game.set_boss
       (Some (Boss.mk (Canvas.width (Game.canvas g) / 2 - 48) 40 96 96 h h []))
       (Game.set_gameState
          (GameState.set_stage (GameState.stage s + 1)
             (GameState.set_lives (GameState.lives s + 1)
                (GameState.set_score (GameState.score s + 1000) s))) g)).

Lemma bossDefeated_next (g : Game.t) :
  (1 <= Game.stage g)%Z ->
  (Game.stage g < Game.maxStage g)%Z ->
  (Game.maxStage g <= 3)%Z ->
  exists h,
    healthValues !! Z.to_nat (Game.stage g) = Some h /\
    bossDefeated g = Normal (successor h g).
Proof.
  intros Hlo Hlt Hmax.
  unfold bossDefeated, Game.stage, Game.maxStage in *. simpl.
  destruct (Z.leb_spec (GameState.stage (Game.gameState g) + 1)
              (GameState.maxStage (Game.gameState g))) as [_|Hbad]; [|lia].
  unfold spawnBoss, at_index, Game.stage. simpl.
  replace (GameState.stage (Game.gameState g) + 1 - 1)%Z
    with (GameState.stage (Game.gameState g)) by lia.
  destruct (Z.ltb_spec (GameState.stage (Game.gameState g)) 0) as [Hneg|_]; [lia|].
  assert (Hh : exists h,
             healthValues !! Z.to_nat (GameState.stage (Game.gameState g)) = Some h).
  { assert (Hcases : GameState.stage (Game.gameState g) = 1%Z
                     \/ GameState.stage (Game.gameState g) = 2%Z) by lia.
    destruct Hcases as [-> | ->]; eexists; reflexivity. }
  destruct Hh as [h Hh]. exists h. split; [done|]. by rewrite Hh.
Qed.

Lemma bossDefeated_last (g : Game.t) :
  (Game.maxStage g <= Game.stage g)%Z ->
  bossDefeated g =
    Normal (gameWin
              (Game.set_boss None
                 (Game.set_gameState
                    (GameState.set_stage (Game.stage g + 1)
                       (GameState.set_lives (Game.lives g + 1)
                          (GameState.set_score (Game.score g + 1000)
                             (Game.gameState g)))) g))).
Proof.
  intros Hge.
  unfold bossDefeated, Game.stage, Game.maxStage in *. simpl.
  destruct (Z.leb_spec (GameState.stage (Game.gameState g) + 1)
              (GameState.maxStage (Game.gameState g))) as [Hbad|_]; [lia|].
  reflexivity.
Qed.

(** The callback of the last loop on a bullet that brings the boss down. *)
Lemma bossCallback_kill (g : Game.t) (b : Boss.t) (bullet : Bullet.t) (k : nat) :
  Game.boss g = Some b ->
  checkCollision (Bullet.rect bullet) (Boss.rect b) = true ->
  (Boss.health b - damagePerHit <= 0)%Z ->
  bossCallback bullet k g =
    bossDefeated
      (Game.set_boss (Some (Boss.set_health (Boss.health b - damagePerHit) b))
         (Game.set_playerBullets (delete k (Game.playerBullets g)) g)).
Proof.
  intros Hboss Hhit Hdead. unfold bossCallback. rewrite Hboss, Hhit. simpl.
  destruct (Z.leb_spec (Boss.health b - damagePerHit) 0) as [_|Hbad]; [done|lia].
Qed.

End Succession.

(** C3.  In the three-boss game, when a player bullet brings the boss's
    health to 0 or below while stages remain ([stage < maxStage], with the
    three configured stages), the callback that registers the hit returns
    with the running flag as it was, [lives] one higher, [score] 1000 higher,
    [stage] one higher, and the boss of the next stage in place at its
    configured full health (1500 or 2000), without bullets, with
    [patternIndex = 0] and [patternElapsed = 0].  When no stage remains, the
    boss is removed, the game stops running and the overlay is shown with
    the title "Victory!". *)
Theorem C3_boss_succession (g : Stages.Game.t) (b : Arcade.Boss.t)
    (bullet : Arcade.Bullet.t) (k : nat) :
  Stages.Game.boss g = Some b ->
  checkCollision (Arcade.Bullet.rect bullet) (Arcade.Boss.rect b) = true ->
  (Arcade.Boss.health b - Stages.damagePerHit <= 0)%Z ->
  (1 <= Stages.Game.stage g)%Z ->
  (Stages.Game.maxStage g <= 3)%Z ->
  ((Stages.Game.stage g < Stages.Game.maxStage g)%Z ->
   exists g' h,
     Stages.bossCallback bullet k g = Normal g' /\
     Stages.Game.isRunning g' = Stages.Game.isRunning g /\
     Stages.Game.lives g' = (Stages.Game.lives g + 1)%Z /\
     Stages.Game.score g' = (Stages.Game.score g + 1000)%Z /\
     Stages.Game.stage g' = (Stages.Game.stage g + 1)%Z /\
     Stages.healthValues !! Z.to_nat (Stages.Game.stage g) = Some h /\
     Stages.Game.boss g' =
       Some (Arcade.Boss.mk (Canvas.width (Stages.Game.canvas g) / 2 - 48) 40 96 96
               h h []) /\
     Stages.Game.patternIndex g' = 0%nat /\
     Stages.Game.patternElapsed g' = 0) /\
  ((Stages.Game.maxStage g <= Stages.Game.stage g)%Z ->
   exists g',
     Stages.bossCallback bullet k g = Normal g' /\
     Stages.Game.boss g' = None /\
     Stages.Game.isRunning g' = false /\
     Stages.Game.overlayHidden g' = false /\
     Stages.Game.overlayTitle g' = "Victory!"%string).
Proof.
  intros Hboss Hhit Hdead Hlo Hmax.
  rewrite (bossCallback_kill g b bullet k Hboss Hhit Hdead).
  split.
  - intros Hlt.
    destruct (bossDefeated_next
                (Stages.Game.set_boss
                   (Some (Arcade.Boss.set_health
                            (Arcade.Boss.health b - Stages.damagePerHit) b))
                   (Stages.Game.set_playerBullets
                      (delete k (Stages.Game.playerBullets g)) g)))
      as (h & Hh & ->); [done..|].
    eexists _, h. repeat split; done.
  - intros Hge. rewrite bossDefeated_last by done.
    eexists. repeat split; done.
Qed.

Lemma C3_witness :
  let g :=
    Stages.Game.set_playerBullets
      [Arcade.Bullet.mk 350 100 4 8 7 player_t (Some 0) (Some (-7))]
      (Stages.Game.set_boss (Some (Arcade.Boss.mk 302 40 96 96 2 1000 []))
         (state_of (Stages.startGame (Stages.create Sample.canvas)))) in
  exists g',
    Stages.bossCallback
      (Arcade.Bullet.mk 350 100 4 8 7 player_t (Some 0) (Some (-7))) 0 g
    = Normal g' /\
    Stages.Game.isRunning g' = true /\
    Stages.Game.lives g' = 6%Z /\
    Stages.Game.score g' = 1000%Z /\
    Stages.Game.stage g' = 2%Z /\
    Stages.Game.boss g' = Some (Arcade.Boss.mk 302 40 96 96 1500 1500 []) /\
    Stages.Game.patternIndex g' = 0%nat /\
    Stages.Game.patternElapsed g' = 0.
Proof.
  intros g.
  destruct (C3_boss_succession g (Arcade.Boss.mk 302 40 96 96 2 1000 [])
              (Arcade.Bullet.mk 350 100 4 8 7 player_t (Some 0) (Some (-7))) 0)
    as [Hnext _].
  - reflexivity.
  - vm_compute. reflexivity.
  - vm_compute. discriminate.
  - vm_compute. discriminate.
  - vm_compute. discriminate.
  - destruct Hnext as (g' & h & Hrun & Hr & Hl & Hs & Hst & Hh & Hb & Hi & He).
    + vm_compute. reflexivity.
    + vm_compute in Hh. injection Hh as <-.
      exists g'. repeat split; assumption.
Defined.

(** C10.  When a boss is defeated and a successor is spawned, the bullets of
    the defeated boss are dropped: the successor starts with an empty bullet
    list, the only other pool (the player's bullets) loses the one index the
    callback splices and gains nothing, and the state after the succession is
    the same whatever bullets the defeated boss had, so nothing that happens
    later can depend on them. *)
Theorem C10_defeated_boss_bullets_dropped (g : Stages.Game.t) (b : Arcade.Boss.t)
    (bullet : Arcade.Bullet.t) (k : nat) :
  Stages.Game.boss g = Some b ->
  checkCollision (Arcade.Bullet.rect bullet) (Arcade.Boss.rect b) = true ->
  (Arcade.Boss.health b - Stages.damagePerHit <= 0)%Z ->
  (1 <= Stages.Game.stage g)%Z ->
  (Stages.Game.stage g < Stages.Game.maxStage g)%Z ->
  (Stages.Game.maxStage g <= 3)%Z ->
  exists g',
    Stages.bossCallback bullet k g = Normal g' /\
    Stages.Game.bossBullets g' = [] /\
    Stages.Game.playerBullets g' = delete k (Stages.Game.playerBullets g) /\
    Stages.Game.enemies g' = Stages.Game.enemies g /\
    forall bs : list Arcade.Bullet.t,
      Stages.bossCallback bullet k (Stages.Game.set_bossBullets bs g) = Normal g'.
Proof.
  intros Hboss Hhit Hdead Hlo Hlt Hmax.
  rewrite (bossCallback_kill g b bullet k Hboss Hhit Hdead).
  destruct (bossDefeated_next
              (Stages.Game.set_boss
                 (Some (Arcade.Boss.set_health
                          (Arcade.Boss.health b - Stages.damagePerHit) b))
                 (Stages.Game.set_playerBullets
                    (delete k (Stages.Game.playerBullets g)) g)))
    as (h & Hh & ->); [done..|].
  eexists. split; [reflexivity|]. repeat split.
  intros bs.
  rewrite (bossCallback_kill (Stages.Game.set_bossBullets bs g)
             (Arcade.Boss.set_bullets bs b) bullet k).
  - destruct (bossDefeated_next
                (Stages.Game.set_boss
                   (Some (Arcade.Boss.set_health
                            (Arcade.Boss.health (Arcade.Boss.set_bullets bs b)
                             - Stages.damagePerHit)
                            (Arcade.Boss.set_bullets bs b)))
                   (Stages.Game.set_playerBullets
                      (delete k (Stages.Game.playerBullets
                                   (Stages.Game.set_bossBullets bs g)))
                      (Stages.Game.set_bossBullets bs g))))
      as (h' & Hh' & ->); [done..|].
    unfold Stages.Game.stage in Hh, Hh'. simpl in Hh, Hh'.
    rewrite Hh in Hh'. injection Hh' as <-. reflexivity.
  - unfold Stages.Game.set_bossBullets. simpl. by rewrite Hboss.
  - done.
  - done.
Qed.

Lemma C10_witness :
  let shot := Arcade.Bullet.mk 350 100 4 8 7 player_t (Some 0) (Some (-7)) in
  let stray := Arcade.Bullet.mk 350 400 4 8 2 enemy_t (Some 0) (Some 2) in
  let g :=
    Stages.Game.set_playerBullets [shot]
      (Stages.Game.set_boss (Some (Arcade.Boss.mk 302 40 96 96 2 1000 [stray; stray]))
         (state_of (Stages.startGame (Stages.create Sample.canvas)))) in
  exists g',
    Stages.bossCallback shot 0 g = Normal g' /\
    Stages.Game.bossBullets g' = [] /\
    Stages.Game.playerBullets g' = [].
Proof.
  intros shot stray g.
  destruct (C10_defeated_boss_bullets_dropped g
              (Arcade.Boss.mk 302 40 96 96 2 1000 [stray; stray]) shot 0)
    as (g' & Hrun & Hboss & Hplayer & _).
  - reflexivity.
  - vm_compute. reflexivity.
  - vm_compute. discriminate.
  - vm_compute. discriminate.
  - vm_compute. reflexivity.
  - vm_compute. discriminate.
  - exists g'. repeat split; assumption.
Defined.

(** ** Hits on the player *)

Section Hits.
Import JS Arcade.





(** [playerHit] of the scroller takes no time and consults none: below the
    next extend it costs one life, and it empties every hostile pool. *)
Lemma scroller_playerHit (g : Scroller.Game.t) :
  let g1 := Scroller.playerHit g in
  Scroller.Game.lives g1 =
    (if (Scroller.Game.score g >=? Scroller.GameState.nextExtend (Scroller.Game.gameState g))%Z
     then Scroller.Game.lives g else Scroller.Game.lives g - 1)%Z /\
  Scroller.Game.orphanBullets g1 = [] /\
  Scroller.Game.bossBullets g1 = [] /\
  Forall (fun e => Scroller.Enemy.bullets e = []) (Scroller.Game.enemies g1).
Proof.
  unfold Scroller.playerHit, Scroller.updateUI, Scroller.Game.score, Scroller.Game.lives.
  simpl.
  assert (Hcleared : forall es : list Scroller.Enemy.t,
            Forall (fun e => Scroller.Enemy.bullets e = [])
                   (map (Scroller.Enemy.set_bullets []) es)).
  { intros es. apply Forall_forall. intros e [e0 [-> _]]%list_elem_of_fmap. done. }
  destruct (_ >=? _)%Z; simpl;
    match goal with |- context [if ?c then _ else _] => destruct c end; simpl;
    unfold Scroller.Game.bossBullets; simpl;
    repeat split;
    first [lia | by destruct (Scroller.Game.boss g) | apply Hcleared].
Qed.

End Hits.




(** ** Player bullets against fodder enemies (the scroller) *)

Section EnemyLoop.
Import JS Scroller.

(** The inner loop damages the first enemy the bullet overlaps, by one
    point, and no other. *)
Lemma hitFirstEnemy_first (bullet : Bullet.t) (es es' : list Enemy.t) :
  hitFirstEnemy bullet es = Some es' ->
  exists pre enemy post,
    es = pre ++ enemy :: post /\
    es' = pre ++ Enemy.set_health (Enemy.health enemy - 1) enemy :: post /\
    checkCollision (Bullet.rect bullet) (Enemy.rect enemy) = true /\
    Forall (fun e => checkCollision (Bullet.rect bullet) (Enemy.rect e) = false) pre.
Proof.
  revert es'. induction es as [|e es IH]; intros es'; simpl; [done|].
  destruct (checkCollision (Bullet.rect bullet) (Enemy.rect e)) eqn:Hhit.
  - intros [= <-]. exists [], e, es. repeat split; done.
  - destruct (hitFirstEnemy bullet es) as [es1|]; [|done].
    simpl. intros [= <-].
    destruct (IH es1 eq_refl) as (pre & enemy & post & -> & -> & Hc & Hpre).
    exists (e :: pre), enemy, post. repeat split; try done.
    by constructor.
Qed.

Lemma hitFirstEnemy_none (bullet : Bullet.t) (es : list Enemy.t) :
  hitFirstEnemy bullet es = None ->
  Forall (fun e => checkCollision (Bullet.rect bullet) (Enemy.rect e) = false) es.
Proof.
  induction es as [|e es IH]; simpl; [done|].
  destruct (checkCollision (Bullet.rect bullet) (Enemy.rect e)) eqn:Hhit; [done|].
  destruct (hitFirstEnemy bullet es); [done|].
  intros _. constructor; [done|]. by apply IH.
Qed.

(** One pass of the body of the outer loop: either nothing changes, or
    exactly one enemy loses exactly one point and exactly the bullet at the
    iterator's index leaves the array. *)
Lemma enemyLoopBody_once (bullet : Bullet.t) (k : nat) (g : Game.t) :
  Game.playerBullets g !! k = Some bullet ->
  let g' := fst (enemyLoopBody bullet k g) in
  g' = g \/
  (exists pre enemy post,
     Game.enemies g = pre ++ enemy :: post /\
     Game.enemies g' = pre ++ Enemy.set_health (Enemy.health enemy - 1) enemy :: post /\
     Game.playerBullets g' = delete k (Game.playerBullets g) /\
     length (Game.playerBullets g') = pred (length (Game.playerBullets g))).
Proof.
  intros Hk. unfold enemyLoopBody.
  destruct (hitFirstEnemy bullet (Game.enemies g)) as [es'|] eqn:Hfirst; simpl;
    [right|by left].
  destruct (hitFirstEnemy_first _ _ _ Hfirst) as (pre & enemy & post & Hes & -> & _ & _).
  exists pre, enemy, post. repeat split; try done.
  unfold Game.playerBullets. simpl.
  rewrite length_delete; [lia|]. by eexists.
Qed.

End EnemyLoop.

(** C2: the code departs from the claim.  The bullet loop of the scroller
    walks [this.player.bullets] with [for ... of] while its body splices the
    bullet it has just resolved out of that same array; the iterator's index
    moves on regardless, so the bullet that slid into the freed slot is not
    examined in this frame.  Two shots of one volley overlap the same fairy
    (health 5): the first is resolved and removed, the second is passed
    over, stays in the array and does no damage, although it overlaps the
    fairy.  The sibling loops ([updateBullets], the orphan loop of
    [checkCollisions]) walk their arrays from the last index down and do not
    skip. *)
Lemma C2_bullet_after_removed_one_is_skipped :
  let fairy := Sample.fairy 330 190 5 [] 99500 1500 in
  let g :=
    Scroller.Game.set_playerBullets [Sample.shot 340 200; Sample.shot 355 200]
      (Scroller.Game.set_enemies [fairy] Sample.scroller) in
  let g' := Scroller.checkCollisions g in
  checkCollision (Scroller.Bullet.rect (Sample.shot 340 200)) (Scroller.Enemy.rect fairy)
    = true /\
  checkCollision (Scroller.Bullet.rect (Sample.shot 355 200)) (Scroller.Enemy.rect fairy)
    = true /\
  Scroller.Game.playerBullets g' = [Sample.shot 355 200] /\
  map Scroller.Enemy.health (Scroller.Game.enemies g') = [4%Z].
Proof.
  repeat split; vm_compute; reflexivity.
Qed.

(** The legacy enemy loop of the two boss games (never entered: their
    [enemies] array stays empty) has no [break]: a bullet that overlaps two
    enemies damages both, and the second [splice] at the same index removes
    the next bullet, which touched nothing. *)
Remark legacy_enemy_loop_resolves_twice :
  let fairy x := Arcade.Enemy.mk x 100 32 40 1 [] 0 1500 3 3 in
  let hitting := Arcade.Bullet.mk 130 110 4 8 7 player_t (Some 0) (Some (-7)) in
  let far := Arcade.Bullet.mk 600 400 4 8 7 player_t (Some 0) (Some (-7)) in
  let g :=
    BossRush.Game.set_playerBullets [hitting; far]
      (BossRush.Game.set_enemies [fairy 100; fairy 128]
         (BossRush.startGame (BossRush.create Sample.canvas))) in
  let g' := state_of (BossRush.bulletsVsEnemies g) in
  BossRush.Game.playerBullets g' = [] /\
  map Arcade.Enemy.health (BossRush.Game.enemies g') = [2%Z; 2%Z].
Proof.
  repeat split; vm_compute; reflexivity.
Qed.

(** ** Kinematics and culling *)

Section Pools.
Context {B : Type} (move : B -> B) (keep : B -> bool).

(** A pool update that moves every bullet and keeps those that pass [keep]
    treats the bullets independently: a bullet that passes after each of its
    first [N] moves is in the pool after [N] updates, moved [N] times. *)
Lemma pool_member (N : nat) (l : list B) (b : B) :
  In b l ->
  (forall k, (1 <= k <= N)%nat -> keep (Nat.iter k move b) = true) ->
  In (Nat.iter N move b) (Nat.iter N (fun l0 => List.filter keep (map move l0)) l).
Proof.
  intros Hin. induction N as [|N IH]; intros Hkeep; [done|].
  simpl. apply filter_In. split.
  - apply in_map. apply IH. intros k Hk. apply Hkeep. lia.
  - apply (Hkeep (S N)). lia.
Qed.

Lemma pool_kept (l : list B) :
  Forall (fun b => keep b = true) (List.filter keep (map move l)).
Proof.
  apply List.Forall_forall. intros b Hb. by apply filter_In in Hb as [_ Hb].
Qed.

End Pools.

Section Culling.
Import JS Scroller.

Lemma updatePool_filter (c : Canvas.t) (l : list Bullet.t) :
  updatePool c l = List.filter (fun b => negb (offCanvas c b)) (map moveBullet l).
Proof.
  induction l as [|b l IH]; simpl; [done|].
  rewrite IH. by destruct (offCanvas c (moveBullet b)).
Qed.

(** In the scroller no pool holds, after [updateBullets], a bullet that is
    off the canvas by more than ten units; in particular none whose Y
    exceeds the canvas height plus ten. *)
Lemma scroller_pools_culled (g : Game.t) :
  let c := Game.canvas g in
  let g' := updateBullets g in
  let below b := Bullet.y b >? Canvas.height c + 10 in
  Forall (fun b => below b = false) (Game.playerBullets g') /\
  Forall (fun e => Forall (fun b => below b = false) (Enemy.bullets e))
         (Game.enemies g') /\
  Forall (fun b => below b = false) (Game.orphanBullets g') /\
  Forall (fun b => below b = false) (Game.bossBullets g').
Proof.
  intros c g' below.
  assert (Hpool : forall l, Forall (fun b => below b = false) (updatePool c l)).
  { intros l. rewrite updatePool_filter.
    eapply List.Forall_impl; [|apply pool_kept].
    intros b Hb. simpl in Hb. apply negb_true_iff in Hb.
    unfold offCanvas in Hb.
    apply orb_false_iff in Hb as [Hb _].
    apply orb_false_iff in Hb as [Hb _].
    by apply orb_false_iff in Hb as [_ Hb]. }
  subst g'. unfold updateBullets. simpl. repeat split.
  - apply Hpool.
  - apply List.Forall_forall. intros e He.
    apply in_map_iff in He as (e0 & <- & _). apply Hpool.
  - apply Hpool.
  - unfold Game.bossBullets. simpl. destruct (Game.boss g); simpl; [apply Hpool|done].
Qed.

End Culling.

(** C7: the code departs from the claim in the player pool of the two boss
    games.  Their [updateBullets] keeps a player bullet while
    [y > -height], [x >= -20] and [x <= width + 20]: there is no test on the
    lower edge, although the boss pool next to it has one and the scroller
    tests all four edges in every pool.  Player shots are aimed at the
    boss's centre, so a player who is above it fires downward, and the
    boss's x follows the wall clock, also across a pause or a long frame, so
    such a shot can miss.  A shot going straight down, already 30 below a
    canvas of height 500, falls another 7, is kept, and after a hundred more
    passes is still in the pool, 737 below the canvas. *)
Lemma C7_falling_player_bullet_is_kept :
  let b := Arcade.Bullet.mk 350 530 4 8 7 player_t (Some 0) (Some 7) in
  let g := BossRush.Game.set_playerBullets [b]
             (BossRush.startGame (BossRush.create Sample.canvas)) in
  BossRush.Game.playerBullets (BossRush.updateBullets g)
    = [Arcade.Bullet.set_y 537 b] /\
  (537 >? Canvas.height Sample.canvas + 20) = true /\
  BossRush.Game.playerBullets (Nat.iter 101 BossRush.updateBullets g)
    = [Arcade.Bullet.set_y 1237 b] /\
  Stages.Game.playerBullets
    (Stages.updateBullets
       (Stages.Game.set_playerBullets [b]
          (state_of (Stages.startGame (Stages.create Sample.canvas)))))
    = [Arcade.Bullet.set_y 537 b].
Proof.
  repeat split; vm_compute; reflexivity.
Qed.

Section Kinematics.
Import JS.

(** [p] after [v] has been added to it [N] times, one binary64 addition per
    tick. *)
Definition addN (N : nat) (p v : number) : number :=
  Nat.iter N (fun q => q + v) p.

Lemma arcade_player_moves (N : nat) (b : Arcade.Bullet.t) (vx vy : number) :
  Arcade.Bullet.vx b = Some vx ->
  Arcade.Bullet.vy b = Some vy ->
  let b' := Nat.iter N Arcade.movePlayerBullet b in
  Arcade.Bullet.vx b' = Some vx /\ Arcade.Bullet.vy b' = Some vy /\
  Arcade.Bullet.x b' = addN N (Arcade.Bullet.x b) vx /\
  Arcade.Bullet.y b' = addN N (Arcade.Bullet.y b) vy.
Proof.
  intros Hvx Hvy. induction N as [|N (IHvx & IHvy & IHx & IHy)]; [done|].
  simpl. remember (Nat.iter N Arcade.movePlayerBullet b) as bN.
  unfold Arcade.movePlayerBullet. rewrite IHvx, IHvy. simpl.
  rewrite IHvx, IHvy, IHx, IHy. done.
Qed.

Lemma arcade_boss_moves (N : nat) (b : Arcade.Bullet.t) (vx vy : number) :
  Arcade.Bullet.vx b = Some vx ->
  Arcade.Bullet.vy b = Some vy ->
  let b' := Nat.iter N Arcade.moveBossBullet b in
  Arcade.Bullet.vx b' = Some vx /\ Arcade.Bullet.vy b' = Some vy /\
  Arcade.Bullet.x b' = addN N (Arcade.Bullet.x b) vx /\
  Arcade.Bullet.y b' = addN N (Arcade.Bullet.y b) vy.
Proof.
  intros Hvx Hvy. induction N as [|N (IHvx & IHvy & IHx & IHy)]; [done|].
  simpl. remember (Nat.iter N Arcade.moveBossBullet b) as bN.
  unfold Arcade.moveBossBullet. rewrite IHvx, IHvy. simpl.
  rewrite IHvx, IHvy, IHx, IHy. done.
Qed.

Lemma scroller_moves (N : nat) (b : Scroller.Bullet.t) :
  let b' := Nat.iter N Scroller.moveBullet b in
  Scroller.Bullet.vx b' = Scroller.Bullet.vx b /\
  Scroller.Bullet.vy b' = Scroller.Bullet.vy b /\
  Scroller.Bullet.x b' =
    addN N (Scroller.Bullet.x b) (toNumber (Scroller.Bullet.vx b)) /\
  Scroller.Bullet.y b' =
    addN N (Scroller.Bullet.y b) (toNumber (Scroller.Bullet.vy b)).
Proof.
  induction N as [|N (IHvx & IHvy & IHx & IHy)]; [done|].
  simpl. remember (Nat.iter N Scroller.moveBullet b) as bN.
  unfold Scroller.moveBullet. simpl.
  rewrite IHvx, IHvy, IHx, IHy. done.
Qed.

Lemma player_pool_iter (c : Canvas.t) (N : nat) (p : Arcade.Player.t) :
  Arcade.Player.bullets (Nat.iter N (Arcade.updatePlayerBullets c) p) =
  Nat.iter N
    (fun l => List.filter (Arcade.keepPlayerBullet c) (map Arcade.movePlayerBullet l))
    (Arcade.Player.bullets p).
Proof.
  induction N as [|N IH]; [done|]. simpl. by rewrite IH.
Qed.

Lemma boss_pool_iter (c : Canvas.t) (N : nat) (boss : Arcade.Boss.t) :
  exists boss',
    Nat.iter N (Arcade.updateBossBullets c) (Some boss) = Some boss' /\
    Arcade.Boss.bullets boss' =
    Nat.iter N
      (fun l => List.filter (Arcade.keepBossBullet c) (map Arcade.moveBossBullet l))
      (Arcade.Boss.bullets boss).
Proof.
  induction N as [|N (boss' & Hrun & Hbullets)]; [by exists boss|].
  simpl. rewrite Hrun. simpl. eexists. split; [reflexivity|].
  simpl. by rewrite Hbullets.
Qed.

Lemma scroller_pool_iter (c : Canvas.t) (N : nat) (l : list Scroller.Bullet.t) :
  Nat.iter N (Scroller.updatePool c) l =
  Nat.iter N
    (fun l0 => List.filter (fun b => negb (Scroller.offCanvas c b))
                 (map Scroller.moveBullet l0)) l.
Proof.
  induction N as [|N IH]; [done|]. simpl. by rewrite IH, updatePool_filter.
Qed.

End Kinematics.

(** C5, as the spec words it, fails twice.  (1) The scroller's
    [updateBullets] has no scalar fallback: it adds [bullet.vx!] and
    [bullet.vy!] whatever they are, so a hostile bullet that carries only a
    speed of 2.5 does not move down by 2.5, its coordinates become NaN (and,
    every comparison with NaN being false, it is never culled).  (2) Adding
    the velocity once per tick is not exact in binary64: a bullet at x = 0
    with vx = 0.1 is, after ten ticks without cull, at
    x = 0.9999999999999999, not at 0 + 10·0.1 = 1; the same in the boss pool
    of the boss games. *)
Lemma C5_no_fallback_and_rounding :
  Scroller.updatePool Sample.canvas
    [Scroller.Bullet.mk 100 100 12 12 2.5 enemy_t 0 None None]
  = [Scroller.Bullet.mk nan nan 12 12 2.5 enemy_t 0 None None] /\
  (let b := Scroller.Bullet.mk 0 100 12 12 2.5 enemy_t 0 (Some 0.1) (Some 0) in
   Nat.iter 10 (Scroller.updatePool Sample.canvas) [b]
   = [Scroller.Bullet.set_x 0.9999999999999999 b] /\
   (0.9999999999999999 =? 0 + 10 * 0.1) = false /\
   0 + 10 * 0.1 = 1) /\
  (let b := Arcade.Bullet.mk 0 100 4 8 2.5 enemy_t (Some 0.1) (Some 0) in
   Nat.iter 10 (Arcade.updateBossBullets Sample.canvas)
     (Some (Arcade.Boss.mk 302 40 96 96 1000 1000 [b]))
   = Some (Arcade.Boss.mk 302 40 96 96 1000 1000
             [Arcade.Bullet.set_x 0.9999999999999999 b])).
Proof.
  repeat split; vm_compute; reflexivity.
Qed.

(** C5, amended.  A bullet that carries a velocity vector (vx, vy) has
    (vx, vy) added to its position once per kinematics tick, with no time
    scaling (the update takes no delta), so after N ticks in which it passes
    the cull test it is in its pool at its initial position with (vx, vy)
    added N times, one binary64 addition per tick and coordinate: in the
    player pool and the boss pool of the boss games, and in every pool of the
    scroller.  In the boss games a bullet that lacks either component moves
    by its scalar speed along its pool's axis, up in the player pool and
    down in the boss pool, x unchanged.  The scroller has no such fallback:
    it adds the two components as numbers whatever they are. *)
Theorem C5_position_after_N_ticks (c : Canvas.t) (N : nat) :
  (forall (p : Arcade.Player.t) (b : Arcade.Bullet.t) (vx vy : JS.number),
     In b (Arcade.Player.bullets p) ->
     Arcade.Bullet.vx b = Some vx -> Arcade.Bullet.vy b = Some vy ->
     (forall k, (1 <= k <= N)%nat ->
        Arcade.keepPlayerBullet c (Nat.iter k Arcade.movePlayerBullet b) = true) ->
     exists b',
       In b' (Arcade.Player.bullets (Nat.iter N (Arcade.updatePlayerBullets c) p)) /\
       Arcade.Bullet.x b' = addN N (Arcade.Bullet.x b) vx /\
       Arcade.Bullet.y b' = addN N (Arcade.Bullet.y b) vy) /\
  (forall (boss : Arcade.Boss.t) (b : Arcade.Bullet.t) (vx vy : JS.number),
     In b (Arcade.Boss.bullets boss) ->
     Arcade.Bullet.vx b = Some vx -> Arcade.Bullet.vy b = Some vy ->
     (forall k, (1 <= k <= N)%nat ->
        Arcade.keepBossBullet c (Nat.iter k Arcade.moveBossBullet b) = true) ->
     exists boss' b',
       Nat.iter N (Arcade.updateBossBullets c) (Some boss) = Some boss' /\
       In b' (Arcade.Boss.bullets boss') /\
       Arcade.Bullet.x b' = addN N (Arcade.Bullet.x b) vx /\
       Arcade.Bullet.y b' = addN N (Arcade.Bullet.y b) vy) /\
  (forall (pool : list Scroller.Bullet.t) (b : Scroller.Bullet.t),
     In b pool ->
     (forall k, (1 <= k <= N)%nat ->
        Scroller.offCanvas c (Nat.iter k Scroller.moveBullet b) = false) ->
     exists b',
       In b' (Nat.iter N (Scroller.updatePool c) pool) /\
       Scroller.Bullet.x b' =
         addN N (Scroller.Bullet.x b) (JS.toNumber (Scroller.Bullet.vx b)) /\
       Scroller.Bullet.y b' =
         addN N (Scroller.Bullet.y b) (JS.toNumber (Scroller.Bullet.vy b))) /\
  (forall b : Arcade.Bullet.t,
     Arcade.Bullet.vx b = None \/ Arcade.Bullet.vy b = None ->
     Arcade.movePlayerBullet b
       = Arcade.Bullet.set_y (Arcade.Bullet.y b - Arcade.Bullet.speed b) b /\
     Arcade.moveBossBullet b
       = Arcade.Bullet.set_y (Arcade.Bullet.y b + Arcade.Bullet.speed b) b).
Proof.
  split; [|split; [|split]].
  - intros p b vx vy Hin Hvx Hvy Hkeep.
    exists (Nat.iter N Arcade.movePlayerBullet b).
    destruct (arcade_player_moves N b vx vy Hvx Hvy) as (_ & _ & Hx & Hy).
    split; [|done].
    rewrite player_pool_iter. by apply pool_member.
  - intros boss b vx vy Hin Hvx Hvy Hkeep.
    destruct (boss_pool_iter c N boss) as (boss' & Hrun & Hbullets).
    exists boss', (Nat.iter N Arcade.moveBossBullet b).
    destruct (arcade_boss_moves N b vx vy Hvx Hvy) as (_ & _ & Hx & Hy).
    split; [done|]. split; [|done].
    rewrite Hbullets. by apply pool_member.
  - intros pool b Hin Hkeep.
    exists (Nat.iter N Scroller.moveBullet b).
    destruct (scroller_moves N b) as (_ & _ & Hx & Hy).
    split; [|done].
    rewrite scroller_pool_iter. apply pool_member; [done|].
    intros k Hk. by rewrite Hkeep.
  - intros b Hnone. unfold Arcade.movePlayerBullet, Arcade.moveBossBullet.
    by destruct Hnone as [-> | ->]; destruct (Arcade.Bullet.vx b); simpl.
Qed.

Lemma C5_witness :
  let b := Arcade.Bullet.mk 350 300 4 8 7 player_t (Some 0.5) (Some (-7)) in
  let p := Arcade.Player.mk 334 430 32 40 5 [b] 0 150 in
  exists b',
    In b' (Arcade.Player.bullets
             (Nat.iter 3 (Arcade.updatePlayerBullets Sample.canvas) p)) /\
    Arcade.Bullet.x b' = 351.5 /\
    Arcade.Bullet.y b' = 279.
Proof.
  intros b p.
  destruct (C5_position_after_N_ticks Sample.canvas 3) as (Hplayer & _).
  destruct (Hplayer p b 0.5 (-7)) as (b' & Hin & Hx & Hy).
  - by left.
  - reflexivity.
  - reflexivity.
  - intros k Hk.
    assert (Hcases : k = 1%nat \/ k = 2%nat \/ k = 3%nat) by lia.
    destruct Hcases as [-> | [-> | ->]]; vm_compute; reflexivity.
  - exists b'. split; [exact Hin|]. split.
    + rewrite Hx. vm_compute. reflexivity.
    + rewrite Hy. vm_compute. reflexivity.
Defined.

(** ** The orphan pool (the scroller) *)

Section Orphans.
Import JS Scroller.
Context {M : HostMath}.

Lemma moveEnemy_keeps (now : number) (enemy : Enemy.t) :
  Enemy.bullets (moveEnemy now enemy) = Enemy.bullets enemy /\
  Enemy.health (moveEnemy now enemy) = Enemy.health enemy.
Proof.
  unfold moveEnemy.
  repeat match goal with
         | |- context [if ?c then _ else _] => destruct c
         end; done.
Qed.

(** A step of an enemy only ever appends to its bullets, and leaves its
    health alone. *)
Lemma stepEnemy_keeps (now : number) (random : nat -> number) (p : Player.t)
    (enemy : Enemy.t) :
  (exists pushed,
     Enemy.bullets (stepEnemy now random p enemy) = Enemy.bullets enemy ++ pushed) /\
  Enemy.health (stepEnemy now random p enemy) = Enemy.health enemy.
Proof.
  destruct (moveEnemy_keeps now enemy) as [Hb Hh].
  unfold stepEnemy.
  destruct (_ >? _).
  - unfold enemyShoot. simpl. rewrite Hb, Hh. split; [by eexists|done].
  - rewrite Hb, Hh. split; [|done]. exists []. by rewrite app_nil_r.
Qed.

Lemma updateUI_keeps (g : Game.t) :
  Game.orphanBullets (updateUI g) = Game.orphanBullets g /\
  Game.player (updateUI g) = Game.player g /\
  Game.canvas (updateUI g) = Game.canvas g.
Proof.
  unfold updateUI. by destruct (_ >=? _)%Z.
Qed.

Lemma walkEnemies_spec (now : number) (random : nat -> nat -> number)
    (es : list Enemy.t) (i : nat) (g : Game.t) :
  let r := walkEnemies now random i es g in
  Game.player (snd r) = Game.player g /\
  Game.canvas (snd r) = Game.canvas g /\
  Forall (fun e => (0 < Enemy.health e)%Z) (fst r) /\
  forall e, In e es -> (Enemy.health e <= 0)%Z ->
    exists pre pushed post,
      Game.orphanBullets (snd r) = pre ++ (Enemy.bullets e ++ pushed) ++ post.
Proof.
  revert i. induction es as [|e0 rest IH]; intros i; simpl.
  { repeat split; try done. }
  specialize (IH (S i)).
  destruct (walkEnemies now random (S i) rest g) as [kept g1]. simpl in IH.
  destruct IH as (Hp & Hc & Hkept & Hdead).
  destruct (stepEnemy_keeps now (random i) (Game.player g1) e0) as [[pushed Hb] Hh].
  destruct (Z.leb_spec (Enemy.health (stepEnemy now (random i) (Game.player g1) e0)) 0)
    as [Hle|Hgt].
  - rewrite orb_true_r. simpl.
    match goal with |- context [updateUI ?g0] =>
      destruct (updateUI_keeps g0) as (Ho & Hp' & Hc') end.
    rewrite Ho, Hp', Hc'. simpl.
    repeat split; try done.
    intros e [<- | Hin] He.
    + exists (Game.orphanBullets g1), pushed, []. by rewrite Hb, app_nil_r.
    + destruct (Hdead e Hin He) as (pre & pushed' & post & ->).
      exists pre, pushed', (post ++ Enemy.bullets (stepEnemy now (random i) (Game.player g1) e0)).
      by rewrite <- !app_assoc.
  - rewrite orb_false_r.
    destruct (_ >? _); simpl.
    + repeat split; try done.
      intros e [<- | Hin] He; [lia|]. by apply Hdead.
    + repeat split; try done.
      * by constructor.
      * intros e [<- | Hin] He; [lia|]. by apply Hdead.
Qed.

(** The transfer: every enemy that [updateEnemies] finds with health 0 or
    below hands all its bullets, as they are and in order, to the orphan
    pool (together with what it shot in this last step), and only enemies
    with positive health stay. *)
Lemma updateEnemies_transfers (now : number) (random : nat -> nat -> number)
    (g : Game.t) (e : Enemy.t) :
  In e (Game.enemies g) ->
  (Enemy.health e <= 0)%Z ->
  let g' := updateEnemies now random g in
  (exists pre pushed post,
     Game.orphanBullets g' = pre ++ (Enemy.bullets e ++ pushed) ++ post) /\
  Forall (fun e' => (0 < Enemy.health e')%Z) (Game.enemies g').
Proof.
  intros Hin He. unfold updateEnemies.
  pose proof (walkEnemies_spec now random (Game.enemies g) 0 g) as Hspec.
  destruct (walkEnemies now random 0 (Game.enemies g) g) as [kept g1].
  simpl in Hspec. destruct Hspec as (_ & _ & Hkept & Hdead).
  simpl. split; [|done]. by apply Hdead.
Qed.

End Orphans.

Section LoopInvariants.
Context {S A : Type} (arr : S -> list A) (body : A -> nat -> S -> S * bool).

Lemma forOfFrom_invariant (P : S -> Prop) :
  (forall a k s, P s -> P (fst (body a k s))) ->
  forall n k s, P s -> P (forOfFrom arr body n k s).
Proof.
  intros Hbody. induction n as [|n IH]; intros k s Hs; simpl; [done|].
  destruct (arr s !! k) as [a|]; [|done].
  specialize (Hbody a k s Hs).
  destruct (body a k s) as [s' stop]. simpl in Hbody.
  destruct stop; [done|]. by apply IH.
Qed.

Lemma forOf_invariant (P : S -> Prop) :
  (forall a k s, P s -> P (fst (body a k s))) ->
  forall s, P s -> P (forOf arr body s).
Proof.
  intros Hbody s Hs. unfold forOf. by apply forOfFrom_invariant.
Qed.

(** A loop whose body changes nothing on the elements it meets changes
    nothing. *)
Lemma forOfFrom_idle (s : S) :
  (forall a k, In a (arr s) -> body a k s = (s, false)) ->
  forall n k, forOfFrom arr body n k s = s.
Proof.
  intros Hbody. induction n as [|n IH]; intros k; simpl; [done|].
  destruct (arr s !! k) as [a|] eqn:Hk; [|done].
  rewrite Hbody; [simpl; apply IH|].
  apply list_elem_of_In. by eapply list_elem_of_lookup_2.
Qed.

End LoopInvariants.

Section OrphanHits.
Import JS Scroller.

(** What the two player-bullet loops leave alone: the lives and score, the
    orphan pool, and every hostile bullet list. *)
Definition sameThreat (g s : Game.t) : Prop :=
  Game.gameState s = Game.gameState g /\
  Game.orphanBullets s = Game.orphanBullets g /\
  map Enemy.bullets (Game.enemies s) = map Enemy.bullets (Game.enemies g) /\
  Game.bossBullets s = Game.bossBullets g.

Lemma bulletsVsEnemies_sameThreat (g : Game.t) : sameThreat g (bulletsVsEnemies g).
Proof.
  unfold bulletsVsEnemies. apply forOf_invariant; [|done].
  intros bullet k s (Hgs & Ho & He & Hb). unfold enemyLoopBody.
  destruct (hitFirstEnemy bullet (Game.enemies s)) as [es'|] eqn:Hfirst; simpl; [|done].
  destruct (hitFirstEnemy_first _ _ _ Hfirst) as (pre & enemy & post & Hes & -> & _ & _).
  repeat split; try done.
  rewrite <- He, Hes. simpl. rewrite !map_app. done.
Qed.

Lemma bulletsVsBoss_sameThreat (g : Game.t) : sameThreat g (bulletsVsBoss g).
Proof.
  unfold bulletsVsBoss. destruct (Game.boss g); [|done].
  apply forOf_invariant; [|done].
  intros bullet k s (Hgs & Ho & He & Hb). unfold bossLoopBody.
  destruct (Game.boss s) as [b|] eqn:Hboss; [|done].
  destruct (checkCollision _ _); [|done].
  simpl. repeat split; try done.
  rewrite <- Hb. unfold Game.bossBullets. simpl. by rewrite Hboss.
Qed.

Lemma enemyBullets_miss (cx cy : number) (g : Game.t) :
  Forall (fun bs => existsb (enemyBulletHits cx cy) bs = false)
         (map Enemy.bullets (Game.enemies g)) ->
  enemyBulletsVsPlayer cx cy g = g.
Proof.
  intros Hmiss. unfold enemyBulletsVsPlayer, forOf. apply forOfFrom_idle.
  intros e k Hin. unfold enemyBulletsBody.
  rewrite List.Forall_forall in Hmiss.
  rewrite (Hmiss (Enemy.bullets e)); [done|]. by apply in_map.
Qed.

(** An orphan bullet inside the hit radius costs the player a life, in a
    frame where a life is left, no enemy bullet got there first and the
    score is below the next extend. *)
Lemma orphan_hits_player (g : Game.t) (b : Bullet.t) :
  (0 < Game.lives g)%Z ->
  In b (Game.orphanBullets g) ->
  orphanBulletHits (playerCenterX g) (playerCenterY g) b = true ->
  Forall (fun bs => existsb (enemyBulletHits (playerCenterX g) (playerCenterY g)) bs = false)
         (map Enemy.bullets (Game.enemies g)) ->
  (Game.score g < GameState.nextExtend (Game.gameState g))%Z ->
  Game.lives (checkCollisions g) = (Game.lives g - 1)%Z /\
  Game.orphanBullets (checkCollisions g) = [].
Proof.
  intros Hlives Hin Hhit Hmiss Hscore. unfold checkCollisions.
  set (cx := playerCenterX g) in *. set (cy := playerCenterY g) in *.
  destruct (bulletsVsEnemies_sameThreat g) as (Hgs1 & Ho1 & He1 & Hb1).
  destruct (bulletsVsBoss_sameThreat (bulletsVsEnemies g)) as (Hgs2 & Ho2 & He2 & Hb2).
  set (g2 := bulletsVsBoss (bulletsVsEnemies g)) in *.
  rewrite enemyBullets_miss by (by rewrite He2, He1).
  unfold orphansVsPlayer.
  assert (Hex : existsb (orphanBulletHits cx cy) (Game.orphanBullets g2) = true).
  { apply existsb_exists. exists b. split; [|done]. by rewrite Ho2, Ho1. }
  rewrite Hex.
  destruct (scroller_playerHit g2) as (Hl & Ho & Hb & _).
  assert (Hboss : bossBulletsVsPlayer cx cy (playerHit g2) = playerHit g2).
  { unfold bossBulletsVsPlayer. unfold Game.bossBullets in Hb.
    destruct (Game.boss (playerHit g2)); [|done]. by rewrite Hb. }
  rewrite Hboss. split; [|done].
  rewrite Hl. unfold Game.score, Game.lives. rewrite Hgs2, Hgs1.
  unfold Game.score in Hscore.
  destruct (Z.geb_spec (GameState.score (Game.gameState g))
              (GameState.nextExtend (Game.gameState g))); [lia|done].
Qed.

End OrphanHits.

(** C4.  When [updateEnemies] removes an enemy whose health is 0 or below,
    all the bullets it had in flight are appended to the orphan pool as the
    same records, in order (position and velocity untouched), together with
    whatever it shot in that last step, and no enemy with health 0 or below
    stays.  The orphan pool and an enemy's own list are advanced by the same
    pool update, so a transferred bullet moves on by its velocity exactly as
    before.  The test of the orphan loop of [checkCollisions] is the test of
    the enemy and boss loops, and an orphan bullet that satisfies it costs
    the player a life (in a frame where a life is left, no enemy bullet has
    hit first and no extend falls due). *)
Theorem C4_orphan_transfer `{JS.HostMath} :
  (forall (now : JS.number) (random : nat -> nat -> JS.number)
          (g : Scroller.Game.t) (e : Scroller.Enemy.t),
     In e (Scroller.Game.enemies g) ->
     (Scroller.Enemy.health e <= 0)%Z ->
     let g' := Scroller.updateEnemies now random g in
     (exists pre pushed post,
        Scroller.Game.orphanBullets g'
        = pre ++ (Scroller.Enemy.bullets e ++ pushed) ++ post) /\
     Forall (fun e' => (0 < Scroller.Enemy.health e')%Z) (Scroller.Game.enemies g')) /\
  (forall g : Scroller.Game.t,
     Scroller.Game.orphanBullets (Scroller.updateBullets g)
     = Scroller.updatePool (Scroller.Game.canvas g) (Scroller.Game.orphanBullets g) /\
     map Scroller.Enemy.bullets (Scroller.Game.enemies (Scroller.updateBullets g))
     = map (Scroller.updatePool (Scroller.Game.canvas g))
           (map Scroller.Enemy.bullets (Scroller.Game.enemies g))) /\
  (forall (cx cy : JS.number) (b : Scroller.Bullet.t),
     Scroller.orphanBulletHits cx cy b = Scroller.enemyBulletHits cx cy b /\
     Scroller.orphanBulletHits cx cy b = Scroller.bossBulletHits cx cy b) /\
  (forall (g : Scroller.Game.t) (b : Scroller.Bullet.t),
     (0 < Scroller.Game.lives g)%Z ->
     In b (Scroller.Game.orphanBullets g) ->
     Scroller.orphanBulletHits (Scroller.playerCenterX g) (Scroller.playerCenterY g) b
       = true ->
     Forall (fun bs =>
               existsb (Scroller.enemyBulletHits (Scroller.playerCenterX g)
                          (Scroller.playerCenterY g)) bs = false)
            (map Scroller.Enemy.bullets (Scroller.Game.enemies g)) ->
     (Scroller.Game.score g
      < Scroller.GameState.nextExtend (Scroller.Game.gameState g))%Z ->
     Scroller.Game.lives (Scroller.checkCollisions g) = (Scroller.Game.lives g - 1)%Z /\
     Scroller.Game.orphanBullets (Scroller.checkCollisions g) = []).
Proof.
  split; [|split; [|split]].
  - intros now random g e Hin He. by apply updateEnemies_transfers.
  - intros g. unfold Scroller.updateBullets. simpl. split; [done|].
    by rewrite !map_map.
  - done.
  - intros g b. apply orphan_hits_player.
Qed.

Lemma C4_witness :
  let p1 := Sample.pellet 344 397 in
  let p2 := Sample.pellet 100 100 in
  let p3 := Sample.pellet 200 150 in
  let g := Scroller.Game.set_enemies [Sample.fairy 328 300 0 [p1; p2; p3] 99500 1500]
             Sample.scroller in
  let g' := Scroller.updateEnemies (M := Sample.host) 100016 (fun _ _ => 0) g in
  (exists pre pushed post,
     Scroller.Game.orphanBullets g' = pre ++ ([p1; p2; p3] ++ pushed) ++ post) /\
  Forall (fun e' => (0 < Scroller.Enemy.health e')%Z) (Scroller.Game.enemies g').
Proof.
  intros p1 p2 p3 g g'.
  destruct (C4_orphan_transfer (H := Sample.host)) as (Htransfer & _).
  apply (Htransfer 100016 (fun _ _ => 0) g
           (Sample.fairy 328 300 0 [p1; p2; p3] 99500 1500)).
  - by left.
  - vm_compute. discriminate.
Defined.

(** The scenario of the spec, run: a fairy with one point of health and
    three pellets in flight is shot in the first frame; in the second it is
    removed, and its three pellets are the orphan pool, each exactly where
    two moves of its own velocity put it; in the third they have moved once
    more, the first of them is inside the hit radius, and the player is down
    to four lives. *)
Example orphans_keep_flying_and_hit :
  let pellets := [Sample.pellet 344 397; Sample.pellet 100 100; Sample.pellet 200 150] in
  let g0 :=
    Scroller.Game.set_playerBullets [Sample.shot 345 310]
      (Scroller.Game.set_enemies [Sample.fairy 328 300 1 pellets 99500 1500]
         Sample.scroller) in
  let g1 := Scroller.coreFrame (H := Sample.host) 100000 (fun _ _ => 0) g0 in
  let g2 := Scroller.coreFrame (H := Sample.host) 100016 (fun _ _ => 0) g1 in
  let g3 := Scroller.coreFrame (H := Sample.host) 100032 (fun _ _ => 0) g2 in
  map Scroller.Enemy.health (Scroller.Game.enemies g1) = [0%Z] /\
  Scroller.Game.enemies g2 = [] /\
  Scroller.Game.orphanBullets g2
    = map (fun b => Scroller.moveBullet (Scroller.moveBullet b)) pellets /\
  Scroller.Game.lives g2 = 5%Z /\
  Scroller.Game.lives g3 = 4%Z /\
  Scroller.Game.orphanBullets g3 = [].
Proof.
  repeat split; vm_compute; reflexivity.
Qed.

(** ** The rounds given to [for ... of] are enough *)

Section Rounds.
Context {S A : Type} (arr : S -> list A) (body : A -> nat -> S -> S * bool).
Hypothesis body_never_grows :
  forall a k s, length (arr (fst (body a k s))) <= length (arr s).

(** Once the rounds cover what is left of the array, more rounds change
    nothing: the loop has ended by itself, at an index out of the array or
    at a [break]. *)
Lemma forOfFrom_ended (n m k : nat) (s : S) :
  length (arr s) <= k + n ->
  forOfFrom arr body (n + m) k s = forOfFrom arr body n k s.
Proof.
  revert k s. induction n as [|n IH]; intros k s Hlen; simpl.
  - destruct m as [|m]; [done|]. simpl.
    rewrite (proj2 (lookup_ge_None (arr s) k)); [done|lia].
  - destruct (arr s !! k) as [a|]; [|done].
    pose proof (body_never_grows a k s) as Hgrow.
    destruct (body a k s) as [s' stop]. simpl in Hgrow.
    destruct stop; [done|]. apply IH. lia.
Qed.

Lemma forOf_ended (m : nat) (s : S) :
  forOfFrom arr body (length (arr s) + m) 0 s = forOf arr body s.
Proof.
  unfold forOf. apply forOfFrom_ended. lia.
Qed.

End Rounds.

Lemma length_delete_le {A} (i : nat) (l : list A) :
  length (delete i l) <= length l.
Proof.
  revert i. induction l as [|a l IH]; intros [|i]; simpl; try lia.
  specialize (IH i). lia.
Qed.

Lemma scroller_bullet_loops_end (m : nat) (g : Scroller.Game.t) :
  forOfFrom Scroller.Game.playerBullets Scroller.enemyLoopBody
    (length (Scroller.Game.playerBullets g) + m) 0 g
  = Scroller.bulletsVsEnemies g /\
  forOfFrom Scroller.Game.playerBullets Scroller.bossLoopBody
    (length (Scroller.Game.playerBullets g) + m) 0 g
  = forOf Scroller.Game.playerBullets Scroller.bossLoopBody g /\
  forall cx cy,
    forOfFrom Scroller.Game.enemies (Scroller.enemyBulletsBody cx cy)
      (length (Scroller.Game.enemies g) + m) 0 g
    = Scroller.enemyBulletsVsPlayer cx cy g.
Proof.
  split; [|split; [|intros cx cy]]; apply forOf_ended; intros a k s.
  - unfold Scroller.enemyLoopBody.
    destruct (Scroller.hitFirstEnemy a (Scroller.Game.enemies s)); [|done].
    unfold Scroller.Game.playerBullets. simpl.
    apply length_delete_le.
  - unfold Scroller.bossLoopBody.
    destruct (Scroller.Game.boss s); [|done].
    destruct (checkCollision _ _); [|done].
    unfold Scroller.Game.playerBullets. simpl.
    apply length_delete_le.
  - unfold Scroller.enemyBulletsBody.
    destruct (existsb _ _); [|done].
    unfold Scroller.playerHit, Scroller.updateUI. simpl.
    repeat match goal with
           | |- context [if ?c then _ else _] => destruct c
           end; simpl; by rewrite length_map.
Qed.

(** In the boss pool of the boss games a bullet is gone once its Y has
    reached the canvas height plus its own height. *)
Lemma arcade_boss_pool_culled (c : Canvas.t) (boss : Arcade.Boss.t) :
  match Arcade.updateBossBullets c (Some boss) with
  | Some boss' =>
      Forall (fun b =>
                (Arcade.Bullet.y b <? Canvas.height c + Arcade.Bullet.height b) = true)
             (Arcade.Boss.bullets boss')
  | None => False
  end.
Proof.
  simpl. eapply List.Forall_impl; [|apply pool_kept].
  intros b Hb. simpl in Hb. unfold Arcade.keepBossBullet in Hb.
  by apply andb_true_iff in Hb as [Hb _].
Qed.

(** ** A whole pass of boss bullets against the player *)

Section ForEachInvariant.
Context {S A : Type} (arr : S -> list A) (callback : A -> nat -> S -> completion S).

Lemma forEachFrom_invariant (P : S -> Prop) :
  (forall a k s, P s -> P (state_of (callback a k s))) ->
  forall n k s, P s -> P (state_of (forEachFrom arr callback n k s)).
Proof.
  intros Hcb. induction n as [|n IH]; intros k s Hs; simpl; [done|].
  destruct (arr s !! k) as [a|]; simpl; [|by apply IH].
  specialize (Hcb a k s Hs).
  destruct (callback a k s) as [s'|s']; simpl in *; [by apply IH|done].
Qed.

End ForEachInvariant.

(** However many boss bullets touch the hitbox in one pass of the
    single-boss game, if the clock readings of the pass lie within one
    window the pass costs at most one life. *)
Lemma rush_pass_costs_at_most_one_life (now : nat -> Z) (t : Z) (g : BossRush.Game.t) :
  (forall k, (t <= now k < t + BossRush.iFrameDuration)%Z) ->
  let g' := state_of (BossRush.bossBulletsVsPlayer now g) in
  (BossRush.Game.lives g - 1 <= BossRush.Game.lives g' <= BossRush.Game.lives g)%Z.
Proof.
  intros Hclock g'.
  set (P := fun s : BossRush.Game.t =>
              (BossRush.Game.lives s = BossRush.Game.lives g /\
               BossRush.Game.invulnerableUntil s = BossRush.Game.invulnerableUntil g)
              \/ (BossRush.Game.lives s = (BossRush.Game.lives g - 1)%Z /\
                  (t + BossRush.iFrameDuration <= BossRush.Game.invulnerableUntil s)%Z)).
  assert (HP : P g').
  { subst g'. unfold BossRush.bossBulletsVsPlayer.
    destruct (BossRush.Game.boss g); [|by left].
    unfold forEach. apply forEachFrom_invariant; [|by left].
    intros bullet k s Hs. unfold BossRush.bossBulletCallback.
    destruct (checkCollision _ _); [|done]. simpl.
    destruct (Z.geb_spec (now k) (BossRush.Game.invulnerableUntil s)) as [Hreg|Hign].
    - destruct Hs as [[Hl Hi]|[Hl Hi]]; [|specialize (Hclock k); lia].
      right.
      match goal with |- context [if ?c then _ else _] => destruct c end; simpl;
        (split; [unfold BossRush.Game.lives in *; simpl; lia
                |specialize (Hclock k); lia]).
    - simpl. destruct Hs as [[Hl Hi]|[Hl Hi]]; [left|right]; done. }
  destruct HP as [[-> _]|[-> _]]; lia.
Qed.

(** The same in the three-boss game. *)
Lemma stage_pass_costs_at_most_one_life (now : nat -> Z) (t : Z) (g : Stages.Game.t) :
  (forall k, (t <= now k < t + Stages.iFrameDuration)%Z) ->
  let g' := Stages.bossBulletsVsPlayer now g in
  (Stages.Game.lives g - 1 <= Stages.Game.lives g' <= Stages.Game.lives g)%Z.
Proof.
  intros Hclock g'.
  set (P := fun s : Stages.Game.t =>
              (Stages.Game.lives s = Stages.Game.lives g /\
               Stages.Game.invulnerableUntil s = Stages.Game.invulnerableUntil g)
              \/ (Stages.Game.lives s = (Stages.Game.lives g - 1)%Z /\
                  (t + Stages.iFrameDuration <= Stages.Game.invulnerableUntil s)%Z)).
  assert (Hwalk : forall bs k s, P s -> P (Stages.walkBossBullets now bs k s)).
  { induction bs as [|bullet bs IH]; intros k s Hs; simpl; [done|].
    apply IH. unfold Stages.bossBulletCallback.
    destruct (checkCollision _ _); [|done].
    destruct (Z.geb_spec (now k) (Stages.Game.invulnerableUntil s)) as [Hreg|Hign]; [|done].
    destruct Hs as [[Hl Hi]|[Hl Hi]]; [|specialize (Hclock k); lia].
    right.
    match goal with |- context [if ?c then _ else _] => destruct c end; simpl;
      (split; [unfold Stages.Game.lives in *; simpl; lia
              |specialize (Hclock k); lia]). }
  assert (HP : P g').
  { subst g'. unfold Stages.bossBulletsVsPlayer.
    destruct (Stages.Game.boss g); [|by left]. apply Hwalk. by left. }
  destruct HP as [[-> _]|[-> _]]; lia.
Qed.

(** The succession seen from [updateCollisions]: one shot that brings down
    the boss of stage 1 leaves the game running on stage 2 in the same call.
    And the last boss: the game is won, and since the loop goes on over the
    remaining shots with [this.boss] now [null], the call ends in a
    [TypeError] after the victory has been declared. *)
Example succession_within_one_call :
  let shot y := Arcade.Bullet.mk 350 y 4 8 7 player_t (Some 0) (Some (-7)) in
  let start := state_of (Stages.startGame (Stages.create Sample.canvas)) in
  let g1 :=
    Stages.Game.set_playerBullets [shot 100]
      (Stages.Game.set_boss (Some (Arcade.Boss.mk 302 40 96 96 2 1000 [])) start) in
  let g3 :=
    Stages.Game.set_playerBullets [shot 100; shot 110; shot 120]
      (Stages.Game.set_boss (Some (Arcade.Boss.mk 302 40 96 96 2 2000 []))
         (Stages.Game.set_gameState
            (Stages.GameState.set_stage 3 (Stages.Game.gameState start)) start)) in
  (exists g',
     Stages.updateCollisions (fun _ => 5000%Z) g1 = Normal g' /\
     Stages.Game.isRunning g' = true /\
     Stages.Game.stage g' = 2%Z /\
     Stages.Game.lives g' = 6%Z /\
     Stages.Game.score g' = 1000%Z /\
     Stages.Game.boss g' = Some (Arcade.Boss.mk 302 40 96 96 1500 1500 [])) /\
  (exists g',
     Stages.updateCollisions (fun _ => 5000%Z) g3 = Throw g' /\
     Stages.Game.isRunning g' = false /\
     Stages.Game.boss g' = None /\
     Stages.Game.overlayTitle g' = "Victory!"%string).
Proof.
  split; eexists; (split; [vm_compute; reflexivity|]); repeat split.
Qed.

(** * Further properties of the code *)

(** ** [shufflePatterns] only reorders *)

Lemma insert_head_Permutation {A} (l : list A) (j : nat) (x y : A) :
  l !! j = Some y ->
  Permutation (y :: <[j := x]> l) (x :: l).
Proof.
  revert j. induction l as [|z l IH]; intros [|j] Hj; simpl in *; try done.
  - injection Hj as ->. apply perm_swap.
  - rewrite perm_swap. rewrite (IH j Hj). apply perm_swap.
Qed.

Lemma swap_Permutation {A} (i j : nat) (a : list A) :
  Permutation (Patterns.swap i j a) a.
Proof.
  unfold Patterns.swap.
  destruct (a !! i) as [ai|] eqn:Hi; [|done].
  destruct (a !! j) as [aj|] eqn:Hj; [|done].
  revert i j Hi Hj. induction a as [|z a IH]; intros [|i] [|j] Hi Hj;
    simpl in *; try done.
  - injection Hi as ->. by injection Hj as ->.
  - injection Hi as ->. by apply insert_head_Permutation.
  - injection Hj as ->. by apply insert_head_Permutation.
  - constructor. by apply IH.
Qed.

Lemma shuffleFrom_Permutation {A} (i : nat) (js : list nat) (a : list A) :
  Permutation (Patterns.shuffleFrom i js a) a.
Proof.
  revert js a. induction i as [|i IH]; intros js a; simpl; [done|].
  destruct js as [|j js]; [done|].
  rewrite IH. apply swap_Permutation.
Qed.

(** X1.  Whatever [Math.random] returns, [shufflePatterns] gives back a
    rearrangement of its argument: every element as often as before, and
    the same length.  So the playlist [DefaultBossScript] holds each of the
    twelve patterns of the pool exactly once, in some order. *)
Theorem shufflePatterns_rearranges `{JS.HostMath} :
  (forall (A : Type) (js : list nat) (arr : list A),
     Permutation (Patterns.shufflePatterns js arr) arr /\
     length (Patterns.shufflePatterns js arr) = length arr) /\
  (forall js : list nat,
     Permutation (Patterns.DefaultBossScript js) Patterns.scriptPool /\
     length (Patterns.DefaultBossScript js) = 12%nat).
Proof.
  assert (Hperm : forall (A : Type) (js : list nat) (arr : list A),
            Permutation (Patterns.shufflePatterns js arr) arr).
  { intros A js arr. apply shuffleFrom_Permutation. }
  split.
  - intros A js arr. split; [apply Hperm|]. apply Permutation_length, Hperm.
  - intros js. split; [apply Hperm|].
    unfold Patterns.DefaultBossScript.
    rewrite (Permutation_length (Hperm _ js Patterns.scriptPool)).
    reflexivity.
Qed.

(** ** A whole call of [updateCollisions] in the boss games *)

Lemma rush_bulletsVsEnemies_keeps (g : BossRush.Game.t) :
  BossRush.Game.lives (state_of (BossRush.bulletsVsEnemies g)) = BossRush.Game.lives g /\
  BossRush.Game.invulnerableUntil (state_of (BossRush.bulletsVsEnemies g))
  = BossRush.Game.invulnerableUntil g /\
  BossRush.Game.boss (state_of (BossRush.bulletsVsEnemies g)) = BossRush.Game.boss g.
Proof.
  unfold BossRush.bulletsVsEnemies, forEach.
  apply (forEachFrom_invariant _ _
           (fun s => BossRush.Game.lives s = BossRush.Game.lives g /\
                     BossRush.Game.invulnerableUntil s = BossRush.Game.invulnerableUntil g /\
                     BossRush.Game.boss s = BossRush.Game.boss g)); [|done].
  intros bullet k s Hs.
  apply (forEachFrom_invariant _ _
           (fun s => BossRush.Game.lives s = BossRush.Game.lives g /\
                     BossRush.Game.invulnerableUntil s = BossRush.Game.invulnerableUntil g /\
                     BossRush.Game.boss s = BossRush.Game.boss g)); [|done].
  intros enemy j s' Hs'. unfold BossRush.enemyCallback.
  destruct (checkCollision _ _); [|done].
  destruct (_ <=? _)%Z; done.
Qed.

Lemma rush_bulletsVsBoss_lives (g : BossRush.Game.t) :
  BossRush.Game.lives (state_of (BossRush.bulletsVsBoss g)) = BossRush.Game.lives g.
Proof.
  unfold BossRush.bulletsVsBoss. destruct (BossRush.Game.boss g); [|done].
  unfold forEach.
  apply (forEachFrom_invariant _ _
           (fun s => BossRush.Game.lives s = BossRush.Game.lives g)); [|done].
  intros bullet k s Hs. unfold BossRush.bossCallback.
  destruct (BossRush.Game.boss s); [|done].
  destruct (checkCollision _ _); [|done].
  destruct (_ <=? _)%Z; done.
Qed.

Lemma stage_bulletsVsEnemies_keeps (g : Stages.Game.t) :
  Stages.Game.lives (state_of (Stages.bulletsVsEnemies g)) = Stages.Game.lives g /\
  Stages.Game.invulnerableUntil (state_of (Stages.bulletsVsEnemies g))
  = Stages.Game.invulnerableUntil g /\
  Stages.Game.boss (state_of (Stages.bulletsVsEnemies g)) = Stages.Game.boss g.
Proof.
  unfold Stages.bulletsVsEnemies, forEach.
  apply (forEachFrom_invariant _ _
           (fun s => Stages.Game.lives s = Stages.Game.lives g /\
                     Stages.Game.invulnerableUntil s = Stages.Game.invulnerableUntil g /\
                     Stages.Game.boss s = Stages.Game.boss g)); [|done].
  intros bullet k s Hs.
  apply (forEachFrom_invariant _ _
           (fun s => Stages.Game.lives s = Stages.Game.lives g /\
                     Stages.Game.invulnerableUntil s = Stages.Game.invulnerableUntil g /\
                     Stages.Game.boss s = Stages.Game.boss g)); [|done].
  intros enemy j s' Hs'. unfold Stages.enemyCallback.
  destruct (checkCollision _ _); [|done].
  destruct (_ <=? _)%Z; done.
Qed.

Lemma stage_bossDefeated_lives (g : Stages.Game.t) :
  (Stages.Game.lives g <= Stages.Game.lives (state_of (Stages.bossDefeated g)))%Z.
Proof.
  unfold Stages.bossDefeated, Stages.spawnBoss.
  destruct (_ <=? _)%Z; [|unfold Stages.Game.lives; simpl; lia].
  destruct (Stages.at_index _ _); unfold Stages.Game.lives; simpl; lia.
Qed.

Lemma stage_bulletsVsBoss_lives (g : Stages.Game.t) :
  (Stages.Game.lives g <= Stages.Game.lives (state_of (Stages.bulletsVsBoss g)))%Z.
Proof.
  unfold Stages.bulletsVsBoss. destruct (Stages.Game.boss g); [|done].
  unfold forEach.
  apply (forEachFrom_invariant _ _
           (fun s => (Stages.Game.lives g <= Stages.Game.lives s)%Z)); [|done].
  intros bullet k s Hs. unfold Stages.bossCallback.
  destruct (Stages.Game.boss s); [|done].
  destruct (checkCollision _ _); [|done].
  destruct (_ <=? _)%Z; [|done].
  etrans; [exact Hs|].
  match goal with |- context [Stages.bossDefeated ?g0] =>
    etrans; [|apply (stage_bossDefeated_lives g0)] end.
  done.
Qed.

(** X2.  One call of [updateCollisions], all three loops: when the clock
    readings taken during the call lie within one invulnerability window,
    the call costs at most one life, however many boss bullets overlap the
    hitbox.  In the single-boss game the lives never go up; in the
    three-boss game they can (a boss brought down in the same call gives
    one), so only the lower bound holds there. *)
Theorem collision_pass_costs_at_most_one_life :
  (forall (now : nat -> Z) (t : Z) (g : BossRush.Game.t),
     (forall k, (t <= now k < t + BossRush.iFrameDuration)%Z) ->
     (BossRush.Game.lives g - 1
      <= BossRush.Game.lives (state_of (BossRush.updateCollisions now g))
      <= BossRush.Game.lives g)%Z) /\
  (forall (now : nat -> Z) (t : Z) (g : Stages.Game.t),
     (forall k, (t <= now k < t + Stages.iFrameDuration)%Z) ->
     (Stages.Game.lives g - 1
      <= Stages.Game.lives (state_of (Stages.updateCollisions now g)))%Z).
Proof.
  split; intros now t g Hclock.
  - unfold BossRush.updateCollisions.
    destruct (rush_bulletsVsEnemies_keeps g) as (Hl1 & _ & _).
    destruct (BossRush.bulletsVsEnemies g) as [g1|g1]; simpl in *; [|lia].
    pose proof (rush_pass_costs_at_most_one_life now t g1 Hclock) as Hl2.
    simpl in Hl2.
    destruct (BossRush.bossBulletsVsPlayer now g1) as [g2|g2]; simpl in *; [|lia].
    pose proof (rush_bulletsVsBoss_lives g2). lia.
  - unfold Stages.updateCollisions.
    destruct (stage_bulletsVsEnemies_keeps g) as (Hl1 & _ & _).
    destruct (Stages.bulletsVsEnemies g) as [g1|g1]; simpl in *; [|lia].
    pose proof (stage_pass_costs_at_most_one_life now t g1 Hclock) as Hl2.
    simpl in Hl2.
    pose proof (stage_bulletsVsBoss_lives (Stages.bossBulletsVsPlayer now g1)). lia.
Qed.

Lemma collision_pass_witness :
  let b := Arcade.Bullet.mk 348 448 4 8 2 enemy_t (Some 0) (Some 2) in
  let g := BossRush.Game.set_bossBullets [b; b; b]
             (BossRush.startGame (BossRush.create Sample.canvas)) in
  (BossRush.Game.lives g - 1
   <= BossRush.Game.lives (state_of (BossRush.updateCollisions (fun _ => 5000%Z) g))
   <= BossRush.Game.lives g)%Z.
Proof.
  intros b g.
  apply (proj1 collision_pass_costs_at_most_one_life (fun _ => 5000%Z) 5000%Z g).
  intros k. unfold BossRush.iFrameDuration. lia.
Defined.

(** ** The shot that brings down the last boss *)

Lemma rush_kill_first (g : BossRush.Game.t) (b : Arcade.Boss.t)
    (b0 : Arcade.Bullet.t) (tail : list Arcade.Bullet.t) :
  BossRush.Game.boss g = Some b ->
  BossRush.Game.playerBullets g = b0 :: tail ->
  checkCollision (Arcade.Bullet.rect b0) (Arcade.Boss.rect b) = true ->
  (Arcade.Boss.health b <= 1)%Z ->
  exists g1,
    BossRush.bossCallback b0 0 g = Normal g1 /\
    BossRush.Game.boss g1 = None /\
    BossRush.Game.playerBullets g1 = tail /\
    BossRush.Game.isRunning g1 = false /\
    BossRush.Game.overlayHidden g1 = false /\
    BossRush.Game.score g1 = BossRush.Game.score g.
Proof.
  intros Hboss Hbullets Hhit Hhealth.
  unfold BossRush.bossCallback. rewrite Hboss, Hhit. simpl.
  destruct (Z.leb_spec (Arcade.Boss.health b - 1) 0); [|lia].
  eexists. split; [reflexivity|]. rewrite Hbullets. simpl. done.
Qed.

Lemma stage_kill_first (g : Stages.Game.t) (b : Arcade.Boss.t)
    (b0 : Arcade.Bullet.t) (tail : list Arcade.Bullet.t) :
  Stages.Game.boss g = Some b ->
  Stages.Game.playerBullets g = b0 :: tail ->
  checkCollision (Arcade.Bullet.rect b0) (Arcade.Boss.rect b) = true ->
  (Arcade.Boss.health b <= Stages.damagePerHit)%Z ->
  (Stages.Game.maxStage g <= Stages.Game.stage g)%Z ->
  exists g1,
    Stages.bossCallback b0 0 g = Normal g1 /\
    Stages.Game.boss g1 = None /\
    Stages.Game.playerBullets g1 = tail /\
    Stages.Game.isRunning g1 = false /\
    Stages.Game.overlayTitle g1 = "Victory!"%string /\
    Stages.Game.score g1 = (Stages.Game.score g + 1000)%Z.
Proof.
  intros Hboss Hbullets Hhit Hhealth Hlast.
  unfold Stages.bossCallback. rewrite Hboss, Hhit. simpl.
  destruct (Z.leb_spec (Arcade.Boss.health b - Stages.damagePerHit) 0); [|lia].
  unfold Stages.bossDefeated.
  match goal with |- context [if ?c then _ else _] => destruct c eqn:Hc end.
  { apply Z.leb_le in Hc. unfold Stages.Game.stage, Stages.Game.maxStage in *.
    simpl in Hc. lia. }
  eexists. split; [reflexivity|]. rewrite Hbullets. simpl. done.
Qed.

(** X3.  [updateCollisions] walks the player's bullets with [forEach] and
    reads [this.boss!.x] in every callback.  When the first bullet of the
    pool brings the last boss down, [this.boss] becomes [null] while the
    loop still has the length it read at the start: with two or more
    bullets behind the killing one the next callback throws a [TypeError]
    (the game has by then been stopped and the overlay shown: "Game Over!"
    in the single-boss game, "Victory!" in the three-boss game); with at
    most one bullet behind it the remaining indices are out of the spliced
    array and the call returns normally. *)
Theorem last_boss_down_ends_in_TypeError :
  (forall (g : BossRush.Game.t) (b : Arcade.Boss.t) (b0 : Arcade.Bullet.t)
          (tail : list Arcade.Bullet.t),
     BossRush.Game.boss g = Some b ->
     BossRush.Game.playerBullets g = b0 :: tail ->
     checkCollision (Arcade.Bullet.rect b0) (Arcade.Boss.rect b) = true ->
     (Arcade.Boss.health b <= 1)%Z ->
     exists g1,
       BossRush.bulletsVsBoss g
       = (if (2 <=? length tail)%nat then Throw g1 else Normal g1) /\
       BossRush.Game.boss g1 = None /\
       BossRush.Game.playerBullets g1 = tail /\
       BossRush.Game.isRunning g1 = false /\
       BossRush.Game.overlayHidden g1 = false) /\
  (forall (g : Stages.Game.t) (b : Arcade.Boss.t) (b0 : Arcade.Bullet.t)
          (tail : list Arcade.Bullet.t),
     Stages.Game.boss g = Some b ->
     Stages.Game.playerBullets g = b0 :: tail ->
     checkCollision (Arcade.Bullet.rect b0) (Arcade.Boss.rect b) = true ->
     (Arcade.Boss.health b <= Stages.damagePerHit)%Z ->
     (Stages.Game.maxStage g <= Stages.Game.stage g)%Z ->
     exists g1,
       Stages.bulletsVsBoss g
       = (if (2 <=? length tail)%nat then Throw g1 else Normal g1) /\
       Stages.Game.boss g1 = None /\
       Stages.Game.playerBullets g1 = tail /\
       Stages.Game.isRunning g1 = false /\
       Stages.Game.overlayTitle g1 = "Victory!"%string).
Proof.
  split.
  - intros g b b0 tail Hboss Hbullets Hhit Hhealth.
    destruct (rush_kill_first g b b0 _ Hboss Hbullets Hhit Hhealth)
      as (g1 & Hcb & Hnone & Hleft & Hrun & Hshown & _).
    exists g1. split; [|done].
    unfold BossRush.bulletsVsBoss, forEach. rewrite Hboss, Hbullets.
    cbn [length forEachFrom]. rewrite Hbullets. cbn [lookup list_lookup].
    rewrite Hcb. cbn [andThen].
    destruct tail as [|b1 [|b2 rest]]; cbn [length forEachFrom Nat.leb];
      rewrite ?Hleft; cbn [lookup list_lookup andThen]; try done.
    unfold BossRush.bossCallback at 1. by rewrite Hnone.
  - intros g b b0 tail Hboss Hbullets Hhit Hhealth Hlast.
    destruct (stage_kill_first g b b0 _ Hboss Hbullets Hhit Hhealth Hlast)
      as (g1 & Hcb & Hnone & Hleft & Hrun & Htitle & _).
    exists g1. split; [|done].
    unfold Stages.bulletsVsBoss, forEach. rewrite Hboss, Hbullets.
    cbn [length forEachFrom]. rewrite Hbullets. cbn [lookup list_lookup].
    rewrite Hcb. cbn [andThen].
    destruct tail as [|b1 [|b2 rest]]; cbn [length forEachFrom Nat.leb];
      rewrite ?Hleft; cbn [lookup list_lookup andThen]; try done.
    unfold Stages.bossCallback at 1. by rewrite Hnone.
Qed.

Lemma last_boss_down_witness :
  let shot y := Arcade.Bullet.mk 350 y 4 8 7 player_t (Some 0) (Some (-7)) in
  let start := state_of (Stages.startGame (Stages.create Sample.canvas)) in
  let g :=
    Stages.Game.set_playerBullets [shot 100; shot 110; shot 120]
      (Stages.Game.set_boss (Some (Arcade.Boss.mk 302 40 96 96 2 2000 []))
         (Stages.Game.set_gameState
            (Stages.GameState.set_stage 3 (Stages.Game.gameState start)) start)) in
  exists g1,
    Stages.bulletsVsBoss g = Throw g1 /\
    Stages.Game.boss g1 = None /\
    Stages.Game.playerBullets g1 = [shot 110; shot 120] /\
    Stages.Game.isRunning g1 = false /\
    Stages.Game.overlayTitle g1 = "Victory!"%string.
Proof.
  intros shot start g.
  apply (proj2 last_boss_down_ends_in_TypeError g
           (Arcade.Boss.mk 302 40 96 96 2 2000 []) (shot 100) [shot 110; shot 120]).
  - reflexivity.
  - reflexivity.
  - vm_compute. reflexivity.
  - vm_compute. discriminate.
  - vm_compute. discriminate.
Defined.

(** ** One hit per frame in the scroller *)

Section LoopInvariantsAt.
Context {S A : Type} (arr : S -> list A) (body : A -> nat -> S -> S * bool).

(** As [forOfFrom_invariant], for a body that is only ever run on an
    element it was handed from the array. *)
Lemma forOfFrom_invariant_at (P : S -> Prop) :
  (forall a k s, arr s !! k = Some a -> P s -> P (fst (body a k s))) ->
  forall n k s, P s -> P (forOfFrom arr body n k s).
Proof.
  intros Hbody. induction n as [|n IH]; intros k s Hs; simpl; [done|].
  destruct (arr s !! k) as [a|] eqn:Hk; [|done].
  specialize (Hbody a k s Hk Hs).
  destruct (body a k s) as [s' stop]. simpl in Hbody.
  destruct stop; [done|]. by apply IH.
Qed.

End LoopInvariantsAt.

(** No hostile bullet is left anywhere. *)
Definition hostileCleared (s : Scroller.Game.t) : Prop :=
  Scroller.Game.orphanBullets s = [] /\
  Scroller.Game.bossBullets s = [] /\
  Forall (fun e => Scroller.Enemy.bullets e = []) (Scroller.Game.enemies s).

(** What a pass of the three hostile loops can have done to [g]: nothing
    to the game state, or one bomb. *)
Definition atMostOneHit (g s : Scroller.Game.t) : Prop :=
  Scroller.Game.gameState s = Scroller.Game.gameState g \/
  (hostileCleared s /\
   (Scroller.Game.lives g - 1 <= Scroller.Game.lives s <= Scroller.Game.lives g)%Z /\
   Scroller.Game.score s = Scroller.Game.score g).

Lemma playerHit_atMostOneHit (g s : Scroller.Game.t) :
  Scroller.Game.gameState s = Scroller.Game.gameState g ->
  atMostOneHit g (Scroller.playerHit s).
Proof.
  intros Hgs. right.
  destruct (scroller_playerHit s) as (Hl & Ho & Hb & He).
  split; [by repeat split|]. split.
  - rewrite Hl. unfold Scroller.Game.lives. rewrite Hgs.
    match goal with |- context [if ?c then _ else _] => destruct c end; lia.
  - unfold Scroller.Game.score. rewrite <- Hgs.
    unfold Scroller.playerHit, Scroller.updateUI, Scroller.showGameOver.
    repeat match goal with
           | |- context [if ?c then _ else _] => destruct c
           end; done.
Qed.

(** X4.  The scroller has no invulnerability timer, yet one call of
    [checkCollisions] with a life left ([0 < lives]) costs at most one life:
    the first hostile bullet found inside the hit radius (enemy lists first,
    then the orphan pool, then the boss's list) makes [playerHit] empty all
    three kinds of pool, so the later loops of the same call find nothing.
    Either the call leaves the game state (lives, score, extend threshold,
    running flag) as it was, or it leaves no hostile bullet anywhere, the
    score as it was, and the lives down by one (or unchanged, when the
    extend fell due in [playerHit]).  The lives are not negative after it,
    so the next display of them is defined. *)
Theorem scroller_pass_costs_at_most_one_life (g : Scroller.Game.t) :
  (0 < Scroller.Game.lives g)%Z ->
  atMostOneHit g (Scroller.checkCollisions g) /\
  (Scroller.Game.lives g - 1 <= Scroller.Game.lives (Scroller.checkCollisions g)
   <= Scroller.Game.lives g)%Z /\
  (0 <= Scroller.Game.lives (Scroller.checkCollisions g))%Z.
Proof.
  intros Hlives.
  assert (Hmain : atMostOneHit g (Scroller.checkCollisions g)).
  { unfold Scroller.checkCollisions.
    set (cx := Scroller.playerCenterX g). set (cy := Scroller.playerCenterY g).
    destruct (bulletsVsEnemies_sameThreat g) as (Hgs1 & _).
    destruct (bulletsVsBoss_sameThreat (Scroller.bulletsVsEnemies g)) as (Hgs2 & _).
    set (g2 := Scroller.bulletsVsBoss (Scroller.bulletsVsEnemies g)) in *.
    assert (H2 : atMostOneHit g g2) by (left; congruence).
    assert (H3 : atMostOneHit g (Scroller.enemyBulletsVsPlayer cx cy g2)).
    { unfold Scroller.enemyBulletsVsPlayer, forOf.
      apply forOfFrom_invariant_at; [|done].
      intros enemy k s Hk Hs. unfold Scroller.enemyBulletsBody.
      destruct (existsb _ _) eqn:Hex; [|done]. simpl.
      destruct Hs as [Hgs|((_ & _ & He) & _)].
      - by apply playerHit_atMostOneHit.
      - rewrite Forall_lookup in He. rewrite (He k enemy Hk) in Hex. done. }
    set (g3 := Scroller.enemyBulletsVsPlayer cx cy g2) in *.
    assert (H4 : atMostOneHit g (Scroller.orphansVsPlayer cx cy g3)).
    { unfold Scroller.orphansVsPlayer.
      destruct (existsb _ _) eqn:Hex; [|done].
      destruct H3 as [Hgs|((Ho & _ & _) & _)].
      - by apply playerHit_atMostOneHit.
      - rewrite Ho in Hex. done. }
    set (g4 := Scroller.orphansVsPlayer cx cy g3) in *.
    unfold Scroller.bossBulletsVsPlayer.
    destruct (Scroller.Game.boss g4) as [b|] eqn:Hboss; [|done].
    destruct (existsb _ _) eqn:Hex; [|done].
    destruct H4 as [Hgs|((_ & Hb & _) & _)].
    - by apply playerHit_atMostOneHit.
    - unfold Scroller.Game.bossBullets in Hb. rewrite Hboss in Hb.
      rewrite Hb in Hex. done. }
  assert (Hbound : (Scroller.Game.lives g - 1
                    <= Scroller.Game.lives (Scroller.checkCollisions g)
                    <= Scroller.Game.lives g)%Z).
  { destruct Hmain as [Hgs|(_ & Hl & _)]; [|done].
    unfold Scroller.Game.lives. rewrite Hgs. lia. }
  split; [done|]. split; [done|]. lia.
Qed.

Lemma scroller_pass_witness :
  let g := Scroller.Game.set_orphanBullets [Sample.pellet 344 410.5] Sample.scroller in
  Scroller.Game.lives g = 5%Z /\
  Scroller.Game.lives (Scroller.checkCollisions g) = 4%Z /\
  atMostOneHit g (Scroller.checkCollisions g) /\
  (0 <= Scroller.Game.lives (Scroller.checkCollisions g))%Z.
Proof.
  intros g.
  destruct (scroller_pass_costs_at_most_one_life g) as (Hhit & _ & Hleft).
  - vm_compute. reflexivity.
  - split; [reflexivity|]. split; [vm_compute; reflexivity|].
    split; [exact Hhit|exact Hleft].
Defined.

(** ** Score and extends in [updateEnemies] *)

(** The enemies of a list that [updateEnemies] will count as shot down. *)
Definition shotDown (es : list Scroller.Enemy.t) : list Scroller.Enemy.t :=
  List.filter (fun e => (Scroller.Enemy.health e <=? 0)%Z) es.

Definition nextExtend (g : Scroller.Game.t) : Z :=
  Scroller.GameState.nextExtend (Scroller.Game.gameState g).

Lemma walkEnemies_scores `{JS.HostMath} (now : JS.number)
    (random : nat -> nat -> JS.number) (es : list Scroller.Enemy.t) (i : nat)
    (g : Scroller.Game.t) :
  let g1 := snd (Scroller.walkEnemies now random i es g) in
  Scroller.Game.score g1
  = (Scroller.Game.score g + 100 * Z.of_nat (length (shotDown es)))%Z /\
  (Scroller.Game.lives g <= Scroller.Game.lives g1
   <= Scroller.Game.lives g + Z.of_nat (length (shotDown es)))%Z /\
  ((Scroller.Game.score g < nextExtend g)%Z ->
   (Scroller.Game.score g1 < nextExtend g1)%Z).
Proof.
  revert i. induction es as [|e0 rest IH]; intros i; simpl.
  { split; [lia|]. split; [lia|done]. }
  specialize (IH (S i)).
  destruct (Scroller.walkEnemies now random (S i) rest g) as [kept g1].
  simpl in IH. destruct IH as (Hs & Hl & Hinv).
  destruct (stepEnemy_keeps now (random i) (Scroller.Game.player g1) e0) as [_ Hh].
  rewrite Hh.
  destruct (Z.leb_spec (Scroller.Enemy.health e0) 0) as [Hle|Hgt].
  - rewrite orb_true_r. simpl.
    unfold Scroller.updateUI, Scroller.Game.score, Scroller.Game.lives, nextExtend in *.
    simpl.
    match goal with |- context [if ?c then _ else _] =>
      destruct c eqn:Hc end; simpl;
      [apply Z.geb_le in Hc | rewrite Z.geb_leb in Hc; apply Z.leb_gt in Hc];
      (split; [lia|]); (split; [lia|]); intros Hlt; specialize (Hinv Hlt); lia.
  - rewrite orb_false_r.
    match goal with |- context [if ?c then _ else _] => destruct c end;
      simpl; done.
Qed.

(** X5.  [updateEnemies] is where the scroller scores: one call adds 100
    points for every enemy it finds with health 0 or below, and nothing
    else.  Each of those kills runs [updateUI] once, so the call grants at
    most one extra life per kill and never takes one; and if the score was
    below the next extend threshold before the call it is below it again
    after (a kill that reaches the threshold moves it up by 4000). *)
Theorem updateEnemies_scores_per_kill `{JS.HostMath} (now : JS.number)
    (random : nat -> nat -> JS.number) (g : Scroller.Game.t) :
  let kills := Z.of_nat (length (shotDown (Scroller.Game.enemies g))) in
  let g' := Scroller.updateEnemies now random g in
  Scroller.Game.score g' = (Scroller.Game.score g + 100 * kills)%Z /\
  (Scroller.Game.lives g <= Scroller.Game.lives g' <= Scroller.Game.lives g + kills)%Z /\
  ((Scroller.Game.score g < nextExtend g)%Z ->
   (Scroller.Game.score g' < nextExtend g')%Z).
Proof.
  intros kills g'. subst kills g'. unfold Scroller.updateEnemies.
  pose proof (walkEnemies_scores now random (Scroller.Game.enemies g) 0 g) as Hwalk.
  destruct (Scroller.walkEnemies now random 0 (Scroller.Game.enemies g) g) as [kept g1].
  simpl in Hwalk. destruct Hwalk as (Hs & Hl & Hinv).
  done.
Qed.

Lemma updateEnemies_scores_witness :
  let g := Scroller.Game.set_gameState
             (Scroller.GameState.set_score 3900 (Scroller.Game.gameState Sample.scroller))
             (Scroller.Game.set_enemies
                [Sample.fairy 100 100 0 [] 99500 1500;
                 Sample.fairy 200 100 3 [] 99500 1500;
                 Sample.fairy 300 100 (-1) [] 99500 1500]
                Sample.scroller) in
  let g' := Scroller.updateEnemies (M := Sample.host) 100000 (fun _ _ => 0) g in
  Scroller.Game.score g' = 4100%Z /\
  (Scroller.Game.score g' < nextExtend g')%Z.
Proof.
  intros g g'.
  destruct (updateEnemies_scores_per_kill (H := Sample.host) 100000 (fun _ _ => 0) g)
    as (Hscore & _ & Hinv).
  split; [exact Hscore|]. apply Hinv. vm_compute. reflexivity.
Defined.

(** ** Damage dealt by the player's bullets in the scroller *)

Definition totalHealth (es : list Scroller.Enemy.t) : Z :=
  foldr (fun e acc => (Scroller.Enemy.health e + acc)%Z) 0%Z es.

Lemma totalHealth_app (l1 l2 : list Scroller.Enemy.t) :
  totalHealth (l1 ++ l2) = (totalHealth l1 + totalHealth l2)%Z.
Proof.
  induction l1 as [|e l1 IH]; simpl; [done|]. rewrite IH. lia.
Qed.

(** X6.  The loop of [checkCollisions] over the player's bullets against
    the enemies keeps the books: the total health of the enemies drops by
    exactly the number of bullets the loop removes from the pool, no bullet
    is added, and no enemy is removed or added there (removal is left to
    [updateEnemies]). *)
Theorem bullets_pay_for_damage (g : Scroller.Game.t) :
  let g' := Scroller.bulletsVsEnemies g in
  (totalHealth (Scroller.Game.enemies g')
   = totalHealth (Scroller.Game.enemies g)
     - (Z.of_nat (length (Scroller.Game.playerBullets g))
        - Z.of_nat (length (Scroller.Game.playerBullets g'))))%Z /\
  length (Scroller.Game.playerBullets g') <= length (Scroller.Game.playerBullets g) /\
  length (Scroller.Game.enemies g') = length (Scroller.Game.enemies g).
Proof.
  intros g'. subst g'. unfold Scroller.bulletsVsEnemies, forOf.
  set (P := fun s : Scroller.Game.t =>
    (totalHealth (Scroller.Game.enemies s)
     - Z.of_nat (length (Scroller.Game.playerBullets s))
     = totalHealth (Scroller.Game.enemies g)
       - Z.of_nat (length (Scroller.Game.playerBullets g)))%Z /\
    length (Scroller.Game.playerBullets s) <= length (Scroller.Game.playerBullets g) /\
    length (Scroller.Game.enemies s) = length (Scroller.Game.enemies g)).
  assert (HP : P (forOfFrom Scroller.Game.playerBullets Scroller.enemyLoopBody
                    (length (Scroller.Game.playerBullets g)) 0 g)).
  { apply forOfFrom_invariant_at; [|done].
    intros bullet k s Hk (Hsum & Hlen & Hes). unfold Scroller.enemyLoopBody.
    destruct (Scroller.hitFirstEnemy bullet (Scroller.Game.enemies s)) as [es'|] eqn:Hfirst;
      simpl; [|done].
    destruct (hitFirstEnemy_first _ _ _ Hfirst) as (pre & enemy & post & Hes0 & -> & _ & _).
    unfold P, Scroller.Game.playerBullets in *. simpl.
    rewrite length_delete by (by eexists).
    apply lookup_lt_Some in Hk.
    rewrite Hes0 in Hsum, Hes. rewrite totalHealth_app in Hsum |- *.
    rewrite !length_app in *. simpl in *.
    repeat split; lia. }
  destruct HP as (Hsum & Hlen & Hes). repeat split; [lia|done|done].
Qed.

Lemma bossLoop_first_hit (g : Scroller.Game.t) (b : Scroller.Boss.t) :
  Scroller.Game.boss g = Some b ->
  forall n k,
    let r := forOfFrom Scroller.Game.playerBullets Scroller.bossLoopBody n k g in
    (r = g /\
     forall i bullet, k <= i < k + n ->
       Scroller.Game.playerBullets g !! i = Some bullet ->
       checkCollision (Scroller.Bullet.rect bullet) (Scroller.Boss.rect b) = false) \/
    (exists j bullet,
       Scroller.Game.playerBullets g !! j = Some bullet /\
       checkCollision (Scroller.Bullet.rect bullet) (Scroller.Boss.rect b) = true /\
       (forall i earlier, k <= i < j ->
          Scroller.Game.playerBullets g !! i = Some earlier ->
          checkCollision (Scroller.Bullet.rect earlier) (Scroller.Boss.rect b) = false) /\
       r = Scroller.Game.set_playerBullets (delete j (Scroller.Game.playerBullets g))
             (Scroller.Game.set_boss
                (Some (Scroller.Boss.set_health (Scroller.Boss.health b - 1) b)) g)).
Proof.
  intros Hboss. induction n as [|n IH]; intros k; simpl.
  { left. split; [done|]. intros i bullet Hi. lia. }
  destruct (Scroller.Game.playerBullets g !! k) as [bullet|] eqn:Hk.
  - assert (Hbody : Scroller.bossLoopBody bullet k g
                    = if checkCollision (Scroller.Bullet.rect bullet) (Scroller.Boss.rect b)
                      then (Scroller.Game.set_playerBullets
                              (delete k (Scroller.Game.playerBullets g))
                              (Scroller.Game.set_boss
                                 (Some (Scroller.Boss.set_health
                                          (Scroller.Boss.health b - 1) b)) g), true)
                      else (g, false)).
    { unfold Scroller.bossLoopBody. by rewrite Hboss. }
    rewrite Hbody.
    destruct (checkCollision (Scroller.Bullet.rect bullet) (Scroller.Boss.rect b)) eqn:Hhit.
    + right. exists k, bullet. split; [done|]. split; [done|].
      split; [intros i earlier Hi; lia|done].
    + destruct (IH (S k)) as [[Hr Hmiss]|(j & bl & Hj & Hbl & Hmiss & Hr)].
      * left. split; [done|]. intros i bullet' Hi Hlook.
        destruct (decide (i = k)) as [->|Hne]; [congruence|].
        apply (Hmiss i bullet'); [lia|done].
      * right. exists j, bl. repeat split; try done.
        intros i earlier Hi Hlook.
        destruct (decide (i = k)) as [->|Hne]; [congruence|].
        apply (Hmiss i earlier); [lia|done].
  - left. split; [done|]. intros i bullet Hi Hlook.
    apply lookup_lt_Some in Hlook. apply lookup_ge_None in Hk. lia.
Qed.

(** X7.  Against the boss the loop is left at the first hit, so however
    many of the player's bullets overlap the boss, one call of
    [checkCollisions] costs it exactly one point of health and removes
    exactly one bullet: the first in pool order that overlaps.  With no
    overlapping bullet nothing changes. *)
Theorem boss_takes_one_hit_per_frame (g : Scroller.Game.t) (b : Scroller.Boss.t) :
  Scroller.Game.boss g = Some b ->
  (Scroller.bulletsVsBoss g = g /\
   Forall (fun bullet =>
             checkCollision (Scroller.Bullet.rect bullet) (Scroller.Boss.rect b) = false)
          (Scroller.Game.playerBullets g)) \/
  (exists j bullet,
     Scroller.Game.playerBullets g !! j = Some bullet /\
     checkCollision (Scroller.Bullet.rect bullet) (Scroller.Boss.rect b) = true /\
     (forall i earlier, i < j ->
        Scroller.Game.playerBullets g !! i = Some earlier ->
        checkCollision (Scroller.Bullet.rect earlier) (Scroller.Boss.rect b) = false) /\
     Scroller.bulletsVsBoss g
     = Scroller.Game.set_playerBullets (delete j (Scroller.Game.playerBullets g))
         (Scroller.Game.set_boss
            (Some (Scroller.Boss.set_health (Scroller.Boss.health b - 1) b)) g)).
Proof.
  intros Hboss. unfold Scroller.bulletsVsBoss, forOf. rewrite Hboss.
  destruct (bossLoop_first_hit g b Hboss (length (Scroller.Game.playerBullets g)) 0)
    as [[Hr Hmiss]|(j & bl & Hj & Hbl & Hmiss & Hr)].
  - left. split; [done|]. apply Forall_lookup. intros i bullet Hlook.
    apply (Hmiss i bullet); [|done]. apply lookup_lt_Some in Hlook. lia.
  - right. exists j, bl. repeat split; try done.
    intros i earlier Hi. apply Hmiss. lia.
Qed.

Lemma boss_one_hit_witness :
  let b := Scroller.Boss.mk 325 70 50 70 3000 3000 [] 0 0 in
  let g := Scroller.Game.set_playerBullets
             [Sample.shot 10 300; Sample.shot 340 100; Sample.shot 350 110]
             (Scroller.Game.set_boss (Some b) Sample.scroller) in
  Scroller.Game.playerBullets (Scroller.bulletsVsBoss g)
  = [Sample.shot 10 300; Sample.shot 350 110] /\
  option_map Scroller.Boss.health (Scroller.Game.boss (Scroller.bulletsVsBoss g))
  = Some 2999%Z.
Proof.
  intros b g.
  destruct (boss_takes_one_hit_per_frame g b) as [[_ Hmiss]|(j & bl & Hj & Hbl & Hmiss & ->)].
  - reflexivity.
  - apply Forall_lookup_1 with (i := 1%nat) (x := Sample.shot 340 100) in Hmiss;
      [|reflexivity].
    vm_compute in Hmiss. discriminate.
  - destruct j as [|[|[|j]]]; simpl in Hj.
    + injection Hj as <-. vm_compute in Hbl. discriminate.
    + split; reflexivity.
    + specialize (Hmiss 1%nat (Sample.shot 340 100)).
      assert (Hcontra : checkCollision (Scroller.Bullet.rect (Sample.shot 340 100))
                          (Scroller.Boss.rect b) = false).
      { apply Hmiss; [lia|reflexivity]. }
      vm_compute in Hcontra. discriminate.
    + discriminate.
Defined.

(** ** Every bullet of the boss games carries a velocity vector *)

Section Outcome.
Context {S A : Type} (arr : S -> list A) (callback : A -> nat -> S -> completion S).

(** [P] holds as long as the loop runs normally; [E] is what is known of
    the state a callback throws in. *)
Definition outcome (P E : S -> Prop) (c : completion S) : Prop :=
  match c with
  | Normal s => P s
  | Throw s => E s
  end.

Lemma forEachFrom_outcome (P E : S -> Prop) :
  (forall a k s, arr s !! k = Some a -> P s -> outcome P E (callback a k s)) ->
  forall n k s, P s -> outcome P E (forEachFrom arr callback n k s).
Proof.
  intros Hcb. induction n as [|n IH]; intros k s Hs; simpl; [done|].
  destruct (arr s !! k) as [a|] eqn:Hk; simpl; [|by apply IH].
  specialize (Hcb a k s Hk Hs).
  destruct (callback a k s) as [s'|s']; simpl in *; [by apply IH|done].
Qed.

End Outcome.

Lemma outcome_andThen {S : Type} (P Q E : S -> Prop) (c : completion S)
    (k : S -> completion S) :
  outcome P E c ->
  (forall s, P s -> outcome Q E (k s)) ->
  outcome Q E (andThen c k).
Proof.
  destruct c as [s|s]; simpl; [|done]. intros Hs Hk. by apply Hk.
Qed.

Definition vectored (b : Arcade.Bullet.t) : Prop :=
  JS.isNumber (Arcade.Bullet.vx b) = true /\ JS.isNumber (Arcade.Bullet.vy b) = true.

(** The branch of the two movement callbacks that adds the vector. *)
Definition vectorStep (b : Arcade.Bullet.t) : Arcade.Bullet.t :=
  let b1 := Arcade.Bullet.set_x
              (Arcade.Bullet.x b + JS.toNumber (Arcade.Bullet.vx b)) b in
  Arcade.Bullet.set_y (Arcade.Bullet.y b1 + JS.toNumber (Arcade.Bullet.vy b1)) b1.

Lemma vectored_moves (b : Arcade.Bullet.t) :
  vectored b ->
  Arcade.movePlayerBullet b = vectorStep b /\
  Arcade.moveBossBullet b = vectorStep b /\
  vectored (vectorStep b).
Proof.
  intros [Hx Hy]. unfold Arcade.movePlayerBullet, Arcade.moveBossBullet.
  rewrite Hx, Hy. done.
Qed.

Lemma filterMoved_vectored (move : Arcade.Bullet.t -> Arcade.Bullet.t)
    (keep : Arcade.Bullet.t -> bool) (l : list Arcade.Bullet.t) :
  (forall b, vectored b -> move b = vectorStep b) ->
  Forall vectored l ->
  Arcade.filterMoved move keep l = Arcade.filterMoved vectorStep keep l /\
  Forall vectored (Arcade.filterMoved move keep l).
Proof.
  intros Hmove Hl. unfold Arcade.filterMoved.
  induction Hl as [|b l Hb Hl [IHeq IHall]]; simpl; [done|].
  rewrite (Hmove b Hb), IHeq. split; [done|].
  destruct (keep (vectorStep b)); [|by rewrite <- IHeq].
  constructor; [by apply vectored_moves|by rewrite <- IHeq].
Qed.

Lemma movePlayer_keeps (c : Canvas.t) (input : Arcade.Input.t) (p : Arcade.Player.t) :
  Arcade.Player.bullets (Arcade.movePlayer c input p) = Arcade.Player.bullets p /\
  Arcade.Player.lastShot (Arcade.movePlayer c input p) = Arcade.Player.lastShot p /\
  Arcade.Player.shootCooldown (Arcade.movePlayer c input p)
  = Arcade.Player.shootCooldown p.
Proof.
  unfold Arcade.movePlayer.
  repeat match goal with
         | |- context [if ?c then _ else _] => destruct c
         end; done.
Qed.

Lemma playerShoot_pushes `{JS.HostMath} (tested stored : Z)
    (boss : option Arcade.Boss.t) (p : Arcade.Player.t) :
  exists pushed,
    Arcade.Player.bullets (Arcade.playerShoot tested stored boss p)
    = Arcade.Player.bullets p ++ pushed /\
    Forall vectored pushed.
Proof.
  unfold Arcade.playerShoot.
  destruct (_ <? _)%Z.
  - exists []. by rewrite app_nil_r.
  - destruct boss; simpl; eexists; (split; [reflexivity|]);
      repeat constructor.
Qed.

Lemma updatePlayer_vectored `{JS.HostMath} (c : Canvas.t) (input : Arcade.Input.t)
    (clock : Arcade.Clock.t) (boss : option Arcade.Boss.t) (p : Arcade.Player.t) :
  Forall vectored (Arcade.Player.bullets p) ->
  Forall vectored (Arcade.Player.bullets (Arcade.updatePlayer c input clock boss p)).
Proof.
  intros Hp. unfold Arcade.updatePlayer.
  destruct (movePlayer_keeps c input p) as (Hb & _).
  destruct (Arcade.Input.isShootingHeld input); [|by rewrite Hb].
  destruct (playerShoot_pushes (Arcade.Clock.shotTested clock)
              (Arcade.Clock.shotStored clock) boss (Arcade.movePlayer c input p))
    as (pushed & -> & Hpushed).
  rewrite Hb. by apply Forall_app.
Qed.

Lemma toBullet_vectored `{JS.HostMath} (l : list Patterns.BossBulletConfig.t) :
  Forall vectored (map Arcade.toBullet l).
Proof.
  apply Forall_forall. intros b [cfg [-> _]]%list_elem_of_fmap. done.
Qed.

Definition rushVectored (g : BossRush.Game.t) : Prop :=
  Forall vectored (BossRush.Game.playerBullets g) /\
  Forall vectored (BossRush.Game.bossBullets g).

Definition stageVectored (g : Stages.Game.t) : Prop :=
  Forall vectored (Stages.Game.playerBullets g) /\
  Forall vectored (Stages.Game.bossBullets g).

Lemma rush_updateBoss_vectored `{JS.HostMath} (patterns : list Patterns.BossPattern.t)
    (perfNow dt : JS.number) (g : BossRush.Game.t) :
  rushVectored g ->
  outcome rushVectored rushVectored (BossRush.updateBoss patterns perfNow dt g).
Proof.
  intros [Hp Hb]. unfold BossRush.updateBoss, rushVectored, BossRush.Game.bossBullets in *.
  destruct (BossRush.Game.boss g) as [b0|] eqn:Hboss; [|simpl; by rewrite Hboss].
  destruct (0 <? length patterns)%nat; [|done].
  destruct (patterns !! _) as [current|]; [|done].
  assert (Hall : Forall vectored
            (Arcade.Boss.bullets b0 ++
             map Arcade.toBullet
               (Patterns.BossPattern.spawn current
                  (Arcade.patternContext
                     (Arcade.Boss.set_x
                        (Canvas.width (BossRush.Game.canvas g) / 2
                         - Arcade.Boss.width b0 / 2
                         + JS.Math_sin (perfNow / 800) * 80) b0)
                     (BossRush.Game.player g)
                     (BossRush.Game.patternElapsed g + dt))))).
  { apply Forall_app. split; [done|apply toBullet_vectored]. }
  destruct (_ >=? _); simpl; done.
Qed.

Lemma rush_updateBullets_vectored (g : BossRush.Game.t) :
  rushVectored g ->
  rushVectored (BossRush.updateBullets g) /\
  BossRush.Game.playerBullets (BossRush.updateBullets g)
  = Arcade.filterMoved vectorStep (Arcade.keepPlayerBullet (BossRush.Game.canvas g))
      (BossRush.Game.playerBullets g) /\
  BossRush.Game.bossBullets (BossRush.updateBullets g)
  = Arcade.filterMoved vectorStep (Arcade.keepBossBullet (BossRush.Game.canvas g))
      (BossRush.Game.bossBullets g).
Proof.
  intros [Hp Hb].
  unfold rushVectored, BossRush.updateBullets, BossRush.Game.playerBullets,
    BossRush.Game.bossBullets in *. simpl.
  destruct (filterMoved_vectored Arcade.movePlayerBullet
              (Arcade.keepPlayerBullet (BossRush.Game.canvas g))
              (Arcade.Player.bullets (BossRush.Game.player g))) as [Heq1 Hall1];
    [intros b; apply vectored_moves|done|].
  destruct (BossRush.Game.boss g) as [b0|]; simpl.
  - destruct (filterMoved_vectored Arcade.moveBossBullet
                (Arcade.keepBossBullet (BossRush.Game.canvas g))
                (Arcade.Boss.bullets b0)) as [Heq2 Hall2];
      [intros b; apply vectored_moves|done|].
    done.
  - done.
Qed.

Lemma rush_updateCollisions_vectored (now : nat -> Z) (g : BossRush.Game.t) :
  rushVectored g ->
  outcome rushVectored rushVectored (BossRush.updateCollisions now g).
Proof.
  intros Hg. unfold BossRush.updateCollisions.
  apply (outcome_andThen rushVectored).
  { unfold BossRush.bulletsVsEnemies, forEach.
    apply forEachFrom_outcome; [|done].
    intros bullet k s _ Hs. unfold forEach.
    apply forEachFrom_outcome; [|done].
    intros enemy j s' _ [Hp Hb]. unfold BossRush.enemyCallback.
    destruct (checkCollision _ _); [|done].
    assert (Hdel : Forall vectored (delete k (BossRush.Game.playerBullets s')))
      by by apply Forall_delete.
    destruct (_ <=? _)%Z; simpl; done. }
  intros g1 Hg1.
  apply (outcome_andThen rushVectored).
  { unfold BossRush.bossBulletsVsPlayer.
    destruct (BossRush.Game.boss g1); [|done].
    unfold forEach. apply forEachFrom_outcome; [|done].
    intros bullet k s _ [Hp Hb]. unfold BossRush.bossBulletCallback.
    destruct (checkCollision _ _); [|done].
    assert (Hdel : Forall vectored (delete k (BossRush.Game.bossBullets s)))
      by by apply Forall_delete.
    assert (Hset : rushVectored
              (BossRush.Game.set_bossBullets (delete k (BossRush.Game.bossBullets s)) s)).
    { split; [done|]. unfold BossRush.Game.bossBullets in *. simpl.
      destruct (BossRush.Game.boss s); simpl; done. }
    destruct (_ >=? _)%Z; [|done].
    match goal with |- context [if ?c then _ else _] => destruct c end; simpl;
      exact Hset. }
  intros g2 Hg2.
  unfold BossRush.bulletsVsBoss.
  destruct (BossRush.Game.boss g2); [|done].
  unfold forEach. apply forEachFrom_outcome; [|done].
  intros bullet k s _ [Hp Hb]. unfold BossRush.bossCallback.
  destruct (BossRush.Game.boss s) as [b|] eqn:Hboss; [|done].
  destruct (checkCollision _ _); [|done].
  assert (Hdel : Forall vectored (delete k (BossRush.Game.playerBullets s)))
    by by apply Forall_delete.
  unfold BossRush.Game.bossBullets in Hb. rewrite Hboss in Hb.
  destruct (_ <=? _)%Z; simpl; split; done.
Qed.

Lemma rush_update_vectored `{JS.HostMath} (patterns : list Patterns.BossPattern.t)
    (input : Arcade.Input.t) (clock : Arcade.Clock.t) (dt : JS.number)
    (g : BossRush.Game.t) :
  rushVectored g ->
  rushVectored (state_of (BossRush.update patterns input clock dt g)).
Proof.
  intros [Hp Hb].
  assert (Hout : outcome rushVectored rushVectored
                   (BossRush.update patterns input clock dt g)).
  { unfold BossRush.update.
    apply (outcome_andThen rushVectored).
    - apply rush_updateBoss_vectored. split; [|done].
      unfold BossRush.Game.playerBullets. simpl. by apply updatePlayer_vectored.
    - intros g2 Hg2. apply rush_updateCollisions_vectored.
      by apply rush_updateBullets_vectored. }
  by destruct (BossRush.update patterns input clock dt g).
Qed.

Lemma stage_updateBoss_vectored `{JS.HostMath}
    (patternSets : list (list Patterns.BossPattern.t))
    (perfNow dt : JS.number) (g : Stages.Game.t) :
  stageVectored g ->
  outcome stageVectored stageVectored (Stages.updateBoss patternSets perfNow dt g).
Proof.
  intros [Hp Hb]. unfold Stages.updateBoss, stageVectored, Stages.Game.bossBullets in *.
  destruct (Stages.Game.boss g) as [b0|] eqn:Hboss; [|simpl; by rewrite Hboss].
  destruct (Stages.at_index _ _) as [patterns|]; [|done].
  destruct (0 <? length patterns)%nat; [|done].
  destruct (patterns !! _) as [current|]; [|done].
  assert (Hall : Forall vectored
            (Arcade.Boss.bullets b0 ++
             map Arcade.toBullet
               (Patterns.BossPattern.spawn current
                  (Arcade.patternContext
                     (Arcade.Boss.set_x
                        (Canvas.width (Stages.Game.canvas g) / 2
                         - Arcade.Boss.width b0 / 2
                         + JS.Math_sin (perfNow / 800) * 80) b0)
                     (Stages.Game.player g)
                     (Stages.Game.patternElapsed g + dt))))).
  { apply Forall_app. split; [done|apply toBullet_vectored]. }
  destruct (_ >=? _); simpl; done.
Qed.

Lemma stage_updateBullets_vectored (g : Stages.Game.t) :
  stageVectored g ->
  stageVectored (Stages.updateBullets g) /\
  Stages.Game.playerBullets (Stages.updateBullets g)
  = Arcade.filterMoved vectorStep (Arcade.keepPlayerBullet (Stages.Game.canvas g))
      (Stages.Game.playerBullets g) /\
  Stages.Game.bossBullets (Stages.updateBullets g)
  = Arcade.filterMoved vectorStep (Arcade.keepBossBullet (Stages.Game.canvas g))
      (Stages.Game.bossBullets g).
Proof.
  intros [Hp Hb].
  unfold stageVectored, Stages.updateBullets, Stages.Game.playerBullets,
    Stages.Game.bossBullets in *. simpl.
  destruct (filterMoved_vectored Arcade.movePlayerBullet
              (Arcade.keepPlayerBullet (Stages.Game.canvas g))
              (Arcade.Player.bullets (Stages.Game.player g))) as [Heq1 Hall1];
    [intros b; apply vectored_moves|done|].
  destruct (Stages.Game.boss g) as [b0|]; simpl.
  - destruct (filterMoved_vectored Arcade.moveBossBullet
                (Arcade.keepBossBullet (Stages.Game.canvas g))
                (Arcade.Boss.bullets b0)) as [Heq2 Hall2];
      [intros b; apply vectored_moves|done|].
    done.
  - done.
Qed.

Lemma stage_walk_vectored (now : nat -> Z) (snapshot : list Arcade.Bullet.t)
    (k : nat) (g : Stages.Game.t) :
  stageVectored g -> stageVectored (Stages.walkBossBullets now snapshot k g).
Proof.
  revert k g. induction snapshot as [|bullet rest IH]; intros k g Hg; simpl; [done|].
  apply IH. unfold Stages.bossBulletCallback.
  destruct (checkCollision _ _); [|done].
  destruct (_ >=? _)%Z; [|done].
  assert (Hset : stageVectored
            (Stages.Game.set_bossBullets []
               (Stages.Game.set_invulnerableUntil (now k + Stages.iFrameDuration)
                  (Stages.Game.set_gameState
                     (Stages.GameState.set_lives (Stages.Game.lives g - 1)
                        (Stages.Game.gameState g)) g)))).
  { destruct Hg as [Hp Hb]. split; [done|].
    unfold Stages.Game.bossBullets. simpl.
    destruct (Stages.Game.boss g); simpl; done. }
  match goal with |- context [if ?c then _ else _] => destruct c end; exact Hset.
Qed.

Lemma stage_bossDefeated_vectored (g : Stages.Game.t) :
  stageVectored g ->
  outcome stageVectored stageVectored (Stages.bossDefeated g).
Proof.
  intros [Hp Hb]. unfold Stages.bossDefeated, Stages.spawnBoss.
  destruct (_ <=? _)%Z; [|by split].
  destruct (Stages.at_index _ _); simpl; by split.
Qed.

Lemma stage_updateCollisions_vectored (now : nat -> Z) (g : Stages.Game.t) :
  stageVectored g ->
  outcome stageVectored stageVectored (Stages.updateCollisions now g).
Proof.
  intros Hg. unfold Stages.updateCollisions.
  apply (outcome_andThen stageVectored).
  { unfold Stages.bulletsVsEnemies, forEach.
    apply forEachFrom_outcome; [|done].
    intros bullet k s _ Hs. unfold forEach.
    apply forEachFrom_outcome; [|done].
    intros enemy j s' _ [Hp Hb]. unfold Stages.enemyCallback.
    destruct (checkCollision _ _); [|done].
    assert (Hdel : Forall vectored (delete k (Stages.Game.playerBullets s')))
      by by apply Forall_delete.
    destruct (_ <=? _)%Z; simpl; done. }
  intros g1 Hg1.
  apply (outcome_andThen stageVectored).
  { simpl. unfold Stages.bossBulletsVsPlayer.
    destruct (Stages.Game.boss g1); [|done]. by apply stage_walk_vectored. }
  intros g2 Hg2.
  unfold Stages.bulletsVsBoss.
  destruct (Stages.Game.boss g2); [|done].
  unfold forEach. apply forEachFrom_outcome; [|done].
  intros bullet k s _ [Hp Hb]. unfold Stages.bossCallback.
  destruct (Stages.Game.boss s) as [b|] eqn:Hboss; [|done].
  destruct (checkCollision _ _); [|done].
  assert (Hdel : Forall vectored (delete k (Stages.Game.playerBullets s)))
    by by apply Forall_delete.
  unfold Stages.Game.bossBullets in Hb. rewrite Hboss in Hb.
  destruct (_ <=? _)%Z; [apply stage_bossDefeated_vectored|]; by split.
Qed.

Lemma stage_update_vectored `{JS.HostMath}
    (patternSets : list (list Patterns.BossPattern.t))
    (input : Arcade.Input.t) (clock : Arcade.Clock.t) (dt : JS.number)
    (g : Stages.Game.t) :
  stageVectored g ->
  stageVectored (state_of (Stages.update patternSets input clock dt g)).
Proof.
  intros [Hp Hb].
  assert (Hout : outcome stageVectored stageVectored
                   (Stages.update patternSets input clock dt g)).
  { unfold Stages.update.
    apply (outcome_andThen stageVectored).
    - apply stage_updateBoss_vectored. split; [|done].
      unfold Stages.Game.playerBullets. simpl. by apply updatePlayer_vectored.
    - intros g2 Hg2. apply stage_updateCollisions_vectored.
      by apply stage_updateBullets_vectored. }
  by destruct (Stages.update patternSets input clock dt g).
Qed.

(** X8.  In both boss games every bullet in flight carries a velocity
    vector: a game starts with empty pools, and whatever the keys, the clock
    and the playlist, a frame leaves in the two pools only bullets that have
    both [vx] and [vy] ([playerShoot] and the pattern bullets of [updateBoss]
    are created with them, and nothing else adds a bullet).  So the scalar
    fallback of [updateBullets] ([y -= speed], [y += speed]) is never taken
    in play: on such a state the pass moves every bullet by its vector. *)
Theorem boss_game_bullets_always_vectored `{JS.HostMath} :
  (forall (c : Canvas.t), rushVectored (BossRush.startGame (BossRush.create c))) /\
  (forall patterns input clock dt (g : BossRush.Game.t),
     rushVectored g ->
     rushVectored (state_of (BossRush.update patterns input clock dt g)) /\
     BossRush.Game.playerBullets (BossRush.updateBullets g)
     = Arcade.filterMoved vectorStep (Arcade.keepPlayerBullet (BossRush.Game.canvas g))
         (BossRush.Game.playerBullets g) /\
     BossRush.Game.bossBullets (BossRush.updateBullets g)
     = Arcade.filterMoved vectorStep (Arcade.keepBossBullet (BossRush.Game.canvas g))
         (BossRush.Game.bossBullets g)) /\
  (forall (c : Canvas.t),
     stageVectored (state_of (Stages.startGame (Stages.create c)))) /\
  (forall patternSets input clock dt (g : Stages.Game.t),
     stageVectored g ->
     stageVectored (state_of (Stages.update patternSets input clock dt g)) /\
     Stages.Game.playerBullets (Stages.updateBullets g)
     = Arcade.filterMoved vectorStep (Arcade.keepPlayerBullet (Stages.Game.canvas g))
         (Stages.Game.playerBullets g) /\
     Stages.Game.bossBullets (Stages.updateBullets g)
     = Arcade.filterMoved vectorStep (Arcade.keepBossBullet (Stages.Game.canvas g))
         (Stages.Game.bossBullets g)).
Proof.
  split; [|split; [|split]].
  - intros c. by split.
  - intros patterns input clock dt g Hg.
    split; [by apply rush_update_vectored|].
    by apply rush_updateBullets_vectored.
  - intros c. by split.
  - intros patternSets input clock dt g Hg.
    split; [by apply stage_update_vectored|].
    by apply stage_updateBullets_vectored.
Qed.

Lemma boss_game_bullets_witness :
  let clock := Arcade.Clock.mk 5000 5000 5000 (fun _ => 5000%Z) in
  let input := Arcade.Input.mk false false true false false false false false true false in
  let g0 := BossRush.startGame (BossRush.create Sample.canvas) in
  let g1 := state_of (BossRush.update (H := Sample.host) [Sample.idle 5000] input clock 16 g0) in
  rushVectored g1 /\
  length (BossRush.Game.playerBullets g1) = 2%nat.
Proof.
  intros clock input g0 g1. split; [|vm_compute; reflexivity].
  apply (proj1 (proj2 (boss_game_bullets_always_vectored (H := Sample.host)))).
  apply (proj1 (boss_game_bullets_always_vectored (H := Sample.host))).
Defined.

(** ** The only [TypeError] a frame of the boss games can raise *)

(** The single-boss game after its boss has fallen. *)
Definition rushOver (s : BossRush.Game.t) : Prop :=
  BossRush.Game.boss s = None /\
  BossRush.Game.isRunning s = false /\
  BossRush.Game.overlayHidden s = false.

(** The three-boss game after its last boss has fallen. *)
Definition stagesWon (s : Stages.Game.t) : Prop :=
  Stages.Game.boss s = None /\
  Stages.Game.isRunning s = false /\
  Stages.Game.overlayTitle s = "Victory!"%string.

(** The stage counter stays on the three configured stages while a boss
    is on screen. *)
Definition wellStaged (s : Stages.Game.t) : Prop :=
  Stages.Game.maxStage s = 3%Z /\
  (1 <= Stages.Game.stage s)%Z /\
  (Stages.Game.boss s <> None -> (Stages.Game.stage s <= 3)%Z).

Lemma playlist_lookup {A} (patterns : list A) (i : nat) :
  (0 < length patterns)%nat ->
  is_Some (patterns !! (i mod length patterns)%nat).
Proof.
  intros Hlen. apply lookup_lt_is_Some_2. apply Nat.mod_upper_bound. lia.
Qed.

Lemma rush_updateBoss_returns `{JS.HostMath} (patterns : list Patterns.BossPattern.t)
    (perfNow dt : JS.number) (g : BossRush.Game.t) :
  exists g', BossRush.updateBoss patterns perfNow dt g = Normal g'.
Proof.
  unfold BossRush.updateBoss.
  destruct (BossRush.Game.boss g) as [b0|]; [|by eexists].
  destruct (Nat.ltb_spec 0 (length patterns)) as [Hlen|_]; [|by eexists].
  destruct (playlist_lookup patterns (BossRush.Game.patternIndex g) Hlen)
    as [current ->].
  destruct (_ >=? _); by eexists.
Qed.

Lemma rush_update_outcome `{JS.HostMath} (patterns : list Patterns.BossPattern.t)
    (input : Arcade.Input.t) (clock : Arcade.Clock.t) (dt : JS.number)
    (g : BossRush.Game.t) :
  outcome (fun _ => True) rushOver (BossRush.update patterns input clock dt g).
Proof.
  unfold BossRush.update.
  match goal with |- context [BossRush.updateBoss ?p ?t ?d ?g0] =>
    destruct (rush_updateBoss_returns p t d g0) as [g2 ->] end.
  simpl. unfold BossRush.updateCollisions.
  apply (outcome_andThen (fun _ => True)).
  { unfold BossRush.bulletsVsEnemies, forEach.
    apply forEachFrom_outcome; [|done].
    intros bullet k s _ _. unfold forEach.
    apply forEachFrom_outcome; [|done].
    intros enemy j s' _ _. unfold BossRush.enemyCallback.
    destruct (checkCollision _ _); [|done].
    destruct (_ <=? _)%Z; done. }
  intros g3 _.
  apply (outcome_andThen (fun _ => True)).
  { unfold BossRush.bossBulletsVsPlayer.
    destruct (BossRush.Game.boss g3); [|done].
    unfold forEach. apply forEachFrom_outcome; [|done].
    intros bullet k s _ _. unfold BossRush.bossBulletCallback.
    destruct (checkCollision _ _); [|done].
    destruct (_ >=? _)%Z; [|done].
    match goal with |- context [if ?c then _ else _] => destruct c end; done. }
  intros g4 _.
  unfold BossRush.bulletsVsBoss.
  destruct (BossRush.Game.boss g4) eqn:Hboss4; [|done].
  unfold forEach.
  assert (Hloop : outcome (fun s => BossRush.Game.boss s = None -> rushOver s) rushOver
            (forEachFrom BossRush.Game.playerBullets BossRush.bossCallback
               (length (BossRush.Game.playerBullets g4)) 0 g4)).
  { apply forEachFrom_outcome; [|by rewrite Hboss4].
    intros bullet k s _ Hs. unfold BossRush.bossCallback.
    destruct (BossRush.Game.boss s) as [b|] eqn:Hboss; [|by apply Hs].
    destruct (checkCollision _ _); [|simpl; by rewrite Hboss].
    destruct (_ <=? _)%Z; simpl; done. }
  by destruct (forEachFrom _ _ _ _ _).
Qed.

Lemma stage_updateBoss_outcome `{JS.HostMath} (perfNow dt : JS.number)
    (g : Stages.Game.t) :
  wellStaged g ->
  outcome wellStaged (fun _ => False) (Stages.updateBoss Stages.patternSets perfNow dt g).
Proof.
  intros Hg. pose proof Hg as (Hmax & Hlo & Hhi). unfold Stages.updateBoss.
  destruct (Stages.Game.boss g) as [b0|] eqn:Hboss; [|done].
  assert (Hstage : (Stages.Game.stage g <= 3)%Z) by by apply Hhi.
  assert (Hcases : Stages.Game.stage g = 1%Z \/ Stages.Game.stage g = 2%Z
                   \/ Stages.Game.stage g = 3%Z) by lia.
  assert (Hsets : exists patterns,
            Stages.at_index Stages.patternSets (Stages.Game.stage g - 1) = Some patterns).
  { destruct Hcases as [-> | [-> | ->]]; eexists; reflexivity. }
  destruct Hsets as [patterns ->].
  destruct (Nat.ltb_spec 0 (length patterns)) as [Hlen|_]; [|done].
  destruct (playlist_lookup patterns (Stages.Game.patternIndex g) Hlen)
    as [current ->].
  destruct (_ >=? _); simpl; done.
Qed.

Lemma stage_walk_wellStaged (now : nat -> Z) (snapshot : list Arcade.Bullet.t)
    (k : nat) (g : Stages.Game.t) :
  wellStaged g -> wellStaged (Stages.walkBossBullets now snapshot k g).
Proof.
  revert k g. induction snapshot as [|bullet rest IH]; intros k g Hg; simpl; [done|].
  apply IH. unfold Stages.bossBulletCallback.
  destruct (checkCollision _ _); [|done].
  destruct (_ >=? _)%Z; [|done].
  destruct Hg as (Hmax & Hlo & Hhi).
  match goal with |- context [if ?c then _ else _] => destruct c end;
    (split; [done|]; split; [done|]); simpl; intros Hsome; apply Hhi;
    by destruct (Stages.Game.boss g).
Qed.

Lemma stage_bossCallback_outcome (bullet : Arcade.Bullet.t) (k : nat)
    (s : Stages.Game.t) :
  wellStaged s /\ (Stages.Game.boss s = None -> stagesWon s) ->
  outcome (fun s' => wellStaged s' /\ (Stages.Game.boss s' = None -> stagesWon s'))
          (fun s' => wellStaged s' /\ stagesWon s')
          (Stages.bossCallback bullet k s).
Proof.
  intros [Hs Hwon]. unfold Stages.bossCallback.
  destruct (Stages.Game.boss s) as [b|] eqn:Hboss; [|simpl; split; [done|by apply Hwon]].
  destruct (checkCollision _ _); [|simpl; by rewrite Hboss].
  destruct Hs as (Hmax & Hlo & Hhi).
  assert (Hstage : (Stages.Game.stage s <= 3)%Z) by (apply Hhi; by rewrite Hboss).
  destruct (_ <=? _)%Z; [|simpl; split; [done|done]].
  match goal with |- context [Stages.bossDefeated ?g0] => set (g2 := g0) end.
  assert (Hst2 : Stages.Game.stage g2 = Stages.Game.stage s) by done.
  assert (Hmx2 : Stages.Game.maxStage g2 = Stages.Game.maxStage s) by done.
  destruct (Z.lt_ge_cases (Stages.Game.stage s) 3) as [Hlt|Hge].
  - destruct (bossDefeated_next g2) as (h & _ & ->); [lia|lia|lia|].
    simpl. split; [|done]. unfold wellStaged, Stages.Game.stage, Stages.Game.maxStage in *.
    simpl. split; [done|]. split; intros; lia.
  - rewrite (bossDefeated_last g2) by lia.
    simpl. split; [|done]. unfold wellStaged, Stages.Game.stage, Stages.Game.maxStage in *.
    simpl. split; [done|]. split; [lia|done].
Qed.

Lemma stage_update_outcome `{JS.HostMath} (input : Arcade.Input.t)
    (clock : Arcade.Clock.t) (dt : JS.number) (g : Stages.Game.t) :
  wellStaged g ->
  outcome wellStaged (fun s => wellStaged s /\ stagesWon s)
          (Stages.update Stages.patternSets input clock dt g).
Proof.
  intros Hg. unfold Stages.update.
  match goal with |- context [Stages.updateBoss ?p ?t ?d ?g0] =>
    pose proof (stage_updateBoss_outcome t d g0 Hg) as Hboss;
    destruct (Stages.updateBoss p t d g0) as [g2|g2] end; [|done].
  simpl in Hboss. simpl.
  assert (Hmoved : wellStaged (Stages.updateBullets g2)).
  { destruct Hboss as (Hmax & Hlo & Hhi). split; [done|]. split; [done|].
    simpl. intros Hsome. apply Hhi. by destruct (Stages.Game.boss g2). }
  unfold Stages.updateCollisions.
  apply (outcome_andThen wellStaged).
  { unfold Stages.bulletsVsEnemies, forEach.
    apply forEachFrom_outcome; [|done].
    intros bullet k s _ Hs. unfold forEach.
    apply forEachFrom_outcome; [|done].
    intros enemy j s' _ Hs'. unfold Stages.enemyCallback.
    destruct (checkCollision _ _); [|done].
    destruct (_ <=? _)%Z; done. }
  intros g3 Hg3. simpl.
  assert (Hg4 : wellStaged (Stages.bossBulletsVsPlayer (Arcade.Clock.hitAt clock) g3)).
  { unfold Stages.bossBulletsVsPlayer.
    destruct (Stages.Game.boss g3); [|done]. by apply stage_walk_wellStaged. }
  set (g4 := Stages.bossBulletsVsPlayer (Arcade.Clock.hitAt clock) g3) in *.
  unfold Stages.bulletsVsBoss.
  destruct (Stages.Game.boss g4) eqn:Hboss4; [|done].
  unfold forEach.
  assert (Hloop : outcome
            (fun s' => wellStaged s' /\ (Stages.Game.boss s' = None -> stagesWon s'))
            (fun s' => wellStaged s' /\ stagesWon s')
            (forEachFrom Stages.Game.playerBullets Stages.bossCallback
               (length (Stages.Game.playerBullets g4)) 0 g4)).
  { apply forEachFrom_outcome; [|by rewrite Hboss4].
    intros bullet k s _ Hs. by apply stage_bossCallback_outcome. }
  destruct (forEachFrom _ _ _ _ _); simpl in *; [by destruct Hloop|done].
Qed.

(** X9.  A frame of the boss games ends in a [TypeError] only in the
    aftermath of the final blow.  In the single-boss game, whatever the
    state, keys, clock and playlist, [update] either returns or throws with
    the boss gone, the game stopped and the overlay shown.  In the
    three-boss game the stage counter stays on the three configured stages
    while a boss is on screen ([startGame] establishes this and every frame
    keeps it), so neither [bossConfigs[stage - 1]] nor the playlist of the
    stage is ever [undefined] in play; [update] either returns or throws
    with the last boss gone, the game stopped and the title "Victory!". *)
Theorem frame_throws_only_after_the_last_boss `{JS.HostMath} :
  (forall patterns input clock dt (g : BossRush.Game.t),
     match BossRush.update patterns input clock dt g with
     | Normal _ => True
     | Throw g' => rushOver g'
     end) /\
  (forall g : Stages.Game.t,
     Stages.Game.maxStage g = 3%Z ->
     exists g0, Stages.startGame g = Normal g0 /\ wellStaged g0) /\
  (forall input clock dt (g : Stages.Game.t),
     wellStaged g ->
     match Stages.update Stages.patternSets input clock dt g with
     | Normal g' => wellStaged g'
     | Throw g' => wellStaged g' /\ stagesWon g'
     end).
Proof.
  split; [|split].
  - intros patterns input clock dt g.
    apply (rush_update_outcome patterns input clock dt g).
  - intros g Hmax. eexists. split; [reflexivity|].
    unfold wellStaged, Stages.Game.maxStage, Stages.Game.stage in *. simpl.
    split; [done|]. split; [lia|intros _; lia].
  - intros input clock dt g Hg.
    apply (stage_update_outcome input clock dt g Hg).
Qed.

Lemma frame_safety_witness :
  let clock := Arcade.Clock.mk 5000 5000 5000 (fun _ => 5000%Z) in
  let input := Arcade.Input.mk false false true false false false false false true false in
  let g0 := state_of (Stages.startGame (Stages.create Sample.canvas)) in
  match Stages.update (H := Sample.host) (Stages.patternSets (H := Sample.host))
          input clock 16 g0 with
  | Normal g' => wellStaged g'
  | Throw g' => wellStaged g' /\ stagesWon g'
  end.
Proof.
  intros clock input g0.
  apply (proj2 (proj2 (frame_throws_only_after_the_last_boss (H := Sample.host)))).
  split; [reflexivity|]. split; [vm_compute; discriminate|].
  intros _. vm_compute. discriminate.
Defined.

(** ** Every bullet of the scroller carries a velocity vector *)

Definition flying (b : Scroller.Bullet.t) : Prop :=
  JS.isNumber (Scroller.Bullet.vx b) = true /\
  JS.isNumber (Scroller.Bullet.vy b) = true.

(** Every bullet of every pool has both [vx] and [vy]. *)
Definition allFlying (g : Scroller.Game.t) : Prop :=
  Forall flying (Scroller.Game.playerBullets g) /\
  Forall (fun e => Forall flying (Scroller.Enemy.bullets e)) (Scroller.Game.enemies g) /\
  Forall flying (Scroller.Game.orphanBullets g) /\
  Forall flying (Scroller.Game.bossBullets g).

Lemma Forall_fmap_flying {A} (f : A -> Scroller.Bullet.t) (l : list A) :
  (forall a, flying (f a)) -> Forall flying (map f l).
Proof.
  intros Hf. apply Forall_forall. intros b [a [-> _]]%list_elem_of_fmap. apply Hf.
Qed.

Lemma Forall_flat_map_flying {A} (f : A -> list Scroller.Bullet.t) (l : list A) :
  (forall a, Forall flying (f a)) -> Forall flying (flat_map f l).
Proof.
  intros Hf. induction l as [|a l IH]; simpl; [done|].
  apply Forall_app. split; [apply Hf|done].
Qed.

Lemma updatePool_flying (c : Canvas.t) (l : list Scroller.Bullet.t) :
  Forall flying l -> Forall flying (Scroller.updatePool c l).
Proof.
  intros Hl. induction Hl as [|b l Hb Hl IH]; simpl; [done|].
  destruct (Scroller.offCanvas c (Scroller.moveBullet b)); [done|].
  by constructor.
Qed.

Lemma scroller_playerShoot_pushes (now : JS.number) (boss : option Scroller.Boss.t)
    (enemies : list Scroller.Enemy.t) (p : Scroller.Player.t) :
  exists pushed,
    Scroller.Player.bullets (Scroller.playerShoot now boss enemies p)
    = Scroller.Player.bullets p ++ pushed /\
    Forall flying pushed /\
    (length pushed = 0%nat \/ length pushed = 5%nat).
Proof.
  unfold Scroller.playerShoot.
  destruct (_ <? _).
  - exists []. rewrite app_nil_r. repeat split; try done. by left.
  - eexists. split; [reflexivity|]. split; [|by right].
    repeat constructor.
Qed.

Lemma scroller_movePlayer_keeps (c : Canvas.t) (input : Arcade.Input.t)
    (p : Scroller.Player.t) :
  Scroller.Player.bullets (Scroller.movePlayer c input p) = Scroller.Player.bullets p /\
  Scroller.Player.lastShot (Scroller.movePlayer c input p) = Scroller.Player.lastShot p /\
  Scroller.Player.shootCooldown (Scroller.movePlayer c input p)
  = Scroller.Player.shootCooldown p.
Proof.
  unfold Scroller.movePlayer.
  repeat match goal with
         | |- context [if ?c then _ else _] => destruct c
         end; done.
Qed.

Lemma scroller_updatePlayer_flying (input : Arcade.Input.t) (now : JS.number)
    (g : Scroller.Game.t) :
  allFlying g -> allFlying (Scroller.updatePlayer input now g).
Proof.
  intros (Hp & He & Ho & Hb). unfold Scroller.updatePlayer.
  split; [|done].
  unfold Scroller.Game.playerBullets in *. simpl.
  destruct (scroller_movePlayer_keeps (Scroller.Game.canvas g) input
              (Scroller.Game.player g)) as (Hkeep & _).
  destruct (Arcade.Input.isShootingHeld input); [|by rewrite Hkeep].
  destruct (scroller_playerShoot_pushes now (Scroller.Game.boss g)
              (Scroller.Game.enemies g)
              (Scroller.movePlayer (Scroller.Game.canvas g) input (Scroller.Game.player g)))
    as (pushed & -> & Hpushed & _).
  rewrite Hkeep. by apply Forall_app.
Qed.

Lemma scroller_updateBullets_flying (g : Scroller.Game.t) :
  allFlying g -> allFlying (Scroller.updateBullets g).
Proof.
  intros (Hp & He & Ho & Hb). unfold Scroller.updateBullets, allFlying.
  unfold Scroller.Game.playerBullets, Scroller.Game.bossBullets in *. simpl.
  split; [by apply updatePool_flying|].
  split.
  { apply Forall_forall. intros e [e0 [-> Hin]]%list_elem_of_fmap. simpl.
    apply updatePool_flying. rewrite Forall_forall in He. by apply He. }
  split; [by apply updatePool_flying|].
  destruct (Scroller.Game.boss g); simpl; [by apply updatePool_flying|done].
Qed.

Lemma enemyShoot_flying `{JS.HostMath} (now : JS.number) (random : nat -> JS.number)
    (p : Scroller.Player.t) (enemy : Scroller.Enemy.t) :
  Forall flying (Scroller.Enemy.bullets enemy) ->
  Forall flying (Scroller.Enemy.bullets (Scroller.enemyShoot now random p enemy)).
Proof.
  intros He. unfold Scroller.enemyShoot. simpl.
  apply Forall_app. split; [done|].
  repeat match goal with
         | |- context [if ?c then _ else _] => destruct c
         end;
    first [by repeat constructor | by apply Forall_fmap_flying].
Qed.

Lemma stepEnemy_flying `{JS.HostMath} (now : JS.number) (random : nat -> JS.number)
    (p : Scroller.Player.t) (enemy : Scroller.Enemy.t) :
  Forall flying (Scroller.Enemy.bullets enemy) ->
  Forall flying (Scroller.Enemy.bullets (Scroller.stepEnemy now random p enemy)).
Proof.
  intros He. destruct (moveEnemy_keeps now enemy) as [Hb _].
  unfold Scroller.stepEnemy.
  match goal with |- context [if ?c then _ else _] => destruct c end.
  - simpl. apply enemyShoot_flying. by rewrite Hb.
  - by rewrite Hb.
Qed.

Lemma updateUI_flying (g : Scroller.Game.t) :
  allFlying g -> allFlying (Scroller.updateUI g).
Proof.
  unfold Scroller.updateUI. by destruct (_ >=? _)%Z.
Qed.

Lemma walkEnemies_flying `{JS.HostMath} (now : JS.number)
    (random : nat -> nat -> JS.number) (es : list Scroller.Enemy.t) (i : nat)
    (g : Scroller.Game.t) :
  allFlying g ->
  Forall (fun e => Forall flying (Scroller.Enemy.bullets e)) es ->
  Forall (fun e => Forall flying (Scroller.Enemy.bullets e))
         (fst (Scroller.walkEnemies now random i es g)) /\
  allFlying (snd (Scroller.walkEnemies now random i es g)).
Proof.
  intros Hg Hes. revert i. induction Hes as [|e0 rest He0 Hrest IH]; intros i; simpl.
  { done. }
  specialize (IH (S i)).
  destruct (Scroller.walkEnemies now random (S i) rest g) as [kept g1].
  simpl in IH. destruct IH as [Hkept Hg1].
  pose proof (stepEnemy_flying now (random i) (Scroller.Game.player g1) e0 He0) as Hstep.
  destruct (_ || _).
  - destruct (_ <=? _)%Z; simpl; [|done].
    split; [done|]. apply updateUI_flying.
    destruct Hg1 as (Hp & He & Ho & Hb).
    split; [done|]. split; [done|]. split; [|done].
    simpl. by apply Forall_app.
  - simpl. split; [by constructor|done].
Qed.

Lemma scroller_updateEnemies_flying `{JS.HostMath} (now : JS.number)
    (random : nat -> nat -> JS.number) (g : Scroller.Game.t) :
  allFlying g -> allFlying (Scroller.updateEnemies now random g).
Proof.
  intros Hg. unfold Scroller.updateEnemies.
  destruct (walkEnemies_flying now random (Scroller.Game.enemies g) 0 g Hg)
    as [Hkept Hg1]; [by destruct Hg as (_ & He & _)|].
  destruct (Scroller.walkEnemies now random 0 (Scroller.Game.enemies g) g) as [kept g1].
  simpl in *. destruct Hg1 as (Hp & _ & Ho & Hb). done.
Qed.

Lemma bossShoot_flying `{JS.HostMath} (now : JS.number) (random : nat -> JS.number)
    (p : Scroller.Player.t) (boss : Scroller.Boss.t) :
  Forall flying (Scroller.Boss.bullets boss) ->
  Forall flying (Scroller.Boss.bullets (Scroller.bossShoot now random p boss)).
Proof.
  intros Hb. unfold Scroller.bossShoot. cbv zeta.
  unfold Scroller.Boss.set_bullets. cbn [Scroller.Boss.bullets].
  apply Forall_app. split; [done|].
  repeat match goal with
         | |- Forall flying (if ?c then _ else _) => destruct c
         end;
    first [ by apply Forall_fmap_flying
          | apply Forall_flat_map_flying; intros a;
            first [by repeat constructor | by apply Forall_fmap_flying]
          | apply Forall_fmap_flying; by intros [i k] ].
Qed.

Lemma moveBoss_bullets `{JS.HostMath} (now : JS.number) (c : Canvas.t)
    (boss : Scroller.Boss.t) :
  Scroller.Boss.bullets (Scroller.moveBoss now c boss) = Scroller.Boss.bullets boss /\
  Scroller.Boss.health (Scroller.moveBoss now c boss) = Scroller.Boss.health boss /\
  Scroller.Boss.width (Scroller.moveBoss now c boss) = Scroller.Boss.width boss.
Proof.
  unfold Scroller.moveBoss.
  repeat match goal with
         | |- context [if ?c then _ else _] => destruct c
         end; done.
Qed.

Lemma scroller_updateBoss_flying `{JS.HostMath} (now : JS.number)
    (random : nat -> JS.number) (w : Scroller.Session.t) :
  allFlying (Scroller.Session.game w) ->
  allFlying (Scroller.Session.game (Scroller.updateBoss now random w)).
Proof.
  intros Hg. pose proof Hg as (Hp & He & Ho & Hb). unfold Scroller.updateBoss.
  destruct (Scroller.Game.boss (Scroller.Session.game w)) as [boss0|] eqn:Hboss; [|done].
  unfold Scroller.Game.bossBullets in Hb. rewrite Hboss in Hb.
  destruct (moveBoss_bullets now (Scroller.Game.canvas (Scroller.Session.game w)) boss0)
    as (Hmoved & _).
  match goal with |- context [Scroller.Game.set_boss (Some ?b) _] => set (b4 := b) end.
  assert (Hb4 : Forall flying (Scroller.Boss.bullets b4)).
  { subst b4. match goal with |- context [if ?c then _ else _] => destruct c end.
    - apply (bossShoot_flying now random). exact (eq_ind_r (Forall flying) Hb Hmoved).
    - exact (eq_ind_r (Forall flying) Hb Hmoved). }
  assert (Hg1 : allFlying (Scroller.Game.set_boss (Some b4) (Scroller.Session.game w))).
  { split; [done|]. split; [done|]. split; [done|]. done. }
  destruct (_ <=? _)%Z; [|done].
  simpl. unfold Scroller.showGameOver, Scroller.updateUI.
  match goal with |- context [if ?c then _ else _] => destruct c end; simpl; done.
Qed.

Lemma scroller_stage_flying `{JS.HostMath} (dt now : JS.number)
    (random : nat -> JS.number) (w : Scroller.Session.t) :
  allFlying (Scroller.Session.game w) ->
  allFlying (Scroller.Session.game
               (Scroller.spawnEnemies dt now random
                  (Scroller.Session.set_game
                     (Scroller.updateScroll now (Scroller.Session.game w)) w))).
Proof.
  intros (Hp & He & Ho & Hb).
  assert (Hscroll : allFlying (Scroller.updateScroll now (Scroller.Session.game w))).
  { unfold Scroller.updateScroll.
    destruct (_ >? _); [done|]. destruct (negb _); [|done].
    split; [done|]. split; [done|]. split; [done|].
    unfold Scroller.Game.bossBullets. simpl. done. }
  unfold Scroller.spawnEnemies.
  match goal with |- context [if ?c then _ else _] => destruct c end; [|done].
  simpl.
  match goal with |- context [if ?c then _ else _] => destruct c end;
    [|match goal with |- context [if ?c then _ else _] => destruct c end];
    simpl; destruct Hscroll as (Hp' & He' & Ho' & Hb');
    (split; [done|]; split; [|done]);
    (apply Forall_app; split; [done|]; by repeat constructor).
Qed.

Lemma playerHit_flying (g : Scroller.Game.t) :
  allFlying g -> allFlying (Scroller.playerHit g).
Proof.
  intros (Hp & _). destruct (scroller_playerHit g) as (_ & Ho & Hb & He).
  split.
  { unfold Scroller.playerHit, Scroller.updateUI, Scroller.showGameOver.
    repeat match goal with
           | |- context [if ?c then _ else _] => destruct c
           end; done. }
  simpl in *. rewrite Ho, Hb. split; [|done].
  eapply Forall_impl; [exact He|]. intros e ->. done.
Qed.

Lemma scroller_checkCollisions_flying (g : Scroller.Game.t) :
  allFlying g -> allFlying (Scroller.checkCollisions g).
Proof.
  intros Hg. unfold Scroller.checkCollisions.
  set (cx := Scroller.playerCenterX g). set (cy := Scroller.playerCenterY g).
  assert (H1 : allFlying (Scroller.bulletsVsEnemies g)).
  { unfold Scroller.bulletsVsEnemies. apply forOf_invariant; [|done].
    intros bullet k s (Hp & He & Ho & Hb). unfold Scroller.enemyLoopBody.
    destruct (Scroller.hitFirstEnemy bullet (Scroller.Game.enemies s)) as [es'|] eqn:Hfirst;
      simpl; [|done].
    destruct (hitFirstEnemy_first _ _ _ Hfirst) as (pre & enemy & post & Hes & -> & _ & _).
    split; [by apply Forall_delete|]. split; [|done].
    simpl. rewrite Hes in He. apply Forall_app in He as [Hpre Hpost].
    apply Forall_app. split; [done|].
    apply Forall_cons in Hpost as [Henemy Hpost]. by constructor. }
  assert (H2 : allFlying (Scroller.bulletsVsBoss (Scroller.bulletsVsEnemies g))).
  { unfold Scroller.bulletsVsBoss.
    destruct (Scroller.Game.boss (Scroller.bulletsVsEnemies g)); [|done].
    apply forOf_invariant; [|done].
    intros bullet k s (Hp & He & Ho & Hb). unfold Scroller.bossLoopBody.
    destruct (Scroller.Game.boss s) as [b|] eqn:Hboss; [|done].
    destruct (checkCollision _ _); [|done]. simpl.
    split; [by apply Forall_delete|]. split; [done|]. split; [done|].
    unfold Scroller.Game.bossBullets in *. rewrite Hboss in Hb. done. }
  set (g2 := Scroller.bulletsVsBoss (Scroller.bulletsVsEnemies g)) in *.
  assert (H3 : allFlying (Scroller.enemyBulletsVsPlayer cx cy g2)).
  { unfold Scroller.enemyBulletsVsPlayer. apply forOf_invariant; [|done].
    intros enemy k s Hs. unfold Scroller.enemyBulletsBody.
    destruct (existsb _ _); [|done]. simpl. by apply playerHit_flying. }
  set (g3 := Scroller.enemyBulletsVsPlayer cx cy g2) in *.
  assert (H4 : allFlying (Scroller.orphansVsPlayer cx cy g3)).
  { unfold Scroller.orphansVsPlayer.
    destruct (existsb _ _); [|done]. by apply playerHit_flying. }
  set (g4 := Scroller.orphansVsPlayer cx cy g3) in *.
  unfold Scroller.bossBulletsVsPlayer.
  destruct (Scroller.Game.boss g4); [|done].
  destruct (existsb _ _); [|done]. by apply playerHit_flying.
Qed.

Lemma scroller_update_flying `{JS.HostMath} (dt : JS.number) (f : Scroller.Frame.t)
    (w : Scroller.Session.t) :
  allFlying (Scroller.Session.game w) ->
  allFlying (Scroller.Session.game (Scroller.update dt f w)).
Proof.
  intros Hw. unfold Scroller.update.
  match goal with |- context [Scroller.updateEnemies ?t ?r ?g0] =>
    assert (H3 : allFlying (Scroller.updateEnemies t r g0));
    [|set (g3 := Scroller.updateEnemies t r g0) in *] end.
  { by apply scroller_updateEnemies_flying, scroller_updateBullets_flying,
      scroller_updatePlayer_flying. }
  cbn [Scroller.Session.game Scroller.Session.set_game].
  apply scroller_checkCollisions_flying.
  destruct (negb _).
  - apply (scroller_stage_flying dt (Scroller.Frame.stageNow f)
             (Scroller.Frame.stageRandom f) (Scroller.Session.set_game g3 w)). done.
  - by apply scroller_updateBoss_flying.
Qed.

(** On a bullet that has both components the pool update adds two
    numbers the bullet holds: no [undefined] reaches the addition. *)
Lemma flying_moves (b : Scroller.Bullet.t) :
  flying b ->
  exists vx vy,
    Scroller.Bullet.vx b = Some vx /\ Scroller.Bullet.vy b = Some vy /\
    Scroller.Bullet.x (Scroller.moveBullet b) = Scroller.Bullet.x b + vx /\
    Scroller.Bullet.y (Scroller.moveBullet b) = Scroller.Bullet.y b + vy.
Proof.
  intros [Hx Hy]. unfold Scroller.moveBullet.
  destruct (Scroller.Bullet.vx b) as [vx|] eqn:Hvx; [|done].
  destruct (Scroller.Bullet.vy b) as [vy|] eqn:Hvy; [|done].
  exists vx, vy. simpl. by rewrite Hvy.
Qed.

(** X10.  In the scroller every bullet in flight carries a velocity vector.
    [startGame] empties all pools and runs the first frame; every frame,
    whatever the keys, the clock readings and the random draws, leaves in
    the player's pool, in each enemy's list, in the orphan pool and in the
    boss's list only bullets that have both [vx] and [vy].  So the
    additions [x += vx!] and [y += vy!] of [updateBullets], which have no
    fallback, never meet [undefined] in play. *)
Theorem scroller_bullets_always_vectored `{JS.HostMath} :
  (forall (perfNow : JS.number) (f : Scroller.Frame.t) (w : Scroller.Session.t),
     allFlying (Scroller.Session.game (fst (Scroller.startGame perfNow f w)))) /\
  (forall (dt : JS.number) (f : Scroller.Frame.t) (w : Scroller.Session.t),
     allFlying (Scroller.Session.game w) ->
     allFlying (Scroller.Session.game (Scroller.update dt f w))) /\
  (forall b : Scroller.Bullet.t,
     flying b ->
     exists vx vy,
       Scroller.Bullet.vx b = Some vx /\ Scroller.Bullet.vy b = Some vy /\
       Scroller.Bullet.x (Scroller.moveBullet b) = Scroller.Bullet.x b + vx /\
       Scroller.Bullet.y (Scroller.moveBullet b) = Scroller.Bullet.y b + vy).
Proof.
  split; [|split].
  - intros perfNow f w. unfold Scroller.startGame, Scroller.gameLoop.
    match goal with |- context [if ?c then _ else _] => destruct c end.
    + cbn [fst Scroller.Session.game]. apply updateUI_flying. repeat split; done.
    + cbn [fst]. apply scroller_update_flying.
      cbn [Scroller.Session.game Scroller.Session.set_lastTime].
      apply updateUI_flying. repeat split; done.
  - intros dt f w. apply scroller_update_flying.
  - apply flying_moves.
Qed.

Lemma scroller_bullets_witness :
  let f := Scroller.Frame.mk
             (Arcade.Input.mk false false true false false false false false true false)
             100000 100000 (fun _ _ => 0) 100000 (fun _ => 0.5) 100000 (fun _ => 0.5) in
  let w := Scroller.Session.mk
             (Scroller.Game.set_enemies
                [Sample.fairy 328 300 0 [Sample.pellet 344 397] 99500 1500]
                Sample.scroller) 0 99984 "Game Over!" in
  allFlying (Scroller.Session.game (Scroller.update (H := Sample.host) 16 f w)).
Proof.
  intros f w.
  apply (proj1 (proj2 (scroller_bullets_always_vectored (H := Sample.host)))).
  repeat split; repeat constructor.
Defined.

(** ** The rate of fire *)

Lemma arcade_playerShoot_cases `{JS.HostMath} (tested stored : Z)
    (boss : option Arcade.Boss.t) (p : Arcade.Player.t) :
  Arcade.Player.shootCooldown (Arcade.playerShoot tested stored boss p)
  = Arcade.Player.shootCooldown p /\
  ((tested - Arcade.Player.lastShot p < Arcade.Player.shootCooldown p)%Z ->
   Arcade.playerShoot tested stored boss p = p) /\
  ((Arcade.Player.shootCooldown p <= tested - Arcade.Player.lastShot p)%Z ->
   Arcade.Player.lastShot (Arcade.playerShoot tested stored boss p) = stored /\
   exists pushed,
     Arcade.Player.bullets (Arcade.playerShoot tested stored boss p)
     = Arcade.Player.bullets p ++ pushed /\
     length pushed = match boss with Some _ => 2 | None => 1 end%nat /\
     Forall (fun b => Arcade.Bullet.type b = player_t /\
                      Arcade.Bullet.y b = Arcade.Player.y p) pushed).
Proof.
  unfold Arcade.playerShoot.
  destruct (Z.ltb_spec (tested - Arcade.Player.lastShot p) (Arcade.Player.shootCooldown p))
    as [Hlt|Hge].
  - split; [done|]. split; [done|lia].
  - split; [by destruct boss|]. split; [lia|]. intros _.
    destruct boss; simpl; (split; [done|]); eexists; (split; [reflexivity|]);
      (split; [done|]); repeat constructor.
Qed.

Lemma scroller_playerShoot_cases (now : JS.number) (boss : option Scroller.Boss.t)
    (enemies : list Scroller.Enemy.t) (p : Scroller.Player.t) :
  Scroller.Player.shootCooldown (Scroller.playerShoot now boss enemies p)
  = Scroller.Player.shootCooldown p /\
  ((now - Scroller.Player.lastShot p <? Scroller.Player.shootCooldown p) = true ->
   Scroller.playerShoot now boss enemies p = p) /\
  ((now - Scroller.Player.lastShot p <? Scroller.Player.shootCooldown p) = false ->
   Scroller.Player.lastShot (Scroller.playerShoot now boss enemies p) = now /\
   exists pushed,
     Scroller.Player.bullets (Scroller.playerShoot now boss enemies p)
     = Scroller.Player.bullets p ++ pushed /\
     length pushed = 5%nat /\
     Forall (fun b => Scroller.Bullet.type b = player_t) pushed).
Proof.
  unfold Scroller.playerShoot.
  destruct (_ <? _).
  - split; [done|]. split; [done|discriminate].
  - split; [done|]. split; [discriminate|]. intros _.
    split; [done|]. eexists. split; [reflexivity|]. split; [done|].
    repeat constructor.
Qed.

(** X11.  Shots are rate limited through [lastShot].  In [updatePlayer],
    with the key not held, or held while the clock reads less than
    [shootCooldown] after [lastShot], the pool and [lastShot] stay as they
    are, wherever the player moves.  Otherwise one volley is added (two
    bullets with a boss on screen and one without in the boss games, five in
    the scroller) and [lastShot] becomes the clock reading stored; and then
    no later [updatePlayer] whose clock reads less than [shootCooldown]
    after that adds a bullet, whatever the keys. *)
Theorem shots_are_rate_limited `{JS.HostMath} :
  (forall (c : Canvas.t) (input : Arcade.Input.t) (clock : Arcade.Clock.t)
          (boss : option Arcade.Boss.t) (p : Arcade.Player.t),
     let p' := Arcade.updatePlayer c input clock boss p in
     (Arcade.Input.isShootingHeld input = false \/
      (Arcade.Clock.shotTested clock - Arcade.Player.lastShot p
       < Arcade.Player.shootCooldown p)%Z ->
      Arcade.Player.bullets p' = Arcade.Player.bullets p /\
      Arcade.Player.lastShot p' = Arcade.Player.lastShot p) /\
     (Arcade.Input.isShootingHeld input = true ->
      (Arcade.Player.shootCooldown p
       <= Arcade.Clock.shotTested clock - Arcade.Player.lastShot p)%Z ->
      Arcade.Player.lastShot p' = Arcade.Clock.shotStored clock /\
      length (Arcade.Player.bullets p')
      = (length (Arcade.Player.bullets p) + match boss with Some _ => 2 | None => 1 end)%nat /\
      forall (input2 : Arcade.Input.t) (clock2 : Arcade.Clock.t)
             (boss2 : option Arcade.Boss.t),
        (Arcade.Clock.shotTested clock2 - Arcade.Clock.shotStored clock
         < Arcade.Player.shootCooldown p)%Z ->
        Arcade.Player.bullets (Arcade.updatePlayer c input2 clock2 boss2 p')
        = Arcade.Player.bullets p')) /\
  (forall (input : Arcade.Input.t) (now : JS.number) (g : Scroller.Game.t),
     let p := Scroller.Game.player g in
     let g' := Scroller.updatePlayer input now g in
     (Arcade.Input.isShootingHeld input = false \/
      (now - Scroller.Player.lastShot p <? Scroller.Player.shootCooldown p) = true ->
      Scroller.Game.playerBullets g' = Scroller.Game.playerBullets g /\
      Scroller.Player.lastShot (Scroller.Game.player g') = Scroller.Player.lastShot p) /\
     (Arcade.Input.isShootingHeld input = true ->
      (now - Scroller.Player.lastShot p <? Scroller.Player.shootCooldown p) = false ->
      Scroller.Player.lastShot (Scroller.Game.player g') = now /\
      length (Scroller.Game.playerBullets g')
      = (length (Scroller.Game.playerBullets g) + 5)%nat /\
      forall (input2 : Arcade.Input.t) (now2 : JS.number),
        (now2 - now <? Scroller.Player.shootCooldown p) = true ->
        Scroller.Game.playerBullets (Scroller.updatePlayer input2 now2 g')
        = Scroller.Game.playerBullets g')).
Proof.
  split.
  - intros c input clock boss p p'. subst p'. unfold Arcade.updatePlayer.
    destruct (movePlayer_keeps c input p) as (Hb & Hl & Hc).
    destruct (arcade_playerShoot_cases (Arcade.Clock.shotTested clock)
                (Arcade.Clock.shotStored clock) boss (Arcade.movePlayer c input p))
      as (Hcool & Hwait & Hfire).
    rewrite Hl, Hc in Hwait, Hfire.
    split.
    + intros [Hheld|Hsoon].
      * by rewrite Hheld.
      * destruct (Arcade.Input.isShootingHeld input); [|done].
        by rewrite (Hwait Hsoon).
    + intros -> Hdue. destruct (Hfire Hdue) as (Hstored & pushed & Hpushed & Hlen & _).
      split; [done|]. split.
      { rewrite Hpushed, length_app, Hb, Hlen. done. }
      intros input2 clock2 boss2 Hsoon.
      set (p1 := Arcade.playerShoot _ _ boss (Arcade.movePlayer c input p)) in *.
      destruct (movePlayer_keeps c input2 p1) as (Hb2 & Hl2 & Hc2).
      destruct (Arcade.Input.isShootingHeld input2); [|done].
      destruct (arcade_playerShoot_cases (Arcade.Clock.shotTested clock2)
                  (Arcade.Clock.shotStored clock2) boss2 (Arcade.movePlayer c input2 p1))
        as (_ & Hwait2 & _).
      rewrite Hwait2; [done|]. rewrite Hl2, Hc2, Hstored, Hcool, Hc. done.
  - intros input now g p g'. subst p g'. unfold Scroller.updatePlayer.
    unfold Scroller.Game.playerBullets.
    cbn [Scroller.Game.player Scroller.Game.set_player Scroller.Game.boss
         Scroller.Game.enemies Scroller.Game.canvas].
    destruct (scroller_movePlayer_keeps (Scroller.Game.canvas g) input
                (Scroller.Game.player g)) as (Hb & Hl & Hc).
    destruct (scroller_playerShoot_cases now (Scroller.Game.boss g) (Scroller.Game.enemies g)
                (Scroller.movePlayer (Scroller.Game.canvas g) input (Scroller.Game.player g)))
      as (Hcool & Hwait & Hfire).
    rewrite Hl, Hc in Hwait, Hfire.
    split.
    + intros [Hheld|Hsoon].
      * by rewrite Hheld.
      * destruct (Arcade.Input.isShootingHeld input); [|done].
        by rewrite (Hwait Hsoon).
    + intros -> Hdue. destruct (Hfire Hdue) as (Hstored & pushed & Hpushed & Hlen & _).
      split; [done|]. split.
      { rewrite Hpushed, length_app, Hb, Hlen. done. }
      intros input2 now2 Hsoon.
      set (p1 := Scroller.playerShoot now _ _
                   (Scroller.movePlayer (Scroller.Game.canvas g) input
                      (Scroller.Game.player g))) in *.
      destruct (scroller_movePlayer_keeps (Scroller.Game.canvas g) input2 p1)
        as (Hb2 & Hl2 & Hc2).
      destruct (Arcade.Input.isShootingHeld input2); [|done].
      destruct (scroller_playerShoot_cases now2 (Scroller.Game.boss g)
                  (Scroller.Game.enemies g)
                  (Scroller.movePlayer (Scroller.Game.canvas g) input2 p1))
        as (_ & Hwait2 & _).
      rewrite Hwait2; [done|]. rewrite Hl2, Hc2, Hstored, Hcool, Hc. done.
Qed.

Lemma rate_limit_witness :
  let held := Arcade.Input.mk false false false false false false false false true false in
  let clock := Arcade.Clock.mk 5000 5000 5000 (fun _ => 5000%Z) in
  let clock2 := Arcade.Clock.mk 5100 5100 5100 (fun _ => 5100%Z) in
  let g := BossRush.startGame (BossRush.create Sample.canvas) in
  let p' := Arcade.updatePlayer (H := Sample.host) Sample.canvas held clock
              (BossRush.Game.boss g) (BossRush.Game.player g) in
  length (Arcade.Player.bullets p') = 2%nat /\
  Arcade.Player.bullets
    (Arcade.updatePlayer (H := Sample.host) Sample.canvas held clock2
       (BossRush.Game.boss g) p')
  = Arcade.Player.bullets p'.
Proof.
  intros held clock clock2 g p'.
  destruct (proj1 (shots_are_rate_limited (H := Sample.host)) Sample.canvas held clock
              (BossRush.Game.boss g) (BossRush.Game.player g)) as [_ Hfire].
  destruct Hfire as (_ & Hlen & Hnext); [reflexivity|vm_compute; discriminate|].
  split; [exact Hlen|]. apply Hnext. vm_compute. reflexivity.
Defined.

(** ** Movement stays on the canvas *)

Lemma ltb_leb (x y : float) : (x <? y) = true -> (x <=? y) = true.
Proof.
  rewrite FloatAxioms.ltb_spec, FloatAxioms.leb_spec. unfold SpecFloat.SFltb, SpecFloat.SFleb.
  by destruct (SpecFloat.SFcompare _ _) as [[]|].
Qed.

Lemma not_nan_compare (x : float) :
  is_nan x = false -> SpecFloat.SFcompare (Prim2SF x) (Prim2SF x) = Some Eq.
Proof.
  unfold is_nan. intros Hx. apply negb_false_iff in Hx.
  rewrite FloatAxioms.eqb_spec in Hx. unfold SpecFloat.SFeqb in Hx.
  by destruct (SpecFloat.SFcompare _ _) as [[]|].
Qed.

Lemma leb_refl (x : float) : is_nan x = false -> (x <=? x) = true.
Proof.
  intros Hx. rewrite FloatAxioms.leb_spec. unfold SpecFloat.SFleb.
  by rewrite (not_nan_compare x Hx).
Qed.

Lemma SFcompare_defined (x y : SpecFloat.spec_float) :
  SpecFloat.SFcompare x x = Some Eq ->
  SpecFloat.SFcompare y y = Some Eq ->
  exists c, SpecFloat.SFcompare x y = Some c.
Proof.
  destruct x as [sx|sx| |sx mx ex], y as [sy|sy| |sy my ey]; simpl; try done;
    intros _ _; by eexists.
Qed.

(** Two numbers, neither NaN, of which neither is below the other. *)
Lemma neither_below (x y : float) :
  is_nan x = false -> is_nan y = false ->
  (x <? y) = false -> (y <? x) = false ->
  (x <=? y) = true /\ (y <=? x) = true.
Proof.
  intros Hx Hy. apply not_nan_compare in Hx, Hy.
  rewrite !FloatAxioms.ltb_spec, !FloatAxioms.leb_spec.
  unfold SpecFloat.SFltb, SpecFloat.SFleb.
  rewrite (SFcompare_swap (Prim2SF x) (Prim2SF y)).
  destruct (SFcompare_defined _ _ Hx Hy) as [c ->].
  by destruct c.
Qed.

Lemma is_nan_nan : is_nan nan = true.
Proof. reflexivity. Qed.

(** Unless it is NaN, [Math.max(a, b)] is at least [a] and [Math.min(a, b)]
    at most [a]. *)
Lemma Math_max_lower (a b : float) :
  is_nan (Math_max a b) = false -> (a <=? Math_max a b) = true.
Proof.
  unfold Math_max.
  destruct (is_nan a) eqn:Ha;
    [intros Hn; cbn in Hn; try rewrite is_nan_nan in Hn; discriminate|].
  destruct (is_nan b) eqn:Hb;
    [intros Hn; cbn in Hn; try rewrite is_nan_nan in Hn; discriminate|].
  cbn [orb]. intros _.
  destruct (a <? b) eqn:Hab; [by apply ltb_leb|].
  destruct (b <? a) eqn:Hba; [by apply leb_refl|].
  destruct (get_sign a); [|by apply leb_refl].
  by apply neither_below.
Qed.

Lemma Math_min_upper (a b : float) :
  is_nan (Math_min a b) = false -> (Math_min a b <=? a) = true.
Proof.
  unfold Math_min.
  destruct (is_nan a) eqn:Ha;
    [intros Hn; cbn in Hn; try rewrite is_nan_nan in Hn; discriminate|].
  destruct (is_nan b) eqn:Hb;
    [intros Hn; cbn in Hn; try rewrite is_nan_nan in Hn; discriminate|].
  cbn [orb]. intros _.
  destruct (a <? b) eqn:Hab; [by apply leb_refl|].
  destruct (b <? a) eqn:Hba; [by apply ltb_leb|].
  destruct (get_sign a); [by apply leb_refl|].
  by apply neither_below.
Qed.

Lemma Math_max_cases (a b : float) :
  is_nan (Math_max a b) = false ->
  is_nan a = false /\ is_nan b = false /\ (Math_max a b = a \/ Math_max a b = b).
Proof.
  unfold Math_max.
  destruct (is_nan a) eqn:Ha;
    [intros Hn; cbn in Hn; try rewrite is_nan_nan in Hn; discriminate|].
  destruct (is_nan b) eqn:Hb;
    [intros Hn; cbn in Hn; try rewrite is_nan_nan in Hn; discriminate|].
  cbn [orb]. intros _. split; [done|]. split; [done|].
  destruct (a <? b); [by right|].
  destruct (b <? a); [by left|].
  destruct (get_sign a); [by right|by left].
Qed.

Lemma Math_min_cases (a b : float) :
  is_nan (Math_min a b) = false ->
  is_nan a = false /\ is_nan b = false /\ (Math_min a b = a \/ Math_min a b = b).
Proof.
  unfold Math_min.
  destruct (is_nan a) eqn:Ha;
    [intros Hn; cbn in Hn; try rewrite is_nan_nan in Hn; discriminate|].
  destruct (is_nan b) eqn:Hb;
    [intros Hn; cbn in Hn; try rewrite is_nan_nan in Hn; discriminate|].
  cbn [orb]. intros _. split; [done|]. split; [done|].
  destruct (a <? b); [by left|].
  destruct (b <? a); [by right|].
  destruct (get_sign a); [by left|by right].
Qed.

(** [Math.max(lo, Math.min(hi, v))] with [lo <= hi]: within the bounds,
    or NaN. *)
Lemma clamp_within (lo hi v : float) :
  (lo <=? hi) = true ->
  is_nan (Math_max lo (Math_min hi v)) = false ->
  (lo <=? Math_max lo (Math_min hi v)) = true /\
  (Math_max lo (Math_min hi v) <=? hi) = true.
Proof.
  intros Hbounds Hn. split; [by apply Math_max_lower|].
  destruct (Math_max_cases _ _ Hn) as (_ & Hmin & [-> | ->]); [done|].
  by apply Math_min_upper.
Qed.

Lemma arcade_playerShoot_position `{JS.HostMath} (tested stored : Z)
    (boss : option Arcade.Boss.t) (p : Arcade.Player.t) :
  Arcade.Player.x (Arcade.playerShoot tested stored boss p) = Arcade.Player.x p /\
  Arcade.Player.y (Arcade.playerShoot tested stored boss p) = Arcade.Player.y p.
Proof.
  unfold Arcade.playerShoot. destruct (_ <? _)%Z; [done|]. by destruct boss.
Qed.

Lemma scroller_playerShoot_position (now : JS.number) (boss : option Scroller.Boss.t)
    (enemies : list Scroller.Enemy.t) (p : Scroller.Player.t) :
  Scroller.Player.x (Scroller.playerShoot now boss enemies p) = Scroller.Player.x p /\
  Scroller.Player.y (Scroller.playerShoot now boss enemies p) = Scroller.Player.y p.
Proof.
  unfold Scroller.playerShoot. by destruct (_ <? _).
Qed.

(** What the four key tests of [updatePlayer] guarantee about a position
    [(x', y')] reached from [(x, y)] on a canvas of [w] by [h], for a
    player of [pw] by [ph]. *)
Definition keptOnCanvas (input : Arcade.Input.t) (w h pw ph x y x' y' : JS.number)
    : Prop :=
  let left := Arcade.Input.arrowleft input || Arcade.Input.a input in
  let right := Arcade.Input.arrowright input || Arcade.Input.d input in
  let up := Arcade.Input.arrowup input || Arcade.Input.w input in
  let down := Arcade.Input.arrowdown input || Arcade.Input.s input in
  (right = true -> is_nan x' = false -> (x' <=? w - pw) = true) /\
  (left = true -> right = false -> is_nan x' = false -> (0 <=? x') = true) /\
  (left = false -> right = false -> x' = x) /\
  (down = true -> is_nan y' = false -> (y' <=? h - ph) = true) /\
  (up = true -> down = false -> is_nan y' = false -> (0 <=? y') = true) /\
  (up = false -> down = false -> y' = y).

Lemma arcade_movePlayer_kept (c : Canvas.t) (input : Arcade.Input.t)
    (p : Arcade.Player.t) :
  keptOnCanvas input (Canvas.width c) (Canvas.height c)
    (Arcade.Player.width p) (Arcade.Player.height p)
    (Arcade.Player.x p) (Arcade.Player.y p)
    (Arcade.Player.x (Arcade.movePlayer c input p))
    (Arcade.Player.y (Arcade.movePlayer c input p)).
Proof.
  unfold keptOnCanvas, Arcade.movePlayer.
  destruct (Arcade.Input.arrowleft input || Arcade.Input.a input),
           (Arcade.Input.arrowright input || Arcade.Input.d input),
           (Arcade.Input.arrowup input || Arcade.Input.w input),
           (Arcade.Input.arrowdown input || Arcade.Input.s input);
    cbn [Arcade.Player.x Arcade.Player.y Arcade.Player.width Arcade.Player.height
         Arcade.Player.set_x Arcade.Player.set_y];
    repeat split; try done; intros;
      first [by apply Math_min_upper | by apply Math_max_lower].
Qed.

Lemma scroller_movePlayer_kept (c : Canvas.t) (input : Arcade.Input.t)
    (p : Scroller.Player.t) :
  keptOnCanvas input (Canvas.width c) (Canvas.height c)
    (Scroller.Player.width p) (Scroller.Player.height p)
    (Scroller.Player.x p) (Scroller.Player.y p)
    (Scroller.Player.x (Scroller.movePlayer c input p))
    (Scroller.Player.y (Scroller.movePlayer c input p)).
Proof.
  unfold keptOnCanvas, Scroller.movePlayer.
  destruct (Arcade.Input.arrowleft input || Arcade.Input.a input),
           (Arcade.Input.arrowright input || Arcade.Input.d input),
           (Arcade.Input.arrowup input || Arcade.Input.w input),
           (Arcade.Input.arrowdown input || Arcade.Input.s input);
    cbn [Scroller.Player.x Scroller.Player.y Scroller.Player.width Scroller.Player.height
         Scroller.Player.set_x Scroller.Player.set_y];
    repeat split; try done; intros;
      first [by apply Math_min_upper | by apply Math_max_lower].
Qed.

Lemma bossShoot_keeps `{JS.HostMath} (now : JS.number) (random : nat -> JS.number)
    (p : Scroller.Player.t) (boss : Scroller.Boss.t) :
  Scroller.Boss.x (Scroller.bossShoot now random p boss) = Scroller.Boss.x boss /\
  Scroller.Boss.y (Scroller.bossShoot now random p boss) = Scroller.Boss.y boss /\
  Scroller.Boss.width (Scroller.bossShoot now random p boss) = Scroller.Boss.width boss /\
  Scroller.Boss.health (Scroller.bossShoot now random p boss) = Scroller.Boss.health boss.
Proof.
  unfold Scroller.bossShoot. cbv zeta. unfold Scroller.Boss.set_bullets. done.
Qed.

(** The boss [updateBoss] leaves: the one it found, moved and clamped. *)
Lemma updateBoss_boss `{JS.HostMath} (now : JS.number) (random : nat -> JS.number)
    (w : Scroller.Session.t) (b : Scroller.Boss.t) :
  Scroller.Game.boss (Scroller.Session.game w) = Some b ->
  let c := Scroller.Game.canvas (Scroller.Session.game w) in
  let b1 := Scroller.moveBoss now c b in
  exists b',
    Scroller.Game.boss (Scroller.Session.game (Scroller.updateBoss now random w)) = Some b' /\
    Scroller.Boss.x b'
    = Math_max 0 (Math_min (Canvas.width c - Scroller.Boss.width b) (Scroller.Boss.x b1)) /\
    Scroller.Boss.y b' = Math_max 50 (Math_min 200 (Scroller.Boss.y b1)) /\
    Scroller.Boss.width b' = Scroller.Boss.width b /\
    Scroller.Boss.health b' = Scroller.Boss.health b.
Proof.
  intros Hboss c b1. unfold Scroller.updateBoss. rewrite Hboss. fold c. fold b1.
  destruct (moveBoss_bullets now c b) as (_ & Hhealth & Hwidth). fold b1 in Hhealth, Hwidth.
  match goal with |- context [Scroller.Game.set_boss (Some ?b0) _] => set (b4 := b0) end.
  assert (Hb4 : Scroller.Boss.x b4
                = Math_max 0 (Math_min (Canvas.width c - Scroller.Boss.width b)
                                       (Scroller.Boss.x b1)) /\
                Scroller.Boss.y b4 = Math_max 50 (Math_min 200 (Scroller.Boss.y b1)) /\
                Scroller.Boss.width b4 = Scroller.Boss.width b /\
                Scroller.Boss.health b4 = Scroller.Boss.health b).
  { subst b4. rewrite <- Hwidth, <- Hhealth.
    match goal with |- context [if ?c then _ else _] => destruct c end; [|done].
    match goal with |- context [Scroller.bossShoot ?t ?r ?p ?b0] =>
      destruct (bossShoot_keeps t r p b0) as (Hx & Hy & Hw & Hh) end.
    unfold Scroller.Boss.set_lastShot.
    cbn [Scroller.Boss.x Scroller.Boss.y Scroller.Boss.width Scroller.Boss.health].
    rewrite Hx, Hy, Hw, Hh. done. }
  exists b4. split; [|done].
  destruct (_ <=? _)%Z; [|done].
  unfold Scroller.showVictory, Scroller.showGameOver, Scroller.updateUI.
  cbn [Scroller.Session.game Scroller.Session.set_game Scroller.Session.set_overlayTitle].
  match goal with |- context [if ?c then _ else _] => destruct c end; done.
Qed.

(** X12.  Nothing is moved off the canvas by its own movement code.  In
    all three games [updatePlayer] leaves the player's X at most
    [canvas.width - width] after a move to the right and at least 0 after a
    move to the left alone, and as it was with neither key held; likewise
    for Y with down and up (unless the coordinate has become NaN).  In the
    scroller [updateBoss] leaves the boss, whatever its movement cycle did,
    with Y between 50 and 200 and X between 0 and [canvas.width - width]
    (when the canvas is at least as wide as the boss), unless NaN. *)
Theorem movers_are_kept_in_bounds `{JS.HostMath} :
  (forall (c : Canvas.t) (input : Arcade.Input.t) (clock : Arcade.Clock.t)
          (boss : option Arcade.Boss.t) (p : Arcade.Player.t),
     let p' := Arcade.updatePlayer c input clock boss p in
     keptOnCanvas input (Canvas.width c) (Canvas.height c)
       (Arcade.Player.width p) (Arcade.Player.height p)
       (Arcade.Player.x p) (Arcade.Player.y p)
       (Arcade.Player.x p') (Arcade.Player.y p')) /\
  (forall (input : Arcade.Input.t) (now : JS.number) (g : Scroller.Game.t),
     let p := Scroller.Game.player g in
     let p' := Scroller.Game.player (Scroller.updatePlayer input now g) in
     keptOnCanvas input (Canvas.width (Scroller.Game.canvas g))
       (Canvas.height (Scroller.Game.canvas g))
       (Scroller.Player.width p) (Scroller.Player.height p)
       (Scroller.Player.x p) (Scroller.Player.y p)
       (Scroller.Player.x p') (Scroller.Player.y p')) /\
  (forall (now : JS.number) (random : nat -> JS.number) (w : Scroller.Session.t)
          (b : Scroller.Boss.t),
     Scroller.Game.boss (Scroller.Session.game w) = Some b ->
     let limit := Canvas.width (Scroller.Game.canvas (Scroller.Session.game w))
                  - Scroller.Boss.width b in
     exists b',
       Scroller.Game.boss (Scroller.Session.game (Scroller.updateBoss now random w))
       = Some b' /\
       Scroller.Boss.width b' = Scroller.Boss.width b /\
       (is_nan (Scroller.Boss.y b') = false ->
        (50 <=? Scroller.Boss.y b') = true /\ (Scroller.Boss.y b' <=? 200) = true) /\
       ((0 <=? limit) = true -> is_nan (Scroller.Boss.x b') = false ->
        (0 <=? Scroller.Boss.x b') = true /\ (Scroller.Boss.x b' <=? limit) = true)).
Proof.
  split; [|split].
  - intros c input clock boss p p'. subst p'. unfold Arcade.updatePlayer.
    destruct (Arcade.Input.isShootingHeld input); [|apply arcade_movePlayer_kept].
    destruct (arcade_playerShoot_position (Arcade.Clock.shotTested clock)
                (Arcade.Clock.shotStored clock) boss (Arcade.movePlayer c input p))
      as [-> ->].
    apply arcade_movePlayer_kept.
  - intros input now g p p'. subst p p'. unfold Scroller.updatePlayer.
    cbn [Scroller.Game.player Scroller.Game.set_player].
    destruct (Arcade.Input.isShootingHeld input); [|apply scroller_movePlayer_kept].
    destruct (scroller_playerShoot_position now (Scroller.Game.boss g)
                (Scroller.Game.enemies g)
                (Scroller.movePlayer (Scroller.Game.canvas g) input (Scroller.Game.player g)))
      as [-> ->].
    apply scroller_movePlayer_kept.
  - intros now random w b Hboss limit.
    destruct (updateBoss_boss now random w b Hboss) as (b' & Hb' & Hx & Hy & Hw & _).
    exists b'. split; [done|]. split; [done|]. rewrite Hx, Hy. split.
    + intros Hn. by apply clamp_within.
    + intros Hlimit Hn. by apply clamp_within.
Qed.

Lemma movers_witness :
  let host := JS.Build_HostMath (fun _ => 1) (fun _ => 1) (fun _ _ => 0)
                (fun v => v) (fun a _ => a) in
  let b := Scroller.Boss.mk 649 70 50 70 3000 3000 [] 0 0 in
  let w := Scroller.Session.mk (Scroller.Game.set_boss (Some b) Sample.scroller)
             0 0 "Game Over!" in
  exists b',
    Scroller.Game.boss
      (Scroller.Session.game (Scroller.updateBoss (H := host) 0 (fun _ => 0.5) w))
    = Some b' /\
    (0 <=? Scroller.Boss.x b') = true /\
    (Scroller.Boss.x b' <=? 650) = true /\
    Scroller.Boss.x (Scroller.moveBoss (H := host) 0 Sample.canvas b) = 651.
Proof.
  intros host b w.
  destruct (proj2 (proj2 (movers_are_kept_in_bounds (H := host)))
              0 (fun _ => 0.5) w b) as (b' & Hb' & _ & _ & Hx); [reflexivity|].
  exists b'. split; [exact Hb'|].
  assert (Hn : is_nan (Scroller.Boss.x b') = false).
  { vm_compute in Hb'. injection Hb' as <-. vm_compute. reflexivity. }
  destruct Hx as [Hlo Hhi]; [vm_compute; reflexivity|exact Hn|].
  split; [exact Hlo|]. split; [exact Hhi|]. vm_compute. reflexivity.
Defined.

(** ** A volley against one enemy: every other bullet is passed over *)

(** The elements at the odd positions of a list. *)
Fixpoint passedOver {A} (l : list A) : list A :=
  match l with
  | _ :: b :: t => b :: passedOver t
  | _ => []
  end.

Lemma passedOver_length {A} (l : list A) :
  length (passedOver l) = Nat.div2 (length l).
Proof.
  assert (Hboth : length (passedOver l) = Nat.div2 (length l) /\
                  forall a, length (passedOver (a :: l)) = Nat.div2 (S (length l))).
  { induction l as [|b l [IH1 IH2]]; [done|].
    split; [apply IH2|]. intros a. simpl. by rewrite IH1. }
  apply Hboth.
Qed.

Lemma passedOver_le {A} (l : list A) : (length (passedOver l) <= length l)%nat.
Proof.
  assert (Hboth : (length (passedOver l) <= length l)%nat /\
                  forall a, (length (passedOver (a :: l)) <= length l)%nat).
  { induction l as [|b l [IH1 IH2]]; [simpl; split; [lia|intros; lia]|].
    split; [etrans; [apply IH2|simpl; lia]|]. intros a. simpl. lia. }
  apply Hboth.
Qed.

Lemma enemy_loop_on_volley (n : nat) :
  forall (l pre : list Scroller.Bullet.t) (g : Scroller.Game.t)
         (e0 : Scroller.Enemy.t) (h : Z) (rest : list Scroller.Enemy.t),
    Scroller.Game.playerBullets g = pre ++ l ->
    Scroller.Game.enemies g = Scroller.Enemy.set_health h e0 :: rest ->
    Forall (fun b => checkCollision (Scroller.Bullet.rect b) (Scroller.Enemy.rect e0) = true) l ->
    (length l <= n)%nat ->
    let r := forOfFrom Scroller.Game.playerBullets Scroller.enemyLoopBody n (length pre) g in
    Scroller.Game.playerBullets r = pre ++ passedOver l /\
    Scroller.Game.enemies r
    = Scroller.Enemy.set_health
        (h - Z.of_nat (length l - length (passedOver l))) e0 :: rest.
Proof.
  induction n as [|n IH]; intros l pre g e0 h rest Hbullets Henemies Hhit Hlen;
    cbv zeta.
  { destruct l; [|simpl in Hlen; lia]. simpl. rewrite Hbullets, Henemies.
    split; [done|]. do 2 f_equal. lia. }
  destruct l as [|b l].
  { simpl. rewrite Hbullets, app_nil_r, (proj2 (lookup_ge_None pre (length pre))) by lia.
    rewrite Hbullets, Henemies, app_nil_r. split; [done|]. do 2 f_equal. lia. }
  apply Forall_cons in Hhit as [Hb Hl].
  assert (Hdel : delete (length pre) (pre ++ b :: l) = pre ++ l).
  { clear. induction pre as [|a pre IHpre]; simpl; [done|]. by rewrite IHpre. }
  set (g1 := Scroller.Game.set_playerBullets (pre ++ l)
               (Scroller.Game.set_enemies
                  (Scroller.Enemy.set_health (h - 1) e0 :: rest) g)).
  assert (Hstep : forOfFrom Scroller.Game.playerBullets Scroller.enemyLoopBody (S n)
                    (length pre) g
                  = forOfFrom Scroller.Game.playerBullets Scroller.enemyLoopBody n
                      (S (length pre)) g1).
  { cbn [forOfFrom]. rewrite Hbullets.
    rewrite (list_lookup_middle pre l b (length pre) eq_refl).
    unfold Scroller.enemyLoopBody. rewrite Henemies.
    cbn [Scroller.hitFirstEnemy].
    change (Scroller.Enemy.rect (Scroller.Enemy.set_health h e0))
      with (Scroller.Enemy.rect e0).
    rewrite Hb, Hbullets, Hdel. done. }
  rewrite Hstep.
  assert (Hpb1 : Scroller.Game.playerBullets g1 = pre ++ l) by done.
  assert (Hen1 : Scroller.Game.enemies g1
                 = Scroller.Enemy.set_health (h - 1) e0 :: rest) by done.
  clearbody g1.
  destruct l as [|b2 t].
  - assert (Hg1 : forOfFrom Scroller.Game.playerBullets Scroller.enemyLoopBody n
                    (S (length pre)) g1 = g1).
    { destruct n as [|n]; [done|]. cbn [forOfFrom].
      rewrite Hpb1, app_nil_r, (proj2 (lookup_ge_None pre (S (length pre)))) by lia.
      done. }
    rewrite Hg1, Hpb1, Hen1. done.
  - apply Forall_cons in Hl as [_ Ht].
    destruct (IH t (pre ++ [b2]) g1 e0 (h - 1)%Z rest) as [Hr1 Hr2];
      cbv zeta in *.
    + rewrite Hpb1. by rewrite <- app_assoc.
    + done.
    + done.
    + simpl in Hlen. lia.
    + rewrite length_app in Hr1, Hr2. simpl in Hr1, Hr2.
      rewrite Nat.add_1_r in Hr1, Hr2.
      split.
      * rewrite Hr1. by rewrite <- app_assoc.
      * rewrite Hr2. f_equal. f_equal.
        pose proof (passedOver_le t) as Ht'. simpl. lia.
Qed.

(** X13.  The loop of [checkCollisions] over the player's bullets removes
    from the array it is walking with [for ... of], so after each bullet
    it resolves the iterator passes over the one that slid into its place.
    When every bullet of the pool overlaps the first enemy, one call
    resolves the bullets at the even positions only: the pool keeps those
    that were at the odd positions, in order (half of them, rounded down),
    and the enemy loses one point of health per bullet removed, going below
    zero if need be (it is [updateEnemies] that removes it, next frame). *)
Theorem volley_resolves_every_other_bullet (g : Scroller.Game.t)
    (e : Scroller.Enemy.t) (rest : list Scroller.Enemy.t) :
  Scroller.Game.enemies g = e :: rest ->
  Forall (fun b => checkCollision (Scroller.Bullet.rect b) (Scroller.Enemy.rect e) = true)
         (Scroller.Game.playerBullets g) ->
  let n := length (Scroller.Game.playerBullets g) in
  let g' := Scroller.bulletsVsEnemies g in
  Scroller.Game.playerBullets g' = passedOver (Scroller.Game.playerBullets g) /\
  length (Scroller.Game.playerBullets g') = Nat.div2 n /\
  Scroller.Game.enemies g'
  = Scroller.Enemy.set_health (Scroller.Enemy.health e - Z.of_nat (n - Nat.div2 n)) e
    :: rest.
Proof.
  intros Henemies Hhit n g'. subst n g'.
  unfold Scroller.bulletsVsEnemies, forOf.
  destruct (enemy_loop_on_volley (length (Scroller.Game.playerBullets g))
              (Scroller.Game.playerBullets g) [] g e (Scroller.Enemy.health e) rest)
    as [Hbullets Hhealth]; try done.
  { rewrite Henemies. by destruct e. }
  simpl in Hbullets, Hhealth. rewrite Hbullets, Hhealth.
  by rewrite passedOver_length.
Qed.

Lemma volley_witness :
  let fairy := Sample.fairy 330 190 9 [] 99500 1500 in
  let volley := [Sample.shot 335 200; Sample.shot 340 200; Sample.shot 350 200;
                 Sample.shot 355 200; Sample.shot 360 200] in
  let g := Scroller.Game.set_playerBullets volley
             (Scroller.Game.set_enemies [fairy] Sample.scroller) in
  Scroller.Game.playerBullets (Scroller.bulletsVsEnemies g)
  = [Sample.shot 340 200; Sample.shot 355 200] /\
  map Scroller.Enemy.health (Scroller.Game.enemies (Scroller.bulletsVsEnemies g))
  = [6%Z].
Proof.
  intros fairy volley g.
  destruct (volley_resolves_every_other_bullet g fairy []) as (Hb & _ & He).
  - reflexivity.
  - repeat constructor.
  - split; [exact Hb|]. rewrite He. reflexivity.
Defined.

(** ** The stage and the boss phase of the scroller *)

Definition inBossPhase (g : Scroller.Game.t) : bool :=
  Scroller.GameState.bossPhase (Scroller.Game.gameState g).

Definition hasBoss (g : Scroller.Game.t) : bool :=
  match Scroller.Game.boss g with Some _ => true | None => false end.

(** What the parts of a frame other than [updateScroll] and [spawnEnemies]
    leave alone: whether the boss phase is on, whether there is a boss,
    and how many enemies there are (at most as many as before). *)
Definition scrollY (g : Scroller.Game.t) : JS.number :=
  Scroller.GameState.scrollY (Scroller.Game.gameState g).

Definition samePhase (g s : Scroller.Game.t) : Prop :=
  inBossPhase s = inBossPhase g /\
  hasBoss s = hasBoss g /\
  scrollY s = scrollY g /\
  (length (Scroller.Game.enemies s) <= length (Scroller.Game.enemies g))%nat.

Lemma samePhase_refl (g : Scroller.Game.t) : samePhase g g.
Proof. by repeat split. Qed.

Lemma samePhase_trans (g s t : Scroller.Game.t) :
  samePhase g s -> samePhase s t -> samePhase g t.
Proof.
  intros (H1 & H2 & H3 & H4) (H5 & H6 & H7 & H8).
  repeat split; first [congruence | lia].
Qed.

Lemma updateUI_samePhase (g : Scroller.Game.t) : samePhase g (Scroller.updateUI g).
Proof.
  unfold Scroller.updateUI. destruct (_ >=? _)%Z; by repeat split.
Qed.

Lemma playerHit_samePhase (g : Scroller.Game.t) : samePhase g (Scroller.playerHit g).
Proof.
  assert (Hstep : forall s, samePhase s
            (Scroller.Game.set_boss
               (option_map (Scroller.Boss.set_bullets []) (Scroller.Game.boss s))
               (Scroller.Game.set_orphanBullets []
                  (Scroller.Game.set_enemies
                     (map (Scroller.Enemy.set_bullets []) (Scroller.Game.enemies s)) s)))).
  { intros s. unfold samePhase, inBossPhase, hasBoss. simpl. rewrite length_map.
    by destruct (Scroller.Game.boss s). }
  assert (Hover : forall s, samePhase s (Scroller.showGameOver s)) by done.
  unfold Scroller.playerHit.
  eapply samePhase_trans; [|match goal with |- context [if ?c then _ else _] =>
                               destruct c end; [apply Hover|apply samePhase_refl]].
  set (g2 := Scroller.updateUI
               (Scroller.Game.set_gameState
                  (Scroller.GameState.set_lives (Scroller.Game.lives g - 1)
                     (Scroller.Game.gameState g)) g)).
  apply (samePhase_trans g g2); [|exact (Hstep g2)].
  eapply samePhase_trans; [|apply updateUI_samePhase].
  done.
Qed.

Lemma updatePlayer_samePhase (input : Arcade.Input.t) (now : JS.number)
    (g : Scroller.Game.t) :
  samePhase g (Scroller.updatePlayer input now g).
Proof. by repeat split. Qed.

Lemma updateBullets_samePhase (g : Scroller.Game.t) :
  samePhase g (Scroller.updateBullets g).
Proof.
  unfold Scroller.updateBullets, samePhase, inBossPhase, hasBoss. simpl.
  rewrite length_map.
  repeat split; first [done | by destruct (Scroller.Game.boss g) | lia].
Qed.

Lemma walkEnemies_samePhase `{JS.HostMath} (now : JS.number)
    (random : nat -> nat -> JS.number) (es : list Scroller.Enemy.t) (i : nat)
    (g : Scroller.Game.t) :
  (length (fst (Scroller.walkEnemies now random i es g)) <= length es)%nat /\
  inBossPhase (snd (Scroller.walkEnemies now random i es g)) = inBossPhase g /\
  hasBoss (snd (Scroller.walkEnemies now random i es g)) = hasBoss g /\
  scrollY (snd (Scroller.walkEnemies now random i es g)) = scrollY g.
Proof.
  revert i. induction es as [|e0 rest IH]; intros i; simpl; [done|].
  specialize (IH (S i)).
  destruct (Scroller.walkEnemies now random (S i) rest g) as [kept g1].
  simpl in IH. destruct IH as (Hlen & Hphase & Hboss & Hscroll).
  destruct (_ || _).
  - destruct (_ <=? _)%Z; simpl; [|repeat split; first [done | lia]].
    match goal with |- context [Scroller.updateUI ?g0] =>
      destruct (updateUI_samePhase g0) as (Hp & Hb & Hy & _) end.
    rewrite Hp, Hb, Hy. repeat split; first [done | lia].
  - simpl. repeat split; first [done | lia].
Qed.

Lemma updateEnemies_samePhase `{JS.HostMath} (now : JS.number)
    (random : nat -> nat -> JS.number) (g : Scroller.Game.t) :
  samePhase g (Scroller.updateEnemies now random g).
Proof.
  unfold Scroller.updateEnemies.
  pose proof (walkEnemies_samePhase now random (Scroller.Game.enemies g) 0 g) as Hwalk.
  destruct (Scroller.walkEnemies now random 0 (Scroller.Game.enemies g) g) as [kept g1].
  simpl in Hwalk. destruct Hwalk as (Hlen & Hphase & Hboss & Hscroll).
  by repeat split.
Qed.

Lemma checkCollisions_samePhase (g : Scroller.Game.t) :
  samePhase g (Scroller.checkCollisions g).
Proof.
  unfold Scroller.checkCollisions.
  set (cx := Scroller.playerCenterX g). set (cy := Scroller.playerCenterY g).
  assert (H1 : samePhase g (Scroller.bulletsVsEnemies g)).
  { unfold Scroller.bulletsVsEnemies. apply forOf_invariant; [|apply samePhase_refl].
    intros bullet k s Hs. unfold Scroller.enemyLoopBody.
    destruct (Scroller.hitFirstEnemy bullet (Scroller.Game.enemies s)) as [es'|] eqn:Hfirst;
      simpl; [|done].
    destruct (hitFirstEnemy_first _ _ _ Hfirst) as (pre & enemy & post & Hes & -> & _ & _).
    eapply samePhase_trans; [exact Hs|].
    unfold samePhase, inBossPhase, hasBoss. simpl. rewrite Hes, !length_app. simpl.
    repeat split; lia. }
  assert (H2 : samePhase g (Scroller.bulletsVsBoss (Scroller.bulletsVsEnemies g))).
  { unfold Scroller.bulletsVsBoss.
    destruct (Scroller.Game.boss (Scroller.bulletsVsEnemies g)); [|done].
    apply forOf_invariant; [|done].
    intros bullet k s Hs. unfold Scroller.bossLoopBody.
    destruct (Scroller.Game.boss s) as [b|] eqn:Hboss; [|done].
    destruct (checkCollision _ _); [|done]. simpl.
    eapply samePhase_trans; [exact Hs|].
    unfold samePhase, inBossPhase, hasBoss. simpl. rewrite Hboss. repeat split; lia. }
  set (g2 := Scroller.bulletsVsBoss (Scroller.bulletsVsEnemies g)) in *.
  assert (H3 : samePhase g (Scroller.enemyBulletsVsPlayer cx cy g2)).
  { unfold Scroller.enemyBulletsVsPlayer. apply forOf_invariant; [|done].
    intros enemy k s Hs. unfold Scroller.enemyBulletsBody.
    destruct (existsb _ _); [|done]. simpl.
    eapply samePhase_trans; [exact Hs|apply playerHit_samePhase]. }
  set (g3 := Scroller.enemyBulletsVsPlayer cx cy g2) in *.
  assert (H4 : samePhase g (Scroller.orphansVsPlayer cx cy g3)).
  { unfold Scroller.orphansVsPlayer.
    destruct (existsb _ _); [|done].
    eapply samePhase_trans; [exact H3|apply playerHit_samePhase]. }
  set (g4 := Scroller.orphansVsPlayer cx cy g3) in *.
  unfold Scroller.bossBulletsVsPlayer.
  destruct (Scroller.Game.boss g4); [|done].
  destruct (existsb _ _); [|done].
  eapply samePhase_trans; [exact H4|apply playerHit_samePhase].
Qed.

Lemma updateBoss_samePhase `{JS.HostMath} (now : JS.number)
    (random : nat -> JS.number) (w : Scroller.Session.t) :
  samePhase (Scroller.Session.game w)
            (Scroller.Session.game (Scroller.updateBoss now random w)).
Proof.
  unfold Scroller.updateBoss.
  destruct (Scroller.Game.boss (Scroller.Session.game w)) as [b|] eqn:Hboss;
    [|apply samePhase_refl].
  match goal with |- context [Scroller.Game.set_boss (Some ?b0) _] => set (b4 := b0) end.
  assert (Hset : samePhase (Scroller.Session.game w)
                   (Scroller.Game.set_boss (Some b4) (Scroller.Session.game w))).
  { unfold samePhase, inBossPhase, hasBoss. simpl. rewrite Hboss. by repeat split. }
  destruct (_ <=? _)%Z; [|done].
  unfold Scroller.showVictory, Scroller.showGameOver.
  cbn [Scroller.Session.game Scroller.Session.set_game Scroller.Session.set_overlayTitle].
  match goal with |- context [Scroller.updateUI ?g0] =>
    pose proof (updateUI_samePhase g0) as (Hp & Hb & Hy & Hl) end.
  destruct Hset as (Hp' & Hb' & Hy' & Hl').
  unfold samePhase, inBossPhase, hasBoss, scrollY in *. simpl in *.
  repeat split; first [congruence | lia].
Qed.

Lemma stage_step `{JS.HostMath} (dt now : JS.number) (random : nat -> JS.number)
    (w : Scroller.Session.t) :
  let g := Scroller.Session.game w in
  let g' := Scroller.Session.game
              (Scroller.spawnEnemies dt now random
                 (Scroller.Session.set_game (Scroller.updateScroll now g) w)) in
  inBossPhase g = false ->
  inBossPhase g' = negb (scrollY g >? 0) /\
  (hasBoss g = false -> hasBoss g' = negb (scrollY g >? 0)) /\
  (length (Scroller.Game.enemies g') <= length (Scroller.Game.enemies g) + 1)%nat.
Proof.
  intros g g' Hoff. subst g'.
  set (g1 := Scroller.updateScroll now g).
  assert (Hscroll : inBossPhase g1 = negb (scrollY g >? 0) /\
                    (hasBoss g = false -> hasBoss g1 = negb (scrollY g >? 0)) /\
                    Scroller.Game.enemies g1 = Scroller.Game.enemies g).
  { subst g1. unfold Scroller.updateScroll, scrollY, inBossPhase in *.
    destruct (_ >? _); [done|]. rewrite Hoff. done. }
  destruct Hscroll as (Hphase & Hboss & Henemies).
  unfold Scroller.spawnEnemies.
  cbn [Scroller.Session.game Scroller.Session.set_game Scroller.Session.enemySpawnTimer].
  match goal with |- context [if ?c then _ else _] => destruct c end.
  - match goal with |- context [let '(_, _) := ?p in _] => destruct p as [x vx] end.
    cbn [Scroller.Session.game Scroller.Session.set_game
         Scroller.Session.set_enemySpawnTimer].
    unfold inBossPhase, hasBoss in *. simpl.
    rewrite length_app, Henemies. simpl. repeat split; first [done | lia].
  - cbn [Scroller.Session.game Scroller.Session.set_game
         Scroller.Session.set_enemySpawnTimer].
    rewrite Henemies. repeat split; first [done | lia].
Qed.

(** X14.  The scroller has two phases and goes from the first to the
    second once.  While the boss phase is off, a frame turns it on exactly
    when [scrollY] has run out (is not above 0), and that frame puts the
    boss on screen; it adds at most one enemy.  Once the boss phase is on,
    every frame leaves it on, leaves the boss on screen (also after it has
    been beaten), leaves [scrollY] alone and adds no enemy: the fodder can
    only thin out.  A game starts with the phase off and no boss. *)
Theorem boss_phase_is_entered_once `{JS.HostMath} :
  (forall (dt : JS.number) (f : Scroller.Frame.t) (w : Scroller.Session.t),
     let g := Scroller.Session.game w in
     let g' := Scroller.Session.game (Scroller.update dt f w) in
     (inBossPhase g = true ->
      inBossPhase g' = true /\ hasBoss g' = hasBoss g /\ scrollY g' = scrollY g /\
      (length (Scroller.Game.enemies g') <= length (Scroller.Game.enemies g))%nat) /\
     (inBossPhase g = false ->
      inBossPhase g' = negb (scrollY g >? 0) /\
      (hasBoss g = false -> hasBoss g' = negb (scrollY g >? 0)) /\
      (length (Scroller.Game.enemies g') <= length (Scroller.Game.enemies g) + 1)%nat)) /\
  (forall (perfNow : JS.number) (f : Scroller.Frame.t) (w : Scroller.Session.t),
     let g := Scroller.Session.game (fst (Scroller.startGame perfNow f w)) in
     inBossPhase g = false /\ hasBoss g = false).
Proof.
  assert (Hframe : forall (dt : JS.number) (f : Scroller.Frame.t) (w : Scroller.Session.t),
     let g := Scroller.Session.game w in
     let g' := Scroller.Session.game (Scroller.update dt f w) in
     (inBossPhase g = true ->
      inBossPhase g' = true /\ hasBoss g' = hasBoss g /\ scrollY g' = scrollY g /\
      (length (Scroller.Game.enemies g') <= length (Scroller.Game.enemies g))%nat) /\
     (inBossPhase g = false ->
      inBossPhase g' = negb (scrollY g >? 0) /\
      (hasBoss g = false -> hasBoss g' = negb (scrollY g >? 0)) /\
      (length (Scroller.Game.enemies g') <= length (Scroller.Game.enemies g) + 1)%nat)).
  { intros dt f w g g'. subst g g'. unfold Scroller.update.
    match goal with |- context [Scroller.updateEnemies ?t ?r ?g0] =>
      assert (H3 : samePhase (Scroller.Session.game w) (Scroller.updateEnemies t r g0));
      [|set (g3 := Scroller.updateEnemies t r g0) in *] end.
    { eapply samePhase_trans; [|apply updateEnemies_samePhase].
      eapply samePhase_trans; [|apply updateBullets_samePhase].
      apply updatePlayer_samePhase. }
    cbn [Scroller.Session.game Scroller.Session.set_game].
    destruct H3 as (Hphase & Hboss & Hscroll & Hlen).
    fold (inBossPhase g3). rewrite Hphase.
    split; intros Hnow; rewrite Hnow; cbn [negb].
    - match goal with |- context [Scroller.checkCollisions ?g0] =>
        destruct (checkCollisions_samePhase g0) as (Hp & Hb & Hy & Hl) end.
      destruct (updateBoss_samePhase (Scroller.Frame.bossNow f) (Scroller.Frame.bossRandom f)
                  (Scroller.Session.set_game g3 w)) as (Hp' & Hb' & Hy' & Hl').
      cbn [Scroller.Session.game Scroller.Session.set_game] in *.
      repeat split; first [congruence | lia].
    - match goal with |- context [Scroller.checkCollisions ?g0] =>
        destruct (checkCollisions_samePhase g0) as (Hp & Hb & Hy & Hl) end.
      destruct (stage_step dt (Scroller.Frame.stageNow f) (Scroller.Frame.stageRandom f)
                  (Scroller.Session.set_game g3 w)) as (Hp' & Hb' & Hl');
        [cbn [Scroller.Session.game Scroller.Session.set_game]; congruence|].
      cbn [Scroller.Session.game Scroller.Session.set_game] in *.
      rewrite Hscroll in Hp', Hb'.
      split; [congruence|]. split; [|lia].
      intros Hnone. rewrite Hb. apply Hb'. congruence. }
  split; [exact Hframe|].
  intros perfNow f w g. subst g. unfold Scroller.startGame.
  match goal with |- context [Scroller.updateUI ?g0] =>
    set (g1 := g0); assert (Hui : Scroller.updateUI g1 = g1) by reflexivity end.
  rewrite Hui. unfold Scroller.gameLoop.
  cbn [Scroller.Session.game Scroller.Session.set_lastTime Scroller.Session.lastTime].
  assert (Hrun : Scroller.GameState.isRunning (Scroller.Game.gameState g1) = true)
    by reflexivity.
  rewrite Hrun. cbn [negb fst].
  match goal with |- context [Scroller.update ?d ?f0 ?w0] =>
    destruct (Hframe d f0 w0) as [_ Hoff] end.
  destruct Hoff as (Hphase & Hboss & _); [reflexivity|].
  split; [exact Hphase|]. apply Hboss. reflexivity.
Qed.

Lemma boss_phase_witness :
  let f := Scroller.Frame.mk
             (Arcade.Input.mk false false false false false false false false false false)
             100000 100000 (fun _ _ => 0) 100000 (fun _ => 0.5) 100000 (fun _ => 0.5) in
  let stageEnd :=
    Scroller.Session.mk
      (Scroller.Game.set_gameState
         (Scroller.GameState.set_scrollY 0 (Scroller.Game.gameState Sample.scroller))
         Sample.scroller) 0 0 "Game Over!" in
  let bossFight := Scroller.update (H := Sample.host) 16 f stageEnd in
  let later := Scroller.update (H := Sample.host) 16 f bossFight in
  inBossPhase (Scroller.Session.game bossFight) = true /\
  hasBoss (Scroller.Session.game bossFight) = true /\
  inBossPhase (Scroller.Session.game later) = true /\
  hasBoss (Scroller.Session.game later) = true.
Proof.
  intros f stageEnd bossFight later.
  destruct (proj1 (boss_phase_is_entered_once (H := Sample.host)) 16 f stageEnd)
    as [_ Hoff].
  destruct Hoff as (Hphase & Hboss & _); [reflexivity|].
  specialize (Hboss eq_refl).
  destruct (proj1 (boss_phase_is_entered_once (H := Sample.host)) 16 f bossFight)
    as [Hon _].
  destruct (Hon Hphase) as (Hphase' & Hboss' & _).
  split; [exact Hphase|]. split; [exact Hboss|]. split; [exact Hphase'|].
  exact (eq_trans Hboss' Hboss).
Defined.

(** ** The title of the overlay *)

(** The frames the browser runs one after the other, each with its clock
    reading and what it reads from outside. *)
Definition playFrames `{JS.HostMath} (frames : list (JS.number * Scroller.Frame.t))
    (w : Scroller.Session.t) : Scroller.Session.t :=
  fold_left (fun w0 tf => fst (Scroller.gameLoop (fst tf) (snd tf) w0)) frames w.

Lemma spawnEnemies_title `{JS.HostMath} (dt now : JS.number)
    (random : nat -> JS.number) (w : Scroller.Session.t) :
  Scroller.Session.overlayTitle (Scroller.spawnEnemies dt now random w)
  = Scroller.Session.overlayTitle w.
Proof.
  unfold Scroller.spawnEnemies.
  match goal with |- context [if ?c then _ else _] => destruct c end; [|done].
  by match goal with |- context [let '(_, _) := ?p in _] => destruct p end.
Qed.

Lemma updateBoss_title `{JS.HostMath} (now : JS.number) (random : nat -> JS.number)
    (w : Scroller.Session.t) :
  Scroller.Session.overlayTitle (Scroller.updateBoss now random w)
  = Scroller.Session.overlayTitle w \/
  Scroller.Session.overlayTitle (Scroller.updateBoss now random w) = "Victory!"%string.
Proof.
  unfold Scroller.updateBoss.
  destruct (Scroller.Game.boss (Scroller.Session.game w)); [|by left].
  destruct (_ <=? _)%Z; [by right|by left].
Qed.

Lemma update_title `{JS.HostMath} (dt : JS.number) (f : Scroller.Frame.t)
    (w : Scroller.Session.t) :
  Scroller.Session.overlayTitle (Scroller.update dt f w)
  = Scroller.Session.overlayTitle w \/
  Scroller.Session.overlayTitle (Scroller.update dt f w) = "Victory!"%string.
Proof.
  unfold Scroller.update.
  cbn [Scroller.Session.overlayTitle Scroller.Session.set_game].
  destruct (negb _).
  - left. by rewrite spawnEnemies_title.
  - match goal with |- context [Scroller.updateBoss ?t ?r ?w0] =>
      destruct (updateBoss_title t r w0) as [Hsame|Hwon] end; [left|right]; done.
Qed.

Lemma gameLoop_title `{JS.HostMath} (t : JS.number) (f : Scroller.Frame.t)
    (w : Scroller.Session.t) :
  Scroller.Session.overlayTitle w = "Victory!"%string ->
  Scroller.Session.overlayTitle (fst (Scroller.gameLoop t f w)) = "Victory!"%string.
Proof.
  intros Hw. unfold Scroller.gameLoop. destruct (negb _); [done|].
  cbn [fst].
  match goal with |- context [Scroller.update ?d ?f0 ?w0] =>
    destruct (update_title d f0 w0) as [Hsame|Hwon] end; [|done].
  by rewrite Hsame.
Qed.

(** X15.  In the scroller nothing ever sets the title of the overlay back.
    [showVictory] writes "Victory!"; [restartGame], [startGame] and every
    frame leave the title as it is or write "Victory!" again; [showGameOver]
    shows the overlay without touching the title.  So once a game has been
    won, every later game of the session, restarted any number of frames
    ago, still carries "Victory!", and a defeat is announced under it.  The
    three-boss game does set it back: there [restartGame] leaves the title
    "Game Over!" whatever it was. *)
Theorem victory_title_is_never_reset `{JS.HostMath} :
  (forall (perfNow : JS.number) (f : Scroller.Frame.t) (w : Scroller.Session.t),
     Scroller.Session.overlayTitle w = "Victory!"%string ->
     Scroller.Session.overlayTitle (fst (Scroller.restartGame perfNow f w))
     = "Victory!"%string) /\
  (forall (frames : list (JS.number * Scroller.Frame.t)) (w : Scroller.Session.t),
     Scroller.Session.overlayTitle w = "Victory!"%string ->
     Scroller.Session.overlayTitle (playFrames frames w) = "Victory!"%string) /\
  (forall g : Stages.Game.t,
     Stages.Game.overlayTitle (state_of (Stages.restartGame g)) = "Game Over!"%string /\
     Stages.Game.overlayHidden (state_of (Stages.restartGame g)) = true).
Proof.
  split; [|split].
  - intros perfNow f w Hw.
    unfold Scroller.restartGame, Scroller.startGame. by apply gameLoop_title.
  - intros frames. unfold playFrames.
    induction frames as [|[t f0] frames IH]; intros w0 Hw0; [done|].
    simpl. apply IH. by apply gameLoop_title.
  - intros g. unfold Stages.restartGame, Stages.startGame, Stages.spawnBoss. by simpl.
Qed.

Lemma victory_title_witness :
  let f := Scroller.Frame.mk
             (Arcade.Input.mk false false false false false false false false false false)
             100000 100000 (fun _ _ => 0) 100000 (fun _ => 0.5) 100000 (fun _ => 0.5) in
  let won := Scroller.Session.mk Sample.scroller 0 0 "Victory!" in
  let w1 := fst (Scroller.restartGame (H := Sample.host) 1000 f won) in
  let g1 := Scroller.Session.game w1 in
  let lastLife :=
    Scroller.Session.set_game
      (Scroller.Game.set_orphanBullets [Sample.pellet 349 430.5]
         (Scroller.Game.set_gameState
            (Scroller.GameState.set_lives 1 (Scroller.Game.gameState g1)) g1)) w1 in
  let w2 := playFrames (H := Sample.host) [(1016, f)] lastLife in
  Scroller.Session.overlayTitle w2 = "Victory!"%string /\
  Scroller.Game.lives (Scroller.Session.game w2) = 0%Z /\
  Scroller.GameState.isRunning (Scroller.Game.gameState (Scroller.Session.game w2)) = false /\
  Scroller.Game.overlayHidden (Scroller.Session.game w2) = false.
Proof.
  intros f won w1 g1 lastLife w2.
  destruct (victory_title_is_never_reset (H := Sample.host)) as (Hrestart & Hframes & _).
  split.
  - apply Hframes. apply (Hrestart 1000 f won). reflexivity.
  - repeat split; vm_compute; reflexivity.
Defined.

(** ** Pausing the boss games *)

(** X16.  What a pause does to the frame delta.  In the three-boss game a
    paused [gameLoop] changes nothing and keeps asking for frames; resuming
    gives back the state the pause found, with [lastTime] set to the time of
    resuming, so the first frame after the pause is updated with the time
    since resuming.  In the single-boss game a paused [gameLoop] changes
    nothing and asks for no frame; resuming runs a frame at once, and since
    [lastTime] is still the time of the last frame before the pause, that
    frame is updated with a delta that includes the whole pause. *)
Theorem pause_and_frame_delta `{JS.HostMath} :
  (forall (patternSets : list (list Patterns.BossPattern.t)) (l : Stages.Loop.t)
          (t1 : JS.number),
     Stages.Game.isRunning (Stages.Loop.game l) = true ->
     Stages.GameState.isPaused (Stages.Game.gameState (Stages.Loop.game l)) = false ->
     let paused := Stages.togglePause t1 l in
     (forall input clock t,
        Stages.gameLoop patternSets input clock t paused = Normal (paused, true)) /\
     (forall t2, Stages.togglePause t2 paused = Stages.Loop.mk (Stages.Loop.game l) t2) /\
     (forall input clock t2 t3,
        Stages.gameLoop patternSets input clock t3 (Stages.togglePause t2 paused)
        = match Stages.update patternSets input clock (t3 - t2) (Stages.Loop.game l) with
          | Normal g' => Normal (Stages.Loop.mk g' t3, true)
          | Throw g' => Throw (Stages.Loop.mk g' t3, false)
          end)) /\
  (forall (patterns : list Patterns.BossPattern.t) (l : BossRush.Loop.t)
          (input1 : Arcade.Input.t) (clock1 : Arcade.Clock.t) (t1 : JS.number),
     BossRush.Game.isRunning (BossRush.Loop.game l) = true ->
     BossRush.GameState.isPaused (BossRush.Game.gameState (BossRush.Loop.game l)) = false ->
     exists paused,
       BossRush.togglePause patterns input1 clock1 t1 l = Normal (paused, false) /\
       (forall input clock t,
          BossRush.gameLoop patterns input clock t paused = Normal (paused, false)) /\
       (forall input clock t2,
          BossRush.togglePause patterns input clock t2 paused
          = match BossRush.update patterns input clock (t2 - BossRush.Loop.lastTime l)
                    (BossRush.Loop.game l) with
            | Normal g' => Normal (BossRush.Loop.mk g' t2, true)
            | Throw g' => Throw (BossRush.Loop.mk g' t2, false)
            end)).
Proof.
  split.
  - intros patternSets [g t0] t1 Hrun Hpaused paused. subst paused.
    destruct g as [c gs p es b inv pi pe oh ot].
    destruct gs as [run pz sc lv lvl st mx].
    unfold Stages.Game.isRunning in Hrun. simpl in Hrun, Hpaused. subst run pz.
    split; [done|]. split; [done|]. intros input clock t2 t3. reflexivity.
  - intros patterns [g t0] input1 clock1 t1 Hrun Hpaused.
    destruct g as [c gs p es b inv pi pe oh].
    destruct gs as [run pz sc lv lvl].
    unfold BossRush.Game.isRunning in Hrun. simpl in Hrun, Hpaused. subst run pz.
    eexists. split; [reflexivity|]. split; [done|].
    intros input clock t2. reflexivity.
Qed.

Lemma pause_witness :
  let clock := Arcade.Clock.mk 9000 9000 9000 (fun _ => 9000%Z) in
  let idleKeys := Arcade.Input.mk false false false false false false false false false false in
  let l := BossRush.Loop.mk (BossRush.startGame (BossRush.create Sample.canvas)) 1000 in
  exists paused resumed,
    BossRush.togglePause (H := Sample.host) [Sample.idle 5000; Sample.idle 5000]
      idleKeys clock 1100 l = Normal (paused, false) /\
    BossRush.togglePause (H := Sample.host) [Sample.idle 5000; Sample.idle 5000]
      idleKeys clock 9000 paused = Normal (resumed, true) /\
    BossRush.Game.patternIndex (BossRush.Loop.game resumed) = 1%nat.
Proof.
  intros clock idleKeys l.
  destruct (proj2 (pause_and_frame_delta (H := Sample.host))
              [Sample.idle 5000; Sample.idle 5000] l idleKeys clock 1100)
    as (paused & Hpause & _ & Hresume); [reflexivity|reflexivity|].
  exists paused. eexists. split; [exact Hpause|].
  rewrite (Hresume idleKeys clock 9000). split; vm_compute; reflexivity.
Defined.

(** ** What the boss games score *)

(** The single-boss game with no legacy enemy, at a given score. *)
Definition rushScore (n : Z) (g : BossRush.Game.t) : Prop :=
  BossRush.Game.enemies g = [] /\ BossRush.Game.score g = n.

(** The three-boss game with no legacy enemy and a thousand points for
    each stage behind. *)
Definition stageScore (g : Stages.Game.t) : Prop :=
  Stages.Game.enemies g = [] /\
  Stages.Game.score g = (1000 * (Stages.Game.stage g - 1))%Z.

Lemma rush_update_score `{JS.HostMath} (patterns : list Patterns.BossPattern.t)
    (input : Arcade.Input.t) (clock : Arcade.Clock.t) (dt : JS.number)
    (n : Z) (g : BossRush.Game.t) :
  rushScore n g ->
  outcome (rushScore n) (rushScore n) (BossRush.update patterns input clock dt g).
Proof.
  intros Hg. unfold BossRush.update.
  apply (outcome_andThen (rushScore n)).
  { unfold BossRush.updateBoss. cbn [BossRush.Game.boss BossRush.Game.set_player].
    destruct (BossRush.Game.boss g) as [b0|]; [|done].
    destruct (0 <? length patterns)%nat; [|done].
    destruct (patterns !! _) as [current|]; [|done].
    destruct (_ >=? _); done. }
  intros g2 Hg2.
  assert (Hg3 : rushScore n (BossRush.updateBullets g2)) by done.
  unfold BossRush.updateCollisions.
  apply (outcome_andThen (rushScore n)).
  { unfold BossRush.bulletsVsEnemies, forEach.
    apply forEachFrom_outcome; [|done].
    intros bullet k s _ Hs. unfold forEach.
    apply forEachFrom_outcome; [|done].
    intros enemy j s' Hj [Hempty _]. rewrite Hempty in Hj. done. }
  intros g4 Hg4.
  apply (outcome_andThen (rushScore n)).
  { unfold BossRush.bossBulletsVsPlayer.
    destruct (BossRush.Game.boss g4); [|done].
    unfold forEach. apply forEachFrom_outcome; [|done].
    intros bullet k s _ Hs. unfold BossRush.bossBulletCallback.
    destruct (checkCollision _ _); [|done].
    destruct (_ >=? _)%Z; [|done].
    match goal with |- context [if ?c then _ else _] => destruct c end; done. }
  intros g5 Hg5.
  unfold BossRush.bulletsVsBoss.
  destruct (BossRush.Game.boss g5); [|done].
  unfold forEach. apply forEachFrom_outcome; [|done].
  intros bullet k s _ Hs. unfold BossRush.bossCallback.
  destruct (BossRush.Game.boss s); [|done].
  destruct (checkCollision _ _); [|done].
  destruct (_ <=? _)%Z; done.
Qed.

Lemma stage_walk_score (now : nat -> Z) (snapshot : list Arcade.Bullet.t)
    (k : nat) (g : Stages.Game.t) :
  stageScore g -> stageScore (Stages.walkBossBullets now snapshot k g).
Proof.
  revert k g. induction snapshot as [|bullet rest IH]; intros k g Hg; simpl; [done|].
  apply IH. unfold Stages.bossBulletCallback.
  destruct (checkCollision _ _); [|done].
  destruct (_ >=? _)%Z; [|done].
  match goal with |- context [if ?c then _ else _] => destruct c end; done.
Qed.

Lemma stage_bossDefeated_score (g : Stages.Game.t) :
  stageScore g -> outcome stageScore stageScore (Stages.bossDefeated g).
Proof.
  intros [Hempty Hscore]. unfold Stages.bossDefeated, Stages.spawnBoss.
  assert (Hnext : forall s : Stages.Game.t,
            Stages.Game.enemies s = [] ->
            Stages.Game.score s = (Stages.Game.score g + 1000)%Z ->
            Stages.Game.stage s = (Stages.Game.stage g + 1)%Z ->
            stageScore s).
  { intros s He Hs Hst. split; [done|]. rewrite Hs, Hst, Hscore. lia. }
  destruct (_ <=? _)%Z; [|by apply Hnext].
  destruct (Stages.at_index _ _); by apply Hnext.
Qed.

Lemma stage_update_score `{JS.HostMath}
    (patternSets : list (list Patterns.BossPattern.t))
    (input : Arcade.Input.t) (clock : Arcade.Clock.t) (dt : JS.number)
    (g : Stages.Game.t) :
  stageScore g ->
  outcome stageScore stageScore (Stages.update patternSets input clock dt g).
Proof.
  intros Hg. unfold Stages.update.
  apply (outcome_andThen stageScore).
  { unfold Stages.updateBoss. cbn [Stages.Game.boss Stages.Game.set_player].
    destruct (Stages.Game.boss g) as [b0|]; [|done].
    destruct (Stages.at_index _ _) as [patterns|]; [|done].
    destruct (0 <? length patterns)%nat; [|done].
    destruct (patterns !! _) as [current|]; [|done].
    destruct (_ >=? _); done. }
  intros g2 Hg2.
  assert (Hg3 : stageScore (Stages.updateBullets g2)) by done.
  unfold Stages.updateCollisions.
  apply (outcome_andThen stageScore).
  { unfold Stages.bulletsVsEnemies, forEach.
    apply forEachFrom_outcome; [|done].
    intros bullet k s _ Hs. unfold forEach.
    apply forEachFrom_outcome; [|done].
    intros enemy j s' Hj [Hempty _]. rewrite Hempty in Hj. done. }
  intros g4 Hg4. simpl.
  assert (Hg5 : stageScore (Stages.bossBulletsVsPlayer (Arcade.Clock.hitAt clock) g4)).
  { unfold Stages.bossBulletsVsPlayer.
    destruct (Stages.Game.boss g4); [|done]. by apply stage_walk_score. }
  unfold Stages.bulletsVsBoss.
  destruct (Stages.Game.boss _); [|done].
  unfold forEach. apply forEachFrom_outcome; [|done].
  intros bullet k s _ Hs. unfold Stages.bossCallback.
  destruct (Stages.Game.boss s); [|done].
  destruct (checkCollision _ _); [|done].
  destruct (_ <=? _)%Z; [|done].
  by apply stage_bossDefeated_score.
Qed.

(** X17.  What the boss games score.  Points for hits exist only in the
    loop over the legacy [enemies] array, which [startGame] empties and
    nothing fills.  So in the single-boss game every frame leaves the score
    as it was: it is 0 from [startGame] to the end, and bringing the boss
    down awards nothing.  In the three-boss game the only score is the 1000
    points of a boss brought down, which come with the stage counter going
    up by one: after [startGame] and after every frame the score is 1000
    times the number of stages behind. *)
Theorem boss_games_score_only_bosses `{JS.HostMath} :
  (forall g : BossRush.Game.t, rushScore 0 (BossRush.startGame g)) /\
  (forall patterns input clock dt (n : Z) (g : BossRush.Game.t),
     rushScore n g ->
     rushScore n (state_of (BossRush.update patterns input clock dt g))) /\
  (forall g : Stages.Game.t, stageScore (state_of (Stages.startGame g))) /\
  (forall patternSets input clock dt (g : Stages.Game.t),
     stageScore g ->
     stageScore (state_of (Stages.update patternSets input clock dt g))).
Proof.
  split; [|split; [|split]].
  - intros g. by split.
  - intros patterns input clock dt n g Hg.
    pose proof (rush_update_score patterns input clock dt n g Hg) as Hout.
    by destruct (BossRush.update patterns input clock dt g).
  - intros g. unfold Stages.startGame, Stages.spawnBoss. by split.
  - intros patternSets input clock dt g Hg.
    pose proof (stage_update_score patternSets input clock dt g Hg) as Hout.
    by destruct (Stages.update patternSets input clock dt g).
Qed.

Lemma boss_games_score_witness :
  let shot y := Arcade.Bullet.mk 350 y 4 8 7 player_t (Some 0) (Some (-7)) in
  let clock := Arcade.Clock.mk 5000 5000 0 (fun _ => 5000%Z) in
  let idleKeys := Arcade.Input.mk false false false false false false false false false false in
  let start := state_of (Stages.startGame (Stages.create Sample.canvas)) in
  let g := Stages.Game.set_playerBullets [shot 100]
             (Stages.Game.set_boss (Some (Arcade.Boss.mk 302 40 96 96 2 1000 [])) start) in
  let g' := state_of (Stages.update (H := Sample.host) (Stages.patternSets (H := Sample.host))
                        idleKeys clock 16 g) in
  stageScore g' /\ Stages.Game.stage g' = 2%Z /\ Stages.Game.score g' = 1000%Z.
Proof.
  intros shot clock idleKeys start g g'.
  assert (Hg' : stageScore g').
  { apply (proj2 (proj2 (proj2 (boss_games_score_only_bosses (H := Sample.host))))).
    split; reflexivity. }
  split; [exact Hg'|]. split; vm_compute; reflexivity.
Defined.

(** ** The lives that are displayed *)

Definition running (g : Scroller.Game.t) : bool :=
  Scroller.GameState.isRunning (Scroller.Game.gameState g).

(** The count [updateUI] will hand to [repeat] is not negative, and a game
    that is still running has a life left. *)
Definition livesShown (g : Scroller.Game.t) : Prop :=
  (0 <= Scroller.Game.lives g)%Z /\
  (running g = true -> (0 < Scroller.Game.lives g)%Z).

Lemma playerHit_livesShown (s : Scroller.Game.t) :
  (0 < Scroller.Game.lives s)%Z -> livesShown (Scroller.playerHit s).
Proof.
  intros Hs. unfold livesShown, running, Scroller.playerHit, Scroller.updateUI,
    Scroller.showGameOver, Scroller.Game.lives, Scroller.Game.score in *.
  cbn.
  destruct (_ >=? _)%Z; cbn;
    match goal with |- context [(?a <=? 0)%Z] => destruct (Z.leb_spec a 0) end;
    cbn; split; first [lia | done | intros _; lia].
Qed.

Lemma checkCollisions_livesShown (g : Scroller.Game.t) :
  (0 < Scroller.Game.lives g)%Z -> livesShown (Scroller.checkCollisions g).
Proof.
  intros Hlives.
  set (Q := fun s : Scroller.Game.t =>
              Scroller.Game.gameState s = Scroller.Game.gameState g \/
              (hostileCleared s /\ livesShown s)).
  assert (Hhit : forall s, Scroller.Game.gameState s = Scroller.Game.gameState g ->
                           Q (Scroller.playerHit s)).
  { intros s Hgs. right. split.
    - destruct (scroller_playerHit s) as (_ & Ho & Hb & He). by repeat split.
    - apply playerHit_livesShown. unfold Scroller.Game.lives in *. by rewrite Hgs. }
  assert (Hmain : Q (Scroller.checkCollisions g)).
  { unfold Scroller.checkCollisions.
    set (cx := Scroller.playerCenterX g). set (cy := Scroller.playerCenterY g).
    destruct (bulletsVsEnemies_sameThreat g) as (Hgs1 & _).
    destruct (bulletsVsBoss_sameThreat (Scroller.bulletsVsEnemies g)) as (Hgs2 & _).
    set (g2 := Scroller.bulletsVsBoss (Scroller.bulletsVsEnemies g)) in *.
    assert (H2 : Q g2) by (left; congruence).
    assert (H3 : Q (Scroller.enemyBulletsVsPlayer cx cy g2)).
    { unfold Scroller.enemyBulletsVsPlayer, forOf.
      apply forOfFrom_invariant_at; [|done].
      intros enemy k s Hk Hs. unfold Scroller.enemyBulletsBody.
      destruct (existsb _ _) eqn:Hex; [|done]. simpl.
      destruct Hs as [Hgs|((_ & _ & He) & _)].
      - by apply Hhit.
      - rewrite Forall_lookup in He. rewrite (He k enemy Hk) in Hex. done. }
    set (g3 := Scroller.enemyBulletsVsPlayer cx cy g2) in *.
    assert (H4 : Q (Scroller.orphansVsPlayer cx cy g3)).
    { unfold Scroller.orphansVsPlayer.
      destruct (existsb _ _) eqn:Hex; [|done].
      destruct H3 as [Hgs|((Ho & _ & _) & _)].
      - by apply Hhit.
      - rewrite Ho in Hex. done. }
    set (g4 := Scroller.orphansVsPlayer cx cy g3) in *.
    unfold Scroller.bossBulletsVsPlayer.
    destruct (Scroller.Game.boss g4) as [b|] eqn:Hboss; [|done].
    destruct (existsb _ _) eqn:Hex; [|done].
    destruct H4 as [Hgs|((_ & Hb & _) & _)].
    - by apply Hhit.
    - unfold Scroller.Game.bossBullets in Hb. rewrite Hboss in Hb.
      rewrite Hb in Hex. done. }
  destruct Hmain as [Hgs|[_ Hshown]]; [|done].
  unfold livesShown, running, Scroller.Game.lives in *. rewrite Hgs. split; lia.
Qed.

Lemma updateUI_lives (g : Scroller.Game.t) :
  (Scroller.Game.lives g <= Scroller.Game.lives (Scroller.updateUI g))%Z.
Proof.
  unfold Scroller.updateUI, Scroller.Game.lives.
  destruct (_ >=? _)%Z; cbn; lia.
Qed.

Lemma updateEnemies_lives `{JS.HostMath} (now : JS.number)
    (random : nat -> nat -> JS.number) (g : Scroller.Game.t) :
  (Scroller.Game.lives g <= Scroller.Game.lives (Scroller.updateEnemies now random g))%Z.
Proof.
  unfold Scroller.updateEnemies.
  pose proof (walkEnemies_scores now random (Scroller.Game.enemies g) 0 g) as (_ & Hl & _).
  destruct (Scroller.walkEnemies now random 0 (Scroller.Game.enemies g) g) as [kept g1].
  simpl in *. unfold Scroller.Game.lives in *. simpl. lia.
Qed.

Lemma stage_lives `{JS.HostMath} (dt now : JS.number) (random : nat -> JS.number)
    (w : Scroller.Session.t) :
  Scroller.Game.lives
    (Scroller.Session.game
       (Scroller.spawnEnemies dt now random
          (Scroller.Session.set_game
             (Scroller.updateScroll now (Scroller.Session.game w)) w)))
  = Scroller.Game.lives (Scroller.Session.game w).
Proof.
  set (g := Scroller.Session.game w).
  assert (Hscroll : Scroller.Game.lives (Scroller.updateScroll now g)
                    = Scroller.Game.lives g).
  { unfold Scroller.updateScroll, Scroller.Game.lives.
    destruct (_ >? _); [done|]. by destruct (negb _). }
  unfold Scroller.spawnEnemies.
  cbn [Scroller.Session.game Scroller.Session.set_game Scroller.Session.enemySpawnTimer].
  match goal with |- context [if ?c then _ else _] => destruct c end.
  - match goal with |- context [let '(_, _) := ?p in _] => destruct p as [x vx] end.
    cbn [Scroller.Session.game Scroller.Session.set_game
         Scroller.Session.set_enemySpawnTimer].
    exact Hscroll.
  - exact Hscroll.
Qed.

Lemma updateBoss_lives `{JS.HostMath} (now : JS.number) (random : nat -> JS.number)
    (w : Scroller.Session.t) :
  (Scroller.Game.lives (Scroller.Session.game w)
   <= Scroller.Game.lives (Scroller.Session.game (Scroller.updateBoss now random w)))%Z.
Proof.
  unfold Scroller.updateBoss.
  destruct (Scroller.Game.boss (Scroller.Session.game w)) as [boss0|]; [|done].
  cbv zeta.
  match goal with |- context [if (?a <=? 0)%Z then _ else _] => destruct (a <=? 0)%Z end.
  - unfold Scroller.showVictory, Scroller.showGameOver.
    cbn [Scroller.Session.game Scroller.Session.set_game Scroller.Session.set_overlayTitle].
    match goal with |- context [Scroller.updateUI ?g0] =>
      pose proof (updateUI_lives g0) as Hui; set (g2 := g0) in * end.
    unfold Scroller.Game.lives in *. cbn in *. exact Hui.
  - cbn [Scroller.Session.game Scroller.Session.set_game]. done.
Qed.

(** The state [update] hands to [checkCollisions]. *)
Definition beforeCollisions `{JS.HostMath} (deltaTime : JS.number)
    (f : Scroller.Frame.t) (w : Scroller.Session.t) : Scroller.Session.t :=
  let g3 := Scroller.updateEnemies (Scroller.Frame.enemiesNow f)
              (Scroller.Frame.enemyRandom f)
              (Scroller.updateBullets
                 (Scroller.updatePlayer (Scroller.Frame.input f)
                    (Scroller.Frame.shotNow f) (Scroller.Session.game w))) in
  let w3 := Scroller.Session.set_game g3 w in
  if negb (Scroller.GameState.bossPhase (Scroller.Game.gameState g3)) then
    Scroller.spawnEnemies deltaTime (Scroller.Frame.stageNow f)
      (Scroller.Frame.stageRandom f)
      (Scroller.Session.set_game
         (Scroller.updateScroll (Scroller.Frame.stageNow f) g3) w3)
  else Scroller.updateBoss (Scroller.Frame.bossNow f) (Scroller.Frame.bossRandom f) w3.

Lemma update_from_beforeCollisions `{JS.HostMath} (dt : JS.number)
    (f : Scroller.Frame.t) (w : Scroller.Session.t) :
  Scroller.update dt f w
  = Scroller.Session.set_game
      (Scroller.checkCollisions (Scroller.Session.game (beforeCollisions dt f w)))
      (beforeCollisions dt f w).
Proof. reflexivity. Qed.

Lemma beforeCollisions_lives `{JS.HostMath} (dt : JS.number)
    (f : Scroller.Frame.t) (w : Scroller.Session.t) :
  (Scroller.Game.lives (Scroller.Session.game w)
   <= Scroller.Game.lives (Scroller.Session.game (beforeCollisions dt f w)))%Z.
Proof.
  unfold beforeCollisions. cbv zeta.
  set (g2 := Scroller.updateBullets _).
  assert (H2 : Scroller.Game.lives g2 = Scroller.Game.lives (Scroller.Session.game w))
    by reflexivity.
  pose proof (updateEnemies_lives (Scroller.Frame.enemiesNow f)
                (Scroller.Frame.enemyRandom f) g2) as H3.
  set (g3 := Scroller.updateEnemies _ _ g2) in *.
  destruct (negb _).
  - rewrite (stage_lives dt (Scroller.Frame.stageNow f) (Scroller.Frame.stageRandom f)
               (Scroller.Session.set_game g3 w)).
    cbn [Scroller.Session.game Scroller.Session.set_game]. lia.
  - pose proof (updateBoss_lives (Scroller.Frame.bossNow f) (Scroller.Frame.bossRandom f)
                  (Scroller.Session.set_game g3 w)) as H4.
    cbn [Scroller.Session.game Scroller.Session.set_game] in H4. lia.
Qed.

Lemma update_livesShown `{JS.HostMath} (dt : JS.number) (f : Scroller.Frame.t)
    (w : Scroller.Session.t) :
  (0 < Scroller.Game.lives (Scroller.Session.game w))%Z ->
  livesShown (Scroller.Session.game (Scroller.update dt f w)).
Proof.
  intros Hw. rewrite update_from_beforeCollisions.
  cbn [Scroller.Session.game Scroller.Session.set_game].
  apply checkCollisions_livesShown.
  pose proof (beforeCollisions_lives dt f w). lia.
Qed.

Lemma gameLoop_livesShown `{JS.HostMath} (t : JS.number) (f : Scroller.Frame.t)
    (w : Scroller.Session.t) :
  livesShown (Scroller.Session.game w) ->
  livesShown (Scroller.Session.game (fst (Scroller.gameLoop t f w))).
Proof.
  intros Hw. unfold Scroller.gameLoop.
  destruct (Scroller.GameState.isRunning _) eqn:Hrun; [|done].
  cbn [negb fst]. apply update_livesShown.
  cbn [Scroller.Session.game Scroller.Session.set_lastTime].
  by apply Hw.
Qed.

(** X18.  In the scroller the count of lives handed to the display is
    never negative.  A frame of [update] entered with a life left
    ([0 < lives]) hands [checkCollisions] a state that still has one (before
    it the lives can only grow, by extends), and leaves [0 <= lives], with
    [0 < lives] if the game is still running: the hit that takes the last
    life stops the game.  [startGame], which runs the first frame, leaves
    such a state, and so does any run of [gameLoop] frames from one, since
    [gameLoop] updates only a running game.  So every frame a game runs is
    entered with a life left, which is what [playerHit] and the
    ['♥ '.repeat(lives)] of [updateUI] need. *)
Theorem the_lives_shown_are_never_negative `{JS.HostMath} :
  (forall (dt : JS.number) (f : Scroller.Frame.t) (w : Scroller.Session.t),
     (0 < Scroller.Game.lives (Scroller.Session.game w))%Z ->
     Scroller.update dt f w
     = Scroller.Session.set_game
         (Scroller.checkCollisions (Scroller.Session.game (beforeCollisions dt f w)))
         (beforeCollisions dt f w) /\
     (0 < Scroller.Game.lives (Scroller.Session.game (beforeCollisions dt f w)))%Z /\
     livesShown (Scroller.Session.game (Scroller.update dt f w))) /\
  (forall (perfNow : JS.number) (f : Scroller.Frame.t) (w : Scroller.Session.t),
     livesShown (Scroller.Session.game (fst (Scroller.startGame perfNow f w)))) /\
  (forall (frames : list (JS.number * Scroller.Frame.t)) (w : Scroller.Session.t),
     livesShown (Scroller.Session.game w) ->
     livesShown (Scroller.Session.game (playFrames frames w))).
Proof.
  split; [|split].
  - intros dt f w Hw. split; [reflexivity|]. split.
    + pose proof (beforeCollisions_lives dt f w). lia.
    + by apply update_livesShown.
  - intros perfNow f w. unfold Scroller.startGame. cbv zeta.
    apply gameLoop_livesShown.
    cbn [Scroller.Session.game].
    split; [done|]. intros _. done.
  - intros frames. unfold playFrames.
    induction frames as [|[t f0] frames IH]; intros w0 Hw0; [done|].
    simpl. apply IH. by apply gameLoop_livesShown.
Qed.

Lemma lives_shown_witness :
  let f := Scroller.Frame.mk
             (Arcade.Input.mk false false false false false false false false false false)
             100000 100000 (fun _ _ => 0) 100000 (fun _ => 0.5) 100000 (fun _ => 0.5) in
  let lastLife :=
    Scroller.Session.mk
      (Scroller.Game.set_orphanBullets [Sample.pellet 344 410.5]
         (Scroller.Game.set_gameState
            (Scroller.GameState.set_lives 1 (Scroller.Game.gameState Sample.scroller))
            Sample.scroller)) 0 1000 "Game Over!" in
  let w2 := playFrames (H := Sample.host) [(1016, f)] lastLife in
  livesShown (Scroller.Session.game w2) /\
  Scroller.Game.lives (Scroller.Session.game w2) = 0%Z /\
  running (Scroller.Session.game w2) = false.
Proof.
  intros f lastLife w2.
  destruct (the_lives_shown_are_never_negative (H := Sample.host)) as (_ & _ & Hframes).
  split.
  - apply Hframes. split; [vm_compute; discriminate|]. intros _. vm_compute. reflexivity.
  - split; vm_compute; reflexivity.
Defined.
